(** * PyNoeSmartmeter: session, retry and aggregation logic

    A shallow embedding of the two Smartmeter clients of the repository,
    [src/PyNoeSmartmeter/client.py] (asynchronous, on httpx) and
    [src/noe_smartmeter/client.py] (synchronous, on requests), and the
    properties of their session handling, of the retry loop of [_call_api]
    and of [get_consumption_since_date].

    What is outside the repository is an explicit collaborator of the model:
    - the provider is a function from the requests seen so far and the
      current request to a reply (a response, or an exception raised by the
      transport);
    - the session file is one optional blob;
    - [datetime.date.today()] is a field of the environment;
    - JSON numbers are an abstract type with Python's [+] on it, so that
      nothing below depends on the laws of integer or float addition;
    - [print] is not modelled.
    [await] is sequential composition: no method of the asynchronous client
    starts two operations at once. *)

From Stdlib Require Import ZArith List String Ascii Bool Lia.
Import ListNotations.
Local Open Scope string_scope.
Local Open Scope Z_scope.

(** ** Python values *)

(** Numbers as they come out of [response.json()]: Python [int] or [float].
    [add] is Python's [+], [zero] the literal [0], [of_bool] the value a
    [bool] has in an addition, [nonzero] the truth value of a number. *)
Class Numeric : Type := {
  num : Type;
  add : num -> num -> num;
  zero : num;
  of_bool : bool -> num;
  nonzero : num -> bool
}.

#[export] Instance Z_numeric : Numeric := {|
  num := Z;
  add := Z.add;
  zero := 0;
  of_bool := fun b => if b then 1 else 0;
  nonzero := fun z => negb (z =? 0)
|}.

(** The exception classes the two clients raise, catch or let through.
    [RequestError] stands for the transport library's request error
    ([httpx.RequestError], [requests.exceptions.RequestException]);
    [HTTPStatusError] is what [raise_for_status] raises. *)
Inductive exn : Type :=
| SmartmeterLoginError
| SmartmeterConnectionError (status : Z)
| RequestError
| HTTPStatusError
| ValueError
| TypeError
| AttributeError
| KeyError
| IndexError
| UnpicklingError.

(** The outcome of running a piece of client code: a value, a raised
    exception, or [OutOfFuel] when the loop budget of the model is used up
    (no [except] clause catches that one). *)
Inductive result (A : Type) : Type :=
| Ok (a : A)
| Raise (e : exn)
| OutOfFuel.
Arguments Ok {A} a.
Arguments Raise {A} e.
Arguments OutOfFuel {A}.

Section PythonValues.
Context {N : Numeric}.

(** A decoded JSON document, which is also the type of the attributes the
    client copies out of one ([None] is [JNull]).  A [dict] is the list of
    its items. *)
Unset Elimination Schemes.
Inductive json : Type :=
| JNull
| JBool (b : bool)
| JNum (n : num)
| JStr (s : string)
| JArr (items : list json)
| JObj (members : list (string * json)).
Set Elimination Schemes.

(** [bool(v)]. *)
Definition truthy (v : json) : bool :=
  match v with
  | JNull => false
  | JBool b => b
  | JNum n => nonzero n
  | JStr s => negb (String.eqb s "")
  | JArr items => match items with [] => false | _ => true end
  | JObj members => match members with [] => false | _ => true end
  end.

(** [a and b], [a or b]. *)
Definition py_and (a b : json) : json := if truthy a then b else a.
Definition py_or (a b : json) : json := if truthy a then a else b.

(** [v is None]. *)
Definition is_none (v : json) : bool :=
  match v with JNull => true | _ => false end.

Fixpoint lookup_member (key : string) (members : list (string * json))
  : option json :=
  match members with
  | [] => None
  | (k, v) :: rest => if String.eqb k key then Some v else lookup_member key rest
  end.

(** [v[0]]. *)
Definition subscript0 (v : json) : result json :=
  match v with
  | JArr (x :: _) => Ok x
  | JArr [] => Raise IndexError
  | JStr (String c _) => Ok (JStr (String c ""))
  | JStr EmptyString => Raise IndexError
  | JObj _ => Raise KeyError
  | JNull | JBool _ | JNum _ => Raise TypeError
  end.

(** [v[key]] for a string key. *)
Definition subscript (v : json) (key : string) : result json :=
  match v with
  | JObj members =>
      match lookup_member key members with
      | Some x => Ok x
      | None => Raise KeyError
      end
  | _ => Raise TypeError
  end.

Fixpoint chars (s : string) : list json :=
  match s with
  | EmptyString => []
  | String c rest => JStr (String c "") :: chars rest
  end.

(** [iter(v)], run to the end. *)
Definition iterate (v : json) : result (list json) :=
  match v with
  | JArr items => Ok items
  | JStr s => Ok (chars s)
  | JObj members => Ok (map (fun kv => JStr (fst kv)) members)
  | JNull | JBool _ | JNum _ => Raise TypeError
  end.

(** [list(zip(a, b))]. *)
Definition zip_list (a b : json) : result (list (json * json)) :=
  match iterate a with
  | Ok xs =>
      match iterate b with
      | Ok ys => Ok (combine xs ys)
      | Raise e => Raise e
      | OutOfFuel => OutOfFuel
      end
  | Raise e => Raise e
  | OutOfFuel => OutOfFuel
  end.

(** [acc + v] where [acc] is a number. *)
Definition add_value (acc : num) (v : json) : result num :=
  match v with
  | JNum n => Ok (add acc n)
  | JBool b => Ok (add acc (of_bool b))
  | JNull | JStr _ | JArr _ | JObj _ => Raise TypeError
  end.

(** [sum(values)]: starts from [0] and adds from the left. *)
Fixpoint sum_from (acc : num) (values : list json) : result num :=
  match values with
  | [] => Ok acc
  | v :: rest =>
      match add_value acc v with
      | Ok acc' => sum_from acc' rest
      | Raise e => Raise e
      | OutOfFuel => OutOfFuel
      end
  end.

Definition py_sum (values : list json) : result num := sum_from zero values.

(** [value[1] for value in series if value[1] is not None]. *)
Definition non_null_values (series : list (json * json)) : list json :=
  map snd (filter (fun value => negb (is_none (snd value))) series).

(** [l[lo:hi]] with Python's treatment of negative and overlong indices. *)
Definition clamp_index (i len : Z) : Z :=
  if i <? 0 then Z.max 0 (i + len) else Z.min i len.

Definition py_slice {A : Type} (lo hi : Z) (l : list A) : list A :=
  let len := Z.of_nat (List.length l) in
  let a := clamp_index lo len in
  let b := clamp_index hi len in
  firstn (Z.to_nat (b - a)) (skipn (Z.to_nat a) l).

(** [l[lo:]]. *)
Definition py_slice_from {A : Type} (lo : Z) (l : list A) : list A :=
  let len := Z.of_nat (List.length l) in
  skipn (Z.to_nat (clamp_index lo len)) l.

End PythonValues.

(** ** Dates and times *)

(** [datetime.date]. *)
Record date : Type := mkdate {
  date_year : Z;
  date_month : Z;
  date_day : Z
}.

(** A naive [datetime.datetime]; the two formats of the client have no
    fraction of a second. *)
Record datetime : Type := mkdatetime {
  year : Z;
  month : Z;
  day : Z;
  hour : Z;
  minute : Z;
  second : Z
}.

(** [dt.date()]. *)
Definition date_of (dt : datetime) : date :=
  mkdate (year dt) (month dt) (day dt).

Definition date_eqb (a b : date) : bool :=
  (date_year a =? date_year b) && (date_month a =? date_month b)
  && (date_day a =? date_day b).

(** The fields of a [datetime], most significant first: naive datetimes
    compare as these tuples do. *)
Definition fields (dt : datetime) : list Z :=
  [year dt; month dt; day dt; hour dt; minute dt; second dt].

Fixpoint lex_gtb (a b : list Z) : bool :=
  match a, b with
  | x :: a', y :: b' => (y <? x) || ((x =? y) && lex_gtb a' b')
  | _, _ => false
  end.

(** [a > b]. *)
Definition datetime_gtb (a b : datetime) : bool := lex_gtb (fields a) (fields b).

Definition is_leap (y : Z) : bool :=
  ((y mod 4 =? 0) && negb (y mod 100 =? 0)) || (y mod 400 =? 0).

Definition days_in_month (y m : Z) : Z :=
  if m =? 2 then (if is_leap y then 29 else 28)
  else if (m =? 4) || (m =? 6) || (m =? 9) || (m =? 11) then 30
  else 31.

(** The checks of the [datetime] constructor. *)
Definition valid_datetime (dt : datetime) : bool :=
  (1 <=? year dt) && (year dt <=? 9999)
  && (1 <=? month dt) && (month dt <=? 12)
  && (1 <=? day dt) && (day dt <=? days_in_month (year dt) (month dt))
  && (0 <=? hour dt) && (hour dt <=? 23)
  && (0 <=? minute dt) && (minute dt <=? 59)
  && (0 <=? second dt) && (second dt <=? 59).

(** *** [strptime]

    [datetime.strptime] turns the format into a regular expression, matches
    it at the start of the text and rejects text that is left over.  In the
    two formats of the client every numeric directive is followed by a
    character that is no digit, or by the end of the format, so a field is
    the longest run of digits at its place: one or two digits ([%Y]: four)
    within the range of the directive.  Digits and white space are the
    ASCII ones. *)

Definition is_digit (c : ascii) : bool :=
  let n := Z.of_nat (nat_of_ascii c) in (48 <=? n) && (n <=? 57).

Definition is_space (c : ascii) : bool :=
  let n := Z.of_nat (nat_of_ascii c) in
  ((9 <=? n) && (n <=? 13)) || ((28 <=? n) && (n <=? 32)).

Definition digit_value (c : ascii) : Z := Z.of_nat (nat_of_ascii c) - 48.

(** The longest run of digits at the start of [s], its value read from the
    left on top of [acc], its length, and the rest of [s]. *)
Fixpoint read_digits (s : string) (acc : Z) (len : nat) : Z * nat * string :=
  match s with
  | String c rest =>
      if is_digit c then read_digits rest (10 * acc + digit_value c) (S len)
      else (acc, len, s)
  | EmptyString => (acc, len, s)
  end.

(** A numeric directive: [width] is the largest number of digits, [exact]
    says whether fewer are refused, [lo] and [hi] bound the value. *)
Definition read_field (exact : bool) (width : nat) (lo hi : Z) (s : string)
  : option (Z * string) :=
  let '(v, len, rest) := read_digits s 0 0 in
  if (if exact then Nat.eqb len width else (Nat.leb 1 len && Nat.leb len width)%bool)
     && (lo <=? v) && (v <=? hi)
  then Some (v, rest) else None.

Definition read_Y := read_field true 4 0 9999.
Definition read_m := read_field false 2 1 12.
Definition read_H := read_field false 2 0 23.
Definition read_M := read_field false 2 0 59.
Definition read_S := read_field false 2 0 61.

(** [%d] also takes a day below ten written after a blank. *)
Definition read_d (s : string) : option (Z * string) :=
  match s with
  | String " " (String c rest) =>
      if is_digit c && (1 <=? digit_value c) then Some (digit_value c, rest)
      else None
  | _ => read_field false 2 1 31 s
  end.

(** A literal character of the format. *)
Definition read_char (c : ascii) (s : string) : option string :=
  match s with
  | String c' rest => if Ascii.eqb c c' then Some rest else None
  | EmptyString => None
  end.

(** The letter [T] of the format: the expression is matched without regard
    to case. *)
Definition read_T (s : string) : option string :=
  match s with
  | String c rest =>
      if Ascii.eqb c "T" || Ascii.eqb c "t" then Some rest else None
  | EmptyString => None
  end.

Fixpoint skip_spaces (s : string) : string :=
  match s with
  | String c rest => if is_space c then skip_spaces rest else s
  | EmptyString => s
  end.

(** White space in the format: one or more white-space characters. *)
Definition read_spaces (s : string) : option string :=
  match s with
  | String c rest => if is_space c then Some (skip_spaces rest) else None
  | EmptyString => None
  end.

Definition and_then {A B : Type} (o : option A) (k : A -> option B) : option B :=
  match o with Some a => k a | None => None end.

Definition finish (dt : datetime) (rest : string) : result datetime :=
  match rest with
  | EmptyString => if valid_datetime dt then Ok dt else Raise ValueError
  | String _ _ => Raise ValueError
  end.

Definition or_value_error (o : option (result datetime)) : result datetime :=
  match o with Some r => r | None => Raise ValueError end.

(** [datetime.datetime.strptime(s, "%d.%m.%Y %H:%M")]. *)
Definition strptime_dmY_HM (s : string) : result datetime :=
  or_value_error (
    and_then (read_d s) (fun '(d, s) =>
    and_then (read_char "." s) (fun s =>
    and_then (read_m s) (fun '(m, s) =>
    and_then (read_char "." s) (fun s =>
    and_then (read_Y s) (fun '(y, s) =>
    and_then (read_spaces s) (fun s =>
    and_then (read_H s) (fun '(h, s) =>
    and_then (read_char ":" s) (fun s =>
    and_then (read_M s) (fun '(mi, s) =>
    Some (finish (mkdatetime y m d h mi 0) s))))))))))).

(** [datetime.datetime.strptime(s, "%Y-%m-%dT%H:%M:%S")]. *)
Definition strptime_iso (s : string) : result datetime :=
  or_value_error (
    and_then (read_Y s) (fun '(y, s) =>
    and_then (read_char "-" s) (fun s =>
    and_then (read_m s) (fun '(m, s) =>
    and_then (read_char "-" s) (fun s =>
    and_then (read_d s) (fun '(d, s) =>
    and_then (read_T s) (fun s =>
    and_then (read_H s) (fun '(h, s) =>
    and_then (read_char ":" s) (fun s =>
    and_then (read_M s) (fun '(mi, s) =>
    and_then (read_char ":" s) (fun s =>
    and_then (read_S s) (fun '(sec, s) =>
    Some (finish (mkdatetime y m d h mi sec) s))))))))))))).

(** *** [strftime] *)

Definition digit_char (d : Z) : ascii := ascii_of_nat (Z.to_nat (48 + d mod 10)).

(** [z] in decimal on [width] digits, zero-padded on the left. *)
Fixpoint pad (width : nat) (z : Z) (tail : string) : string :=
  match width with
  | O => tail
  | S w => pad w (z / 10) (String (digit_char z) tail)
  end.

(** [dt.strftime("%Y-%m-%d")] (years on four digits). *)
Definition strftime_Ymd (dt : datetime) : string :=
  pad 4 (year dt) (String "-" (pad 2 (month dt) (String "-" (pad 2 (day dt) "")))).

(** [d.strftime("%d.%m.%Y %H:%M")] on a [date]: the time of day is
    midnight. *)
Definition strftime_dmY_HM (d : date) : string :=
  pad 2 (date_day d) (String "." (pad 2 (date_month d) (String "."
    (pad 4 (date_year d) " 00:00")))).

(** ** The provider, the session file and the client object *)

(** A cookie jar: what a session object ([httpx.AsyncClient],
    [requests.Session]) carries from one request to the next. *)
Definition cookies : Type := list (string * string).

(** The session file holds a pickle; [Garbage] is content that
    [pickle.load] refuses. *)
Inductive blob : Type :=
| Pickled (jar : cookies)
| Garbage.

(** How the body of a POST is encoded: [data=] or [json=]. *)
Inductive encoding : Type := Form | AsJson.

Section Transport.
Context {N : Numeric}.

(** A value of the [params] dictionary of a GET. *)
Inductive param : Type :=
| PValue (v : json)
| PText (s : string)
| PInt (z : Z).

(** A request as it leaves the client, with the cookies of the session
    object that sends it. *)
Inductive request : Type :=
| Get (url : string) (params : list (string * param)) (jar : cookies)
| Post (url : string) (enc : encoding) (payload : list (string * string))
       (jar : cookies).

(** A response: [body] is [None] when the text is no JSON document, so that
    [response.json()] raises [ValueError]; [jar_after] is the cookie jar of
    the sending session once the response has been received. *)
Record response : Type := mkresponse {
  status_code : Z;
  body : option json;
  jar_after : cookies
}.

(** What the transport makes of a request: a response, or an exception. *)
Inductive reply : Type :=
| Reply (r : response)
| Fails (e : exn).

(** The world around one run: the provider answers a request knowing the
    requests before it (most recent first), and the clock gives
    [datetime.date.today()]. *)
Record env : Type := mkenv {
  server : list request -> request -> reply;
  today : date
}.

(** What a run changes outside the client object: the session file and the
    requests sent so far, most recent first. *)
Record world : Type := mkworld {
  session_file : option blob;
  sent : list request
}.

(** The attributes of a [Smartmeter] object.  A live session is its cookie
    jar. *)
Record client : Type := mkclient {
  supports_api : json;
  _metering_point_id : json;
  _account_id : json;
  _session : option cookies;
  _username : string;
  _password : string
}.

(** ** The monad of client code: reads the environment, updates the client
    and the world, and ends in a [result]. *)
Definition M (A : Type) : Type :=
  env -> client -> world -> result A * client * world.

Definition ret {A : Type} (a : A) : M A :=
  fun _ self w => (Ok a, self, w).

Definition bind {A B : Type} (c : M A) (k : A -> M B) : M B :=
  fun e self w =>
    match c e self w with
    | (Ok a, self', w') => k a e self' w'
    | (Raise x, self', w') => (Raise x, self', w')
    | (OutOfFuel, self', w') => (OutOfFuel, self', w')
    end.

Definition raise {A : Type} (x : exn) : M A :=
  fun _ self w => (Raise x, self, w).

Definition out_of_fuel {A : Type} : M A :=
  fun _ self w => (OutOfFuel, self, w).

(** [try: c except <classes>: handler]. *)
Definition try_except {A : Type} (c : M A) (classes : exn -> bool)
  (handler : exn -> M A) : M A :=
  fun e self w =>
    match c e self w with
    | (Raise x, self', w') =>
        if classes x then handler x e self' w' else (Raise x, self', w')
    | other => other
    end.

(** A pure computation that may raise. *)
Definition lift {A : Type} (r : result A) : M A :=
  fun _ self w => (r, self, w).

Definition get_self : M client := fun _ self w => (Ok self, self, w).

Definition set_self (f : client -> client) : M unit :=
  fun _ self w => (Ok tt, f self, w).

Definition get_today : M date := fun e self w => (Ok (today e), self, w).

(** [os.path.exists(SESSION_FILE)] and reading the file. *)
Definition read_session_file : M (option blob) :=
  fun _ self w => (Ok (session_file w), self, w).

Definition write_session_file (b : blob) : M unit :=
  fun _ self w => (Ok tt, self, mkworld (Some b) (sent w)).

Definition remove_session_file : M unit :=
  fun _ self w => (Ok tt, self, mkworld None (sent w)).

(** One round trip: the request is recorded, and the provider's reply is
    the response or the exception of the call. *)
Definition send (req : request) : M response :=
  fun e self w =>
    let w' := mkworld (session_file w) (req :: sent w) in
    match server e (sent w) req with
    | Reply r => (Ok r, self, w')
    | Fails x => (Raise x, self, w')
    end.

(** [response.json()]. *)
Definition json_of (r : response) : result json :=
  match body r with
  | Some doc => Ok doc
  | None => Raise ValueError
  end.

(** [response.json()] on what [_call_api] returned, which is [None] when
    the loop ended without a [return]. *)
Definition json_of_returned (r : option response) : result json :=
  match r with
  | Some r => json_of r
  | None => Raise AttributeError
  end.

Definition and_then_result {A B : Type} (r : result A) (k : A -> result B)
  : result B :=
  match r with
  | Ok a => k a
  | Raise x => Raise x
  | OutOfFuel => OutOfFuel
  end.

(** The setters of the attributes. *)
Definition with_supports_api (v : json) (c : client) : client :=
  mkclient v (_metering_point_id c) (_account_id c) (_session c)
           (_username c) (_password c).
Definition with_metering_point_id (v : json) (c : client) : client :=
  mkclient (supports_api c) v (_account_id c) (_session c)
           (_username c) (_password c).
Definition with_account_id (v : json) (c : client) : client :=
  mkclient (supports_api c) (_metering_point_id c) v (_session c)
           (_username c) (_password c).
Definition with_session (s : option cookies) (c : client) : client :=
  mkclient (supports_api c) (_metering_point_id c) (_account_id c) s
           (_username c) (_password c).
Definition with_username (u : string) (c : client) : client :=
  mkclient (supports_api c) (_metering_point_id c) (_account_id c)
           (_session c) u (_password c).
Definition with_password (p : string) (c : client) : client :=
  mkclient (supports_api c) (_metering_point_id c) (_account_id c)
           (_session c) (_username c) p.

End Transport.

Declare Scope client_scope.
Delimit Scope client_scope with client.
Notation "x <- c ;; k" := (bind c (fun x => k))
  (at level 61, c at next level, right associativity) : client_scope.
Notation "c ;; k" := (bind c (fun _ => k))
  (at level 61, right associativity) : client_scope.
Local Open Scope client_scope.

(** The endpoints, as the class attributes give them. *)
Definition AUTH_URL : string :=
  "https://smartmeter.netz-noe.at/orchestration/Authentication/Login".
Definition API_BASE_URL : string :=
  "https://smartmeter.netz-noe.at/orchestration".
Definition API_USER_DETAILS_URL : string := API_BASE_URL ++ "/User/GetBasicInfo".
Definition API_ACCOUNTING_DETAILS_URL : string :=
  API_BASE_URL ++ "/User/GetAccountIdByBussinespartnerId".
Definition API_METER_DETAILS_URL : string :=
  API_BASE_URL ++ "/User/GetMeteringPointByAccountId".
Definition API_CONSUMPTION_URL : string := API_BASE_URL ++ "/ConsumptionRecord".

(** [range(a, b)]. *)
Definition range (a b : Z) : list Z :=
  map (fun i => a + Z.of_nat i) (seq 0 (Z.to_nat (b - a))).

(** What [get_consumption_since_date] hands back: a time stamp and a
    number (a dictionary in one client, a tuple in the other). *)
Record reading {N : Numeric} : Type := mkreading {
  timestamp : string;
  consumption : num
}.
Arguments mkreading {N} timestamp consumption.

Section Aggregation.
Context {N : Numeric}.

(** [datetime.datetime.strptime(time, "%Y-%m-%dT%H:%M:%S")] on an entry of
    a series: anything but a string is a [TypeError]. *)
Definition strptime_bucket (time : json) : result datetime :=
  match time with
  | JStr s => strptime_iso s
  | _ => Raise TypeError
  end.

(** The loop over the day series:
<<
    for time, consumption in day_data:
        formatted_time = datetime.datetime.strptime(time, "%Y-%m-%dT%H:%M:%S")
        if formatted_time > input_date:
            energy_sum += consumption
>> *)
Fixpoint day_loop (input_date : datetime) (day_data : list (json * json))
  (energy_sum : num) : result num :=
  match day_data with
  | [] => Ok energy_sum
  | (time, consumption) :: rest =>
      and_then_result (strptime_bucket time) (fun formatted_time =>
        if datetime_gtb formatted_time input_date
        then and_then_result (add_value energy_sum consumption)
               (fun energy_sum => day_loop input_date rest energy_sum)
        else day_loop input_date rest energy_sum)
  end.

(** [energy_sum += sum(value[1] for value in series if value[1] is not None)] *)
Definition add_non_null (energy_sum : num) (series : list (json * json))
  : result num :=
  and_then_result (py_sum (non_null_values series))
    (fun s => Ok (add energy_sum s)).

(** [text + v]: only a string can be appended to a string. *)
Definition concat (text : string) (v : json) : result string :=
  match v with
  | JStr s => Ok (text ++ s)
  | _ => Raise TypeError
  end.

(** [list(zip(data["peakDemandTimes"], data[values_key]))]. *)
Definition series_of (data : json) (values_key : string)
  : result (list (json * json)) :=
  and_then_result (subscript data "peakDemandTimes") (fun times =>
  and_then_result (subscript data values_key) (fun values =>
  zip_list times values)).

End Aggregation.

(** ** The asynchronous client, [src/PyNoeSmartmeter/client.py] *)
Module PyNoeSmartmeter.
Section Client.
Context {N : Numeric}.

(** [Smartmeter(username, password)]. *)
Definition __init__ (username password : string) : client :=
  mkclient (JBool false) JNull JNull None username password.

Definition _clear_stored_session : M unit :=
  f <- read_session_file ;;
  match f with
  | Some _ => remove_session_file
  | None => ret tt
  end.

(** Returns the verdict and the jar of [session] after the probe. *)
Definition _check_session (session : cookies) : M (bool * cookies) :=
  try_except
    (response <- send (Get API_USER_DETAILS_URL [] session) ;;
     ret (status_code response =? 200, jar_after response))
    (fun x => match x with TypeError => true | _ => false end)
    (fun _ => ret (false, session)).

Definition _save_session (session : cookies) : M unit :=
  write_session_file (Pickled session).

Definition _load_check_session : M bool :=
  f <- read_session_file ;;
  match f with
  | Some data =>
      match data with
      | Pickled cookies =>
          checked <- _check_session cookies ;;
          if fst checked
          then set_self (with_session (Some (snd checked))) ;; ret true
          else ret false
      | Garbage => raise UnpicklingError
      end
  | None => ret false
  end.

Definition authenticate (username password : option string) : M bool :=
  match username with
  | Some u => set_self (with_username u) ;; _clear_stored_session
  | None => ret tt
  end ;;
  match password with
  | Some p => set_self (with_password p) ;; _clear_stored_session
  | None => ret tt
  end ;;
  loaded <- _load_check_session ;;
  if loaded then ret true
  else
    self <- get_self ;;
    let auth_data := [("user", _username self); ("pwd", _password self)] in
    response <- send (Post AUTH_URL Form auth_data []) ;;
    let session := jar_after response in
    (if status_code response =? 200 then ret tt
     else if status_code response =? 401 then raise SmartmeterLoginError
     else raise (SmartmeterConnectionError (status_code response))) ;;
    _save_session session ;;
    set_self (with_session (Some session)) ;;
    ret true.

(** [self._session.get(url, params=params)]. *)
Definition session_get (url : string) (params : list (string * param))
  : M response :=
  self <- get_self ;;
  match _session self with
  | Some jar =>
      response <- send (Get url params jar) ;;
      set_self (with_session (Some (jar_after response))) ;;
      ret response
  | None => raise AttributeError
  end.

(** The loop of [_call_api]; one unit of [fuel] pays for one turn.
<<
    while retry_count < 1:
        response = await self._session.get(url, params=params)
        if response.status_code == 401:
            await self.authenticate()
            retry_count += 1
        elif response.status_code == 200:
            return response
>>
    [None] is what a Python function returns when it ends without a
    [return]. *)
Fixpoint call_api_loop (fuel : nat) (url : string)
  (params : list (string * param)) (retry_count : Z) : M (option response) :=
  if retry_count <? 1 then
    match fuel with
    | O => out_of_fuel
    | S fuel =>
        response <- session_get url params ;;
        if status_code response =? 401 then
          authenticate None None ;;
          call_api_loop fuel url params (retry_count + 1)
        else if status_code response =? 200 then
          ret (Some response)
        else call_api_loop fuel url params retry_count
    end
  else ret None.

Definition _call_api (fuel : nat) (url : string)
  (params : list (string * param)) : M (option response) :=
  self <- get_self ;;
  match _session self with
  | None => authenticate None None ;; ret tt
  | Some _ => ret tt
  end ;;
  call_api_loop fuel url params 0.

Definition get_user_details (fuel : nat) : M json :=
  response <- _call_api fuel (API_USER_DETAILS_URL ++ "?context=2") [] ;;
  lift (and_then_result (json_of_returned response) subscript0).

Definition get_accounting_details (fuel : nat) : M json :=
  response <- _call_api fuel (API_ACCOUNTING_DETAILS_URL ++ "?context=2") [] ;;
  entry <- lift (and_then_result (json_of_returned response) subscript0) ;;
  has_smartmeter <- lift (subscript entry "hasSmartMeter") ;;
  has_electricity <- lift (subscript entry "hasElectricity") ;;
  has_communicative <- lift (subscript entry "hasCommunicative") ;;
  has_active <- lift (subscript entry "hasActive") ;;
  set_self (with_supports_api
    (py_and (py_and (py_and has_smartmeter has_electricity) has_communicative)
            has_active)) ;;
  account_id <- lift (subscript entry "accountId") ;;
  set_self (with_account_id account_id) ;;
  ret entry.

Definition get_meter_details (fuel : nat) : M json :=
  self <- get_self ;;
  (if is_none (_account_id self)
   then get_accounting_details fuel ;; ret tt
   else ret tt) ;;
  self <- get_self ;;
  url <- lift (concat (API_METER_DETAILS_URL ++ "?context=2&accountId=")
                      (py_or (_account_id self) (JStr ""))) ;;
  response <- _call_api fuel url [] ;;
  entry <- lift (and_then_result (json_of_returned response) subscript0) ;;
  metering_point_id <- lift (subscript entry "meteringPointId") ;;
  set_self (with_metering_point_id metering_point_id) ;;
  ret entry.

(** [except (httpx.RequestError, ValueError)]. *)
Definition caught (x : exn) : bool :=
  match x with
  | RequestError | ValueError => true
  | _ => false
  end.

Definition ensure_metering_point (fuel : nat) : M unit :=
  self <- get_self ;;
  if is_none (_metering_point_id self)
  then get_meter_details fuel ;; ret tt
  else ret tt.

Definition get_consumption_per_day (fuel : nat) (day : string)
  : M (list (json * json)) :=
  ensure_metering_point fuel ;;
  try_except
    (self <- get_self ;;
     response <- _call_api fuel (API_CONSUMPTION_URL ++ "/Day")
       [("meterId", PValue (_metering_point_id self)); ("day", PText day)] ;;
     data <- lift (and_then_result (json_of_returned response) subscript0) ;;
     lift (series_of data "meteredValues"))
    caught
    (fun _ => ret []).

Definition get_consumption_for_month (fuel : nat) (year month : Z)
  : M (list (json * json)) :=
  ensure_metering_point fuel ;;
  try_except
    (self <- get_self ;;
     response <- _call_api fuel (API_CONSUMPTION_URL ++ "/Month")
       [("meterId", PValue (_metering_point_id self));
        ("year", PInt year); ("month", PInt month)] ;;
     data <- lift (and_then_result (json_of_returned response) subscript0) ;;
     lift (series_of data "meteredValues"))
    caught
    (fun _ => ret []).

(** [response.raise_for_status()] of httpx: anything but 2xx raises. *)
Definition raise_for_status (r : option response) : result unit :=
  match r with
  | Some r =>
      if (200 <=? status_code r) && (status_code r <=? 299) then Ok tt
      else Raise HTTPStatusError
  | None => Raise AttributeError
  end.

Definition get_consumption_for_year (fuel : nat) (year : Z)
  : M (list (json * json)) :=
  ensure_metering_point fuel ;;
  try_except
    (self <- get_self ;;
     response <- _call_api fuel (API_CONSUMPTION_URL ++ "/Year")
       [("meterId", PValue (_metering_point_id self)); ("year", PInt year)] ;;
     lift (raise_for_status response) ;;
     data <- lift (and_then_result (json_of_returned response) subscript0) ;;
     lift (series_of data "values"))
    caught
    (fun _ => ret []).

(** "Add up day consumption after input time (hours)". *)
Definition add_day_remainder (fuel : nat) (input_date : datetime)
  (energy_sum : num) : M num :=
  day_data <- get_consumption_per_day fuel (strftime_Ymd input_date) ;;
  lift (day_loop input_date day_data energy_sum).

(** "Add up the rest of the month consumption after input date (days)". *)
Definition add_month_remainder (fuel : nat) (input_date : datetime)
  (energy_sum : num) : M num :=
  month_data <- get_consumption_for_month fuel (year input_date)
                  (month input_date) ;;
  lift (add_non_null energy_sum (py_slice_from (day input_date) month_data)).

(** "Add up the rest of the year consumption after input date (months)". *)
Definition add_year_remainder (fuel : nat) (current_date : date)
  (input_date : datetime) (energy_sum : num) : M num :=
  let start_index := month input_date in
  let end_index :=
    if year input_date =? date_year current_date
    then date_month current_date - 1 else 12 in
  year_data <- get_consumption_for_year fuel (year input_date) ;;
  lift (add_non_null energy_sum (py_slice start_index end_index year_data)).

(** The loop over the years after the one of the input date. *)
Fixpoint later_years_loop (fuel : nat) (years : list Z) (energy_sum : num)
  : M num :=
  match years with
  | [] => ret energy_sum
  | year :: rest =>
      year_values <- get_consumption_for_year fuel year ;;
      energy_sum <- lift (add_non_null energy_sum year_values) ;;
      later_years_loop fuel rest energy_sum
  end.

(** "Add up the rest of the time after the input dates year (months)". *)
Definition add_later_years (fuel : nat) (current_date : date)
  (input_date : datetime) (energy_sum : num) : M num :=
  if negb (year input_date =? date_year current_date) then
    let start_year :=
      if year input_date + 1 <=? date_year current_date
      then year input_date + 1 else year input_date in
    later_years_loop fuel (range start_year (date_year current_date + 1))
      energy_sum
  else ret energy_sum.

Definition get_consumption_since_date (fuel : nat)
  (input_date_string : string) (offset : num) : M reading :=
  current_date <- get_today ;;
  input_date <- lift (strptime_dmY_HM input_date_string) ;;
  let energy_sum := zero in
  if date_eqb current_date (date_of input_date) then
    ret (mkreading input_date_string offset)
  else
    energy_sum <- add_day_remainder fuel input_date energy_sum ;;
    energy_sum <- add_month_remainder fuel input_date energy_sum ;;
    energy_sum <- add_year_remainder fuel current_date input_date energy_sum ;;
    energy_sum <- add_later_years fuel current_date input_date energy_sum ;;
    ret (mkreading (strftime_dmY_HM current_date) (add energy_sum offset)).

End Client.
End PyNoeSmartmeter.

(** ** The synchronous client, [src/noe_smartmeter/client.py]

    Its attribute [_supports_api] is the field [supports_api] of [client],
    and its session file is a file of its own. *)
Module noe_smartmeter.
Section Client.
Context {N : Numeric}.

Definition _authenticate (username password : string) : M unit :=
  f <- read_session_file ;;
  session <-
    match f with
    | Some data =>
        match data with
        | Pickled jar =>
            response <- send (Get API_USER_DETAILS_URL [] jar) ;;
            if negb (status_code response =? 200) then ret None
            else ret (Some (jar_after response))
        | Garbage => raise UnpicklingError
        end
    | None => ret None
    end ;;
  session <-
    match session with
    | None =>
        let auth_data := [("user", username); ("pwd", password)] in
        response <- send (Post AUTH_URL AsJson auth_data []) ;;
        let session := jar_after response in
        (if status_code response =? 200 then ret tt
         else if status_code response =? 401 then raise SmartmeterLoginError
         else raise (SmartmeterConnectionError (status_code response))) ;;
        write_session_file (Pickled session) ;;
        ret session
    | Some session => ret session
    end ;;
  set_self (with_session (Some session)).

(** [self._session.get(url, params=params)]. *)
Definition session_get (url : string) (params : list (string * param))
  : M response :=
  self <- get_self ;;
  match _session self with
  | Some jar =>
      response <- send (Get url params jar) ;;
      set_self (with_session (Some (jar_after response))) ;;
      ret response
  | None => raise AttributeError
  end.

(** The loop of [_call_api]; one unit of [fuel] pays for one turn.
<<
    while retry_count < 1:
        response = self._session.get(url, params=params)
        if response.status_code == 401:
            self._authenticate(self._username, self._password)
            retry_count += 1
        elif response.status_code == 200:
            return response
>> *)
Fixpoint call_api_loop (fuel : nat) (url : string)
  (params : list (string * param)) (retry_count : Z) : M (option response) :=
  if retry_count <? 1 then
    match fuel with
    | O => out_of_fuel
    | S fuel =>
        response <- session_get url params ;;
        if status_code response =? 401 then
          self <- get_self ;;
          _authenticate (_username self) (_password self) ;;
          call_api_loop fuel url params (retry_count + 1)
        else if status_code response =? 200 then
          ret (Some response)
        else call_api_loop fuel url params retry_count
    end
  else ret None.

Definition _call_api (fuel : nat) (url : string)
  (params : list (string * param)) : M (option response) :=
  call_api_loop fuel url params 0.

Definition get_user_details (fuel : nat) : M json :=
  response <- _call_api fuel (API_USER_DETAILS_URL ++ "?context=2") [] ;;
  lift (and_then_result (json_of_returned response) subscript0).

Definition get_meter_details (fuel : nat) (account_id : json) : M json :=
  url <- lift (concat
                 (API_METER_DETAILS_URL ++ "?context=2&accountId=") account_id) ;;
  response <- _call_api fuel url [] ;;
  lift (and_then_result (json_of_returned response) subscript0).

Definition get_accounting_details (fuel : nat) : M json :=
  response <- _call_api fuel (API_ACCOUNTING_DETAILS_URL ++ "?context=2") [] ;;
  lift (and_then_result (json_of_returned response) subscript0).

Definition _retrieve_user_data (fuel : nat) : M unit :=
  accounting_details <- get_accounting_details fuel ;;
  account_id <- lift (subscript accounting_details "accountId") ;;
  meter_details <- get_meter_details fuel account_id ;;
  has_smartmeter <- lift (subscript accounting_details "hasSmartMeter") ;;
  has_electricity <- lift (subscript accounting_details "hasElectricity") ;;
  has_communicative <- lift (subscript accounting_details "hasCommunicative") ;;
  has_active <- lift (subscript accounting_details "hasActive") ;;
  set_self (with_supports_api
    (py_and (py_and (py_and has_smartmeter has_electricity) has_communicative)
            has_active)) ;;
  metering_point_id <- lift (subscript meter_details "meteringPointId") ;;
  set_self (with_metering_point_id metering_point_id) ;;
  account_id <- lift (subscript accounting_details "accountId") ;;
  set_self (with_account_id account_id).

(** [Smartmeter(username, password)]: the object is the client of the final
    state. *)
Definition __init__ (fuel : nat) (username password : string) : M unit :=
  set_self (fun _ => mkclient (JBool false) JNull JNull None username password) ;;
  _authenticate username password ;;
  _retrieve_user_data fuel.

(** [except (requests.exceptions.RequestException, ValueError)]; the
    [HTTPError] of [raise_for_status] is a [RequestException]. *)
Definition caught (x : exn) : bool :=
  match x with
  | RequestError | HTTPStatusError | ValueError => true
  | _ => false
  end.

Definition get_consumption_per_day (fuel : nat) (day : string)
  : M (list (json * json)) :=
  try_except
    (self <- get_self ;;
     response <- _call_api fuel (API_CONSUMPTION_URL ++ "/Day")
       [("meterId", PValue (_metering_point_id self)); ("day", PText day)] ;;
     data <- lift (json_of_returned response) ;;
     lift (series_of data "meteredValues"))
    caught
    (fun _ => ret []).

Definition get_consumption_for_month (fuel : nat) (year month : Z)
  : M (list (json * json)) :=
  try_except
    (self <- get_self ;;
     response <- _call_api fuel (API_CONSUMPTION_URL ++ "/Month")
       [("meterId", PValue (_metering_point_id self));
        ("year", PInt year); ("month", PInt month)] ;;
     data <- lift (json_of_returned response) ;;
     lift (series_of data "meteredValues"))
    caught
    (fun _ => ret []).

(** [response.raise_for_status()] of requests: 4xx and 5xx raise. *)
Definition raise_for_status (r : option response) : result unit :=
  match r with
  | Some r =>
      if (400 <=? status_code r) && (status_code r <? 600)
      then Raise HTTPStatusError else Ok tt
  | None => Raise AttributeError
  end.

Definition get_consumption_for_year (fuel : nat) (year : Z)
  : M (list (json * json)) :=
  try_except
    (self <- get_self ;;
     response <- _call_api fuel (API_CONSUMPTION_URL ++ "/Year")
       [("meterId", PValue (_metering_point_id self)); ("year", PInt year)] ;;
     lift (raise_for_status response) ;;
     data <- lift (json_of_returned response) ;;
     lift (series_of data "values"))
    caught
    (fun _ => ret []).

(** "Add up day consumption after input time (hours)". *)
Definition add_day_remainder (fuel : nat) (input_date : datetime)
  (energy_sum : num) : M num :=
  day_data <- get_consumption_per_day fuel (strftime_Ymd input_date) ;;
  lift (day_loop input_date day_data energy_sum).

(** "Add up the rest of the month consumption after input date (days)". *)
Definition add_month_remainder (fuel : nat) (input_date : datetime)
  (energy_sum : num) : M num :=
  month_data <- get_consumption_for_month fuel (year input_date)
                  (month input_date) ;;
  lift (add_non_null energy_sum (py_slice_from (day input_date) month_data)).

(** "Add up the rest of the year consumption after input date (months)". *)
Definition add_year_remainder (fuel : nat) (current_date : date)
  (input_date : datetime) (energy_sum : num) : M num :=
  let start_index := month input_date in
  let end_index :=
    if year input_date =? date_year current_date
    then date_month current_date - 1 else 12 in
  year_data <- get_consumption_for_year fuel (year input_date) ;;
  lift (add_non_null energy_sum (py_slice start_index end_index year_data)).

Fixpoint later_years_loop (fuel : nat) (years : list Z) (energy_sum : num)
  : M num :=
  match years with
  | [] => ret energy_sum
  | year :: rest =>
      year_values <- get_consumption_for_year fuel year ;;
      energy_sum <- lift (add_non_null energy_sum year_values) ;;
      later_years_loop fuel rest energy_sum
  end.

(** "Add up the rest of the time after the input dates year (months)". *)
Definition add_later_years (fuel : nat) (current_date : date)
  (input_date : datetime) (energy_sum : num) : M num :=
  if negb (year input_date =? date_year current_date) then
    let start_year :=
      if year input_date + 1 <=? date_year current_date
      then year input_date + 1 else year input_date in
    later_years_loop fuel (range start_year (date_year current_date + 1))
      energy_sum
  else ret energy_sum.

Definition get_consumption_since_date (fuel : nat)
  (input_date_string : string) (offset : num) : M (string * num) :=
  current_date <- get_today ;;
  input_date <- lift (strptime_dmY_HM input_date_string) ;;
  let energy_sum := zero in
  if date_eqb current_date (date_of input_date) then
    ret (input_date_string, offset)
  else
    energy_sum <- add_day_remainder fuel input_date energy_sum ;;
    energy_sum <- add_month_remainder fuel input_date energy_sum ;;
    energy_sum <- add_year_remainder fuel current_date input_date energy_sum ;;
    energy_sum <- add_later_years fuel current_date input_date energy_sum ;;
    ret (strftime_dmY_HM current_date, add energy_sum offset).

End Client.
End noe_smartmeter.

(** ** Series, providers and clients used in the statements *)
Section Scenarios.
Context {N : Numeric}.

(** A bucket of a consumption series as the provider sends it: a time stamp
    and a number, or [null] for a period without data. *)
Definition bucket (b : string * option num) : json * json :=
  (JStr (fst b), match snd b with Some n => JNum n | None => JNull end).

(** The numbers of the buckets that have one. *)
Fixpoint values_of (series : list (string * option num)) : list num :=
  match series with
  | [] => []
  | (_, Some n) :: rest => n :: values_of rest
  | (_, None) :: rest => values_of rest
  end.

(** Whether the time stamp of a bucket reads as a time strictly after
    [input_date]. *)
Definition after (input_date : datetime) (b : string * option num) : bool :=
  match strptime_iso (fst b) with
  | Ok t => datetime_gtb t input_date
  | _ => false
  end.

(** The elements of [l] whose index, counted from [i], satisfies [keep]. *)
Fixpoint at_indices {A : Type} (keep : Z -> bool) (i : Z) (l : list A) : list A :=
  match l with
  | [] => []
  | x :: rest =>
      if keep i then x :: at_indices keep (i + 1) rest
      else at_indices keep (i + 1) rest
  end.

(** The buckets at the indices [lo], [lo + 1], ... below [hi]. *)
Definition from_index_to {A : Type} (lo hi : Z) (l : list A) : list A :=
  at_indices (fun i => (lo <=? i) && (i <? hi)) 0 l.

(** The buckets at the indices [lo], [lo + 1], ... to the end. *)
Definition from_index {A : Type} (lo : Z) (l : list A) : list A :=
  at_indices (fun i => lo <=? i) 0 l.

Definition is_get (req : request) : bool :=
  match req with
  | Get _ _ _ => true
  | Post _ _ _ _ => false
  end.

Definition is_login (req : request) : bool :=
  match req with
  | Get _ _ _ => false
  | Post url _ _ _ => String.eqb url AUTH_URL
  end.

(** A provider that answers every request with the same status. *)
Definition persistently (status : Z) : list request -> request -> reply :=
  fun _ _ => Reply (mkresponse status None []).

(** A provider that accepts every login and answers the GETs one after the
    other with the statuses of [script] (200 once it is used up), each with
    the document [doc]. *)
Definition scripted (script : list Z) (doc : option json)
  : list request -> request -> reply :=
  fun history req =>
    match req with
    | Get _ _ jar =>
        Reply (mkresponse
                 (nth (List.length (filter is_get history)) script 200) doc jar)
    | Post _ _ _ _ => Reply (mkresponse 200 None [("session", "fresh")])
    end.

(** A provider whose transport fails on every GET with [x]. *)
Definition failing (x : exn) : list request -> request -> reply :=
  fun _ req =>
    match req with
    | Get _ _ _ => Fails x
    | Post _ _ _ _ => Reply (mkresponse 200 None [("session", "fresh")])
    end.

(** Whether the time stamp of a bucket can be read, and whether the bucket
    has a number. *)
Definition well_timed (b : string * option num) : bool :=
  match strptime_iso (fst b) with
  | Ok _ => true
  | _ => false
  end.

Definition has_value (b : string * option num) : bool :=
  match snd b with
  | Some _ => true
  | None => false
  end.

(** A provider that answers every GET with status 200 and the document of
    the consumption endpoint asked, and accepts every login. *)
Definition by_endpoint (day_doc month_doc year_doc : option json)
  : list request -> request -> reply :=
  fun _ req =>
    match req with
    | Get url _ jar =>
        Reply (mkresponse 200
                 (if String.eqb url (API_CONSUMPTION_URL ++ "/Day") then day_doc
                  else if String.eqb url (API_CONSUMPTION_URL ++ "/Month")
                       then month_doc
                       else year_doc)
                 jar)
    | Post _ _ _ _ => Reply (mkresponse 200 None [("session", "fresh")])
    end.

(** The document of a consumption endpoint that holds [series]. *)
Definition document_of (series : list (string * option num)) : json :=
  JObj [("peakDemandTimes", JArr (map fst (map bucket series)));
        ("meteredValues", JArr (map snd (map bucket series)));
        ("values", JArr (map snd (map bucket series)))].

(** A client that has logged in and knows its metering point. *)
Definition logged_in : client :=
  mkclient (JBool true) (JStr "AT0020000000000000000000020000001")
           (JStr "4711") (Some [("session", "cached")]) "user" "secret".

(** No session file, nothing sent yet. *)
Definition fresh_world : world := mkworld None [].

(** A world with a session file from an earlier run. *)
Definition cached_world : world :=
  mkworld (Some (Pickled [("session", "cached")])) [].

(** The provider of the asynchronous client answers as the provider of the
    synchronous one does, with every document inside a one-element array:
    the asynchronous accessors read [response.json()[0]], the synchronous
    ones [response.json()]. *)
Definition in_array (a : reply) : reply :=
  match a with
  | Reply r =>
      Reply (mkresponse (status_code r)
               (option_map (fun doc => JArr [doc]) (body r)) (jar_after r))
  | Fails x => Fails x
  end.

(** Every request is answered with status 200, or fails in the transport
    with a request error. *)
Definition always_served (srv : list request -> request -> reply) : Prop :=
  forall history req,
    match srv history req with
    | Reply r => status_code r = 200
    | Fails x => x = RequestError
    end.

(** The fresh login of the asynchronous client, from the POST on: what
    [authenticate] does once no stored session has been adopted. *)
Definition fresh_login : M bool :=
  bind get_self (fun self =>
  bind (send (Post AUTH_URL Form
                [("user", _username self); ("pwd", _password self)] []))
       (fun response =>
  bind (if status_code response =? 200 then ret tt
        else if status_code response =? 401 then raise SmartmeterLoginError
        else raise (SmartmeterConnectionError (status_code response)))
       (fun _ =>
  bind (PyNoeSmartmeter._save_session (jar_after response)) (fun _ =>
  bind (set_self (with_session (Some (jar_after response)))) (fun _ =>
  ret true))))).

(** Providers that serve the three series, as the asynchronous client and
    as the synchronous client read them. *)
Definition serving_async (day_series month_series year_series
                          : list (string * option num))
  : list request -> request -> reply :=
  by_endpoint (Some (JArr [document_of day_series]))
              (Some (JArr [document_of month_series]))
              (Some (JArr [document_of year_series])).

Definition serving_sync (day_series month_series year_series
                         : list (string * option num))
  : list request -> request -> reply :=
  by_endpoint (Some (document_of day_series))
              (Some (document_of month_series))
              (Some (document_of year_series)).

(** The three components of a finished run. *)
Definition outcome {A : Type} (run : result A * client * world) : result A :=
  fst (fst run).
Definition final_client {A : Type} (run : result A * client * world) : client :=
  snd (fst run).
Definition final_world {A : Type} (run : result A * client * world) : world :=
  snd run.

(** How many GETs, and how many logins, a world has seen. *)
Definition gets (w : world) : nat := List.length (filter is_get (sent w)).
Definition logins (w : world) : nat := List.length (filter is_login (sent w)).

(** The reading of the synchronous client as the asynchronous one packs
    it. *)
Definition as_reading (r : result (string * num)) : result reading :=
  match r with
  | Ok (t, c) => Ok (mkreading t c)
  | Raise x => Raise x
  | OutOfFuel => OutOfFuel
  end.

(** The provider of the asynchronous client that goes with a provider of
    the synchronous one. *)
Definition wrapped (srv : list request -> request -> reply)
  : list request -> request -> reply :=
  fun history req => in_array (srv history req).

(** A finished run of the synchronous [get_consumption_since_date], with
    its reading packed as the asynchronous client packs it. *)
Definition repack (run : result (string * num) * client * world)
  : result reading * client * world :=
  (as_reading (outcome run), final_client run, final_world run).

(** A client that is logged in and knows its metering point. *)
Definition has_session (self : client) : bool :=
  match _session self with
  | Some _ => true
  | None => false
  end.

Definition ready (self : client) : Prop :=
  has_session self = true /\ is_none (_metering_point_id self) = false.

End Scenarios.

(** The day series of the worked example of the specification, and one
    whose second bucket has no number. *)
Definition worked_series : list (string * option Z) :=
  [("2024-01-10T05:00:00", Some 2); ("2024-01-10T06:00:00", Some 3)].

Definition null_series : list (string * option Z) :=
  [("2024-01-10T05:00:00", Some 2); ("2024-01-10T06:00:00", None)].

(** The worlds of the worked example: it is the seventh of March 2024, and
    the provider serves the day series and an empty month and year. *)
Definition worked_async : @env Z_numeric :=
  mkenv (serving_async worked_series [] []) (mkdate 2024 3 7).

Definition worked_sync : @env Z_numeric :=
  mkenv (serving_sync worked_series [] []) (mkdate 2024 3 7).

(** The same with the day series that has a bucket without a number. *)
Definition null_async : @env Z_numeric :=
  mkenv (serving_async null_series [] []) (mkdate 2024 3 7).

Definition null_sync : @env Z_numeric :=
  mkenv (serving_sync null_series [] []) (mkdate 2024 3 7).

(** A month of four days and a year of four months, each with a gap. *)
Definition short_month : list (string * option Z) :=
  [("2024-01-01T00:00:00", Some 1); ("2024-01-02T00:00:00", None);
   ("2024-01-03T00:00:00", Some 10); ("2024-01-04T00:00:00", Some 100)].

Definition short_year : list (string * option Z) :=
  [("2024-01-01T00:00:00", Some 1000); ("2024-02-01T00:00:00", Some 2000);
   ("2024-03-01T00:00:00", None); ("2024-04-01T00:00:00", Some 4000)].

Definition gapped_async : @env Z_numeric :=
  mkenv (serving_async [] short_month short_year) (mkdate 2025 3 7).

(** ** Further definitions used in the statements *)
Section MoreScenarios.
Context {N : Numeric}.

(** The credentials after [authenticate(username, password)]. *)
Definition with_credentials (username password : option string)
  (self : client) : client :=
  let self := match username with Some u => with_username u self | None => self end in
  match password with Some p => with_password p self | None => self end.

(** The login request of the asynchronous client. *)
Definition login_request (self : client) : request :=
  Post AUTH_URL Form [("user", _username self); ("pwd", _password self)] [].

Definition supplied (username password : option string) : bool :=
  match username, password with
  | None, None => false
  | _, _ => true
  end.

(** Two states of a client that differ in the session at most. *)
Definition same_account (a b : client) : Prop :=
  supports_api a = supports_api b
  /\ _metering_point_id a = _metering_point_id b
  /\ _account_id a = _account_id b
  /\ _username a = _username b
  /\ _password a = _password b.

(** What an accessor makes of the outcome of its [try] block. *)
Definition swallow (caught : exn -> bool) (r : result (list (json * json)))
  : result (list (json * json)) :=
  match r with
  | Raise x => if caught x then Ok [] else Raise x
  | other => other
  end.

(** The requests of the three consumption accessors. *)
Definition day_request (self : client) (day : string) (jar : cookies) : request :=
  Get (API_CONSUMPTION_URL ++ "/Day")
    [("meterId", PValue (_metering_point_id self)); ("day", PText day)] jar.

Definition month_request (self : client) (year month : Z) (jar : cookies)
  : request :=
  Get (API_CONSUMPTION_URL ++ "/Month")
    [("meterId", PValue (_metering_point_id self));
     ("year", PInt year); ("month", PInt month)] jar.

Definition year_request (self : client) (year : Z) (jar : cookies) : request :=
  Get (API_CONSUMPTION_URL ++ "/Year")
    [("meterId", PValue (_metering_point_id self)); ("year", PInt year)] jar.

(** The login request of the synchronous client. *)
Definition sync_login_request (self : client) : request :=
  Post AUTH_URL AsJson [("user", _username self); ("pwd", _password self)] [].

(** The request of [get_meter_details] for an account. *)
Definition meter_request (account_id : string) (jar : cookies) : request :=
  Get ((API_METER_DETAILS_URL ++ "?context=2&accountId=") ++ account_id) []
    jar.

(** A provider that answers every request with the response [r]. *)
Definition answering (r : response) : list request -> request -> reply :=
  fun _ _ => Reply r.

(** The response with status 200 that carries [doc]. *)
Definition carrying (doc : json) : response :=
  mkresponse 200 (Some doc) [("session", "cached")].

(** The world after one more request. *)
Definition after_request (req : request) (w : world) : world :=
  mkworld (session_file w) (req :: sent w).

(** The record of the accounting endpoint and the record of the meter
    endpoint. *)
Definition accounting_entry (account_id : json) (a b c d : json) : json :=
  JObj [("accountId", account_id); ("hasSmartMeter", a);
        ("hasElectricity", b); ("hasCommunicative", c); ("hasActive", d)].

Definition meter_entry (metering_point_id : json) : json :=
  JObj [("meteringPointId", metering_point_id)].

(** A provider that answers every GET with status 200: the accounting
    endpoint with [accounting], the meter endpoint with [meter], each as
    the one element of an array, and every other endpoint with
    [consumption]; it accepts every login. *)
Definition portal (accounting meter consumption : json)
  : list request -> request -> reply :=
  fun _ req =>
    match req with
    | Get url _ jar =>
        Reply (mkresponse 200
                 (Some (if prefix API_ACCOUNTING_DETAILS_URL url
                        then JArr [accounting]
                        else if prefix API_METER_DETAILS_URL url
                             then JArr [meter]
                             else consumption))
                 jar)
    | Post _ _ _ _ => Reply (mkresponse 200 None [("session", "fresh")])
    end.

(** The requests of [get_accounting_details]. *)
Definition accounting_request (jar : cookies) : request :=
  Get (API_ACCOUNTING_DETAILS_URL ++ "?context=2") [] jar.

(** The value of the parameter [year] of a request. *)
Fixpoint year_of_params (params : list (string * param)) : Z :=
  match params with
  | [] => 0
  | (key, PInt y) :: rest =>
      if String.eqb key "year" then y else year_of_params rest
  | _ :: rest => year_of_params rest
  end.

(** A provider that holds the series of one day, of one month and of every
    year, and answers every GET with status 200 and the document asked for,
    as the synchronous client reads it; it accepts every login. *)
Definition archive (day_series month_series : list (string * option num))
  (year_series : Z -> list (string * option num))
  : list request -> request -> reply :=
  fun _ req =>
    match req with
    | Get url params jar =>
        Reply (mkresponse 200
                 (Some
                    (if String.eqb url (API_CONSUMPTION_URL ++ "/Day")
                     then document_of day_series
                     else if String.eqb url (API_CONSUMPTION_URL ++ "/Month")
                          then document_of month_series
                          else document_of
                                 (year_series (year_of_params params))))
                 jar)
    | Post _ _ _ _ => Reply (mkresponse 200 None [("session", "fresh")])
    end.

(** [sum(value[1] for value in series if value[1] is not None)] on a series
    of numbers and gaps. *)
Definition total_of (series : list (string * option num)) : num :=
  fold_left add (values_of series) zero.

(** The years the last block of the aggregation fetches. *)
Definition later_years (current_date : date) (input_date : datetime) : list Z :=
  range (year input_date + 1) (date_year current_date + 1).

(** The consumption [get_consumption_since_date] arrives at from the series
    of the archive, summed in the order of the code. *)
Definition since_total (day_series month_series : list (string * option num))
  (year_series : Z -> list (string * option num)) (current_date : date)
  (input_date : datetime) (offset : num) : num :=
  let after_day :=
    fold_left add (values_of (filter (after input_date) day_series)) zero in
  let after_month :=
    add after_day (total_of (from_index (day input_date) month_series)) in
  let end_index :=
    if year input_date =? date_year current_date
    then date_month current_date - 1 else 12 in
  let after_year :=
    add after_month
        (total_of (from_index_to (month input_date) end_index
                     (year_series (year input_date)))) in
  let after_later_years :=
    fold_left (fun energy y => add energy (total_of (year_series y)))
              (later_years current_date input_date) after_year in
  add after_later_years offset.

(** The requests it sends, most recent first. *)
Definition since_requests (self : client) (current_date : date)
  (input_date : datetime) (jar : cookies) : list request :=
  rev (map (fun y => year_request self y jar)
           (later_years current_date input_date))
  ++ [year_request self (year input_date) jar;
      month_request self (year input_date) (month input_date) jar;
      day_request self (strftime_Ymd input_date) jar].

(** The transport fails on every GET with a request error. *)
Definition transport_down (srv : list request -> request -> reply) : Prop :=
  forall history url params jar,
    srv history (Get url params jar) = Fails RequestError.

(** What the aggregation arrives at when every series is empty. *)
Definition nothing_but_offset (current_date : date) (input_date : datetime)
  (offset : num) : num :=
  add (fold_left (fun energy _ => add energy zero)
         (later_years current_date input_date) (add (add zero zero) zero))
      offset.

End MoreScenarios.

(** A document with three time stamps and two values, and one without
    values. *)
Definition ragged_document : @json Z_numeric :=
  JObj [("peakDemandTimes", JArr [JStr "a"; JStr "b"; JStr "c"]);
        ("meteredValues", JArr [JNum 1; JNum 2]);
        ("values", JArr [JNum 1; JNum 2])].

Definition keyless_document : @json Z_numeric :=
  JObj [("peakDemandTimes", JArr [JStr "a"])].

(** The years 2024 and 2025 of an archive. *)
Definition two_years (y : Z) : list (string * option Z) :=
  if y =? 2024 then short_year
  else if y =? 2025 then [("2025-01-01T00:00:00", Some 50000)]
  else [].

(** [datetime.datetime.combine(d, datetime.time())]. *)
Definition midnight (d : date) : datetime :=
  mkdatetime (date_year d) (date_month d) (date_day d) 0 0 0.

(** The checks of the [date] constructor. *)
Definition valid_date (d : date) : bool := valid_datetime (midnight d).

(** ** Properties *)

Ltac unfold_monad :=
  unfold bind, ret, raise, lift, out_of_fuel, try_except, get_self, set_self,
    get_today, read_session_file, write_session_file, remove_session_file,
    send in *.

(** The two accessors of a pair, run side by side on a client that is
    [ready]: [no_fuel], [async_served] and [sync_served] say what the two
    [_call_api] do against the provider [srv], which is [served]. *)
Ltac accessor_agree fuel self w Hready srv served no_fuel async_served
  sync_served :=
  let jar := fresh "jar" in
  let Hjar := fresh "Hjar" in
  let Hlive := fresh "Hlive" in
  let Hmp := fresh "Hmp" in
  let Hs := fresh "Hs" in
  destruct Hready as [Hlive Hmp]; unfold has_session in Hlive;
  destruct (_session self) as [jar|] eqn:Hjar; [|discriminate];
  unfold PyNoeSmartmeter.ensure_metering_point;
  unfold_monad; rewrite ?Hmp;
  destruct fuel as [|fuel];
  [ rewrite (proj1 (no_fuel _ _ self w jar Hjar)),
            (proj2 (no_fuel _ _ self w jar Hjar))
  | rewrite (async_served fuel _ _ self w jar Hjar),
            (sync_served fuel _ _ self w jar Hjar);
    match goal with
    | |- context [srv ?h ?r] =>
        pose proof (served h r) as Hs;
        destruct (srv h r) as [[status [doc|] jar']|x]
    end ].

(** What is left of such a pair once the reply is known; [raises] bounds
    the exceptions of the decoding. *)
Ltac accessor_done raises :=
  cbn in *; subst;
  repeat match goal with
  | |- context [series_of ?d ?k] =>
      let E := fresh "E" in
      destruct (series_of d k) as [?|?|] eqn:E;
      [ | apply raises in E; destruct E; subst | ]
  end;
  cbn;
  (split;
   [ reflexivity
   | split;
     [ first [ reflexivity
             | unfold has_session;
               match goal with
               | H : _session _ = Some _ |- _ => rewrite H
               end; reflexivity ]
     | assumption ] ]).

(** A block of the aggregation in both clients, from the agreement
    [Hagree] of the accessor it calls. *)
Ltac block_agree Hagree :=
  unfold_monad;
  let Heq := fresh "Heq" in
  let Hr := fresh "Hr" in
  destruct Hagree as [Heq Hr]; rewrite Heq;
  match goal with
  | |- context [let (_, _) := ?run in _] =>
      destruct run as [[[series|x|] self'] w']
  end; cbn in Hr |- *; auto;
  match goal with
  | |- context [match ?r with Ok _ => _ | Raise _ => _ | OutOfFuel => _ end] =>
      destruct r; cbn; auto
  end.


Ltac call_api_once Hjar Hreply Hstatus :=
  cbn [PyNoeSmartmeter.call_api_loop noe_smartmeter.call_api_loop
       Z.ltb Z.compare];
  unfold PyNoeSmartmeter.session_get, noe_smartmeter.session_get;
  unfold_monad; rewrite ?Hjar, ?Hreply; cbn [status_code jar_after];
  rewrite ?Hstatus; cbn [Z.eqb Pos.eqb].

Ltac settle caught :=
  first
    [ reflexivity
    | unfold swallow;
      match goal with
      | |- context [caught ?x] => destruct (caught x)
      end; reflexivity ].

Ltac accessor_replied Hmp Hcall Hstatus caught :=
  unfold PyNoeSmartmeter.ensure_metering_point; unfold_monad;
  rewrite ?Hmp; rewrite Hcall;
  cbn [json_of_returned PyNoeSmartmeter.raise_for_status
       noe_smartmeter.raise_for_status];
  rewrite ?Hstatus; cbn [Z.leb Z.ltb Z.compare Pos.compare Pos.compare_cont
                         andb];
  match goal with
  | |- context [json_of ?r] =>
      destruct (json_of r) as [?doc|?x|]; cbn [and_then_result]
  end; [|settle caught|settle caught];
  try match goal with
  | |- context [subscript0 ?d] =>
      destruct (subscript0 d) as [?data|?x|]; cbn [and_then_result];
      [|settle caught|settle caught]
  end;
  match goal with
  | |- context [series_of ?d ?k] => destruct (series_of d k) as [?s|?x|]
  end; settle caught.

Ltac accessor_down Hmp failed fuel e self w jar Hjar down :=
  unfold PyNoeSmartmeter.ensure_metering_point; unfold_monad;
  rewrite ?Hmp;
  rewrite (failed fuel _ _ e self w jar RequestError Hjar (down _ _ _ _));
  reflexivity.

(** *** Reading and writing time stamps *)

Example strptime_input_example :
  strptime_dmY_HM "10.01.2024 05:30" = Ok (mkdatetime 2024 1 10 5 30 0).
Proof. reflexivity. Qed.

Example strptime_bucket_example :
  strptime_iso "2024-01-10T06:00:00" = Ok (mkdatetime 2024 1 10 6 0 0).
Proof. reflexivity. Qed.

Example strptime_bucket_one_digit_fields :
  strptime_iso "2024-1-9t6:05:7" = Ok (mkdatetime 2024 1 9 6 5 7).
Proof. reflexivity. Qed.

Example strptime_rejects_february_30 :
  strptime_dmY_HM "30.02.2024 05:30" = Raise ValueError.
Proof. reflexivity. Qed.

Example strftime_example :
  strftime_Ymd (mkdatetime 2024 1 10 5 30 0) = "2024-01-10"
  /\ strftime_dmY_HM (mkdate 2024 3 7) = "07.03.2024 00:00".
Proof. split; reflexivity. Qed.

(** *** The retry loop of [_call_api] *)

Section RetryLoop.
Context {N : Numeric}.

(** A turn of the loop that sees a status other than 401 and 200 changes
    nothing but the requests sent, so the loop goes on as long as there is
    fuel: the asynchronous client. *)
Lemma async_loop_spins (status : Z) (today : date) (url : string)
  (params : list (string * param)) :
  status <> 200 -> status <> 401 ->
  forall (fuel : nat) (self : client) (w : world),
    _session self <> None ->
    exists self' w',
      PyNoeSmartmeter.call_api_loop fuel url params 0
        (mkenv (persistently status) today) self w = (OutOfFuel, self', w')
      /\ gets w' = (fuel + gets w)%nat
      /\ logins w' = logins w.
Proof.
  intros H200 H401.
  induction fuel as [|fuel IH]; intros self w Hlive.
  - exists self, w. repeat split.
  - destruct (_session self) as [jar|] eqn:Hjar; [|congruence].
    set (self1 := with_session (Some []) self).
    set (w1 := mkworld (session_file w) (Get url params jar :: sent w)).
    destruct (IH self1 w1) as (self' & w' & Hrun & Hlen & Hget);
      [discriminate|].
    exists self', w'.
    assert (Hstep :
      PyNoeSmartmeter.call_api_loop (S fuel) url params 0
        (mkenv (persistently status) today) self w
      = PyNoeSmartmeter.call_api_loop fuel url params 0
        (mkenv (persistently status) today) self1 w1).
    { cbn [PyNoeSmartmeter.call_api_loop Z.ltb Z.compare].
      unfold PyNoeSmartmeter.session_get. unfold_monad.
      cbn [server persistently status_code jar_after].
      rewrite Hjar. cbn [server persistently status_code jar_after].
      destruct (Z.eqb_spec status 401); [contradiction|].
      destruct (Z.eqb_spec status 200); [contradiction|].
      reflexivity. }
    rewrite Hstep, Hrun. split; [reflexivity|]. split.
    + rewrite Hlen. unfold gets. subst w1.
      cbn [sent filter is_get List.length]. lia.
    + rewrite Hget. reflexivity.
Qed.

(** The same for the synchronous client. *)
Lemma sync_loop_spins (status : Z) (today : date) (url : string)
  (params : list (string * param)) :
  status <> 200 -> status <> 401 ->
  forall (fuel : nat) (self : client) (w : world),
    _session self <> None ->
    exists self' w',
      noe_smartmeter.call_api_loop fuel url params 0
        (mkenv (persistently status) today) self w = (OutOfFuel, self', w')
      /\ gets w' = (fuel + gets w)%nat
      /\ logins w' = logins w.
Proof.
  intros H200 H401.
  induction fuel as [|fuel IH]; intros self w Hlive.
  - exists self, w. repeat split.
  - destruct (_session self) as [jar|] eqn:Hjar; [|congruence].
    set (self1 := with_session (Some []) self).
    set (w1 := mkworld (session_file w) (Get url params jar :: sent w)).
    destruct (IH self1 w1) as (self' & w' & Hrun & Hlen & Hget);
      [discriminate|].
    exists self', w'.
    assert (Hstep :
      noe_smartmeter.call_api_loop (S fuel) url params 0
        (mkenv (persistently status) today) self w
      = noe_smartmeter.call_api_loop fuel url params 0
        (mkenv (persistently status) today) self1 w1).
    { cbn [noe_smartmeter.call_api_loop Z.ltb Z.compare].
      unfold noe_smartmeter.session_get. unfold_monad.
      cbn [server persistently status_code jar_after].
      rewrite Hjar. cbn [server persistently status_code jar_after].
      destruct (Z.eqb_spec status 401); [contradiction|].
      destruct (Z.eqb_spec status 200); [contradiction|].
      reflexivity. }
    rewrite Hstep, Hrun. split; [reflexivity|]. split.
    + rewrite Hlen. unfold gets. subst w1.
      cbn [sent filter is_get List.length]. lia.
    + rewrite Hget. reflexivity.
Qed.

(** After the re-authentication [retry_count] is 1 and the loop is over:
    the call returns [None] without another request, so a call
    re-authenticates once at most. *)
Lemma loop_ends_after_reauthentication (fuel : nat) (url : string)
  (params : list (string * param)) (e : env) (self : client) (w : world) :
  PyNoeSmartmeter.call_api_loop fuel url params 1 e self w = (Ok None, self, w)
  /\ noe_smartmeter.call_api_loop fuel url params 1 e self w
     = (Ok None, self, w).
Proof.
  destruct fuel; split; reflexivity.
Qed.

(** A turn that sees 401 is a re-authentication followed by the end of the
    loop. *)
Lemma async_loop_on_401 (fuel : nat) (url : string)
  (params : list (string * param)) (e : env) (self : client) (w : world)
  (jar : cookies) (r : response) :
  _session self = Some jar ->
  server e (sent w) (Get url params jar) = Reply r ->
  status_code r = 401 ->
  PyNoeSmartmeter.call_api_loop (S fuel) url params 0 e self w
  = bind (PyNoeSmartmeter.authenticate None None) (fun _ => ret None) e
      (with_session (Some (jar_after r)) self)
      (mkworld (session_file w) (Get url params jar :: sent w)).
Proof.
  intros Hjar Hreply Hstatus.
  cbn [PyNoeSmartmeter.call_api_loop Z.ltb Z.compare].
  unfold PyNoeSmartmeter.session_get. unfold_monad.
  rewrite Hjar, Hreply, Hstatus.
  change (401 =? 401) with true. cbv iota beta.
  destruct (PyNoeSmartmeter.authenticate None None e _ _) as [[[ok|x|] self'] w'];
    try reflexivity.
  apply (loop_ends_after_reauthentication fuel url params e self' w').
Qed.

End RetryLoop.

(** C1: a call of [_call_api] is claimed to end whatever statuses the
    provider returns.  It does not: against a provider that keeps answering
    with a status other than 200 and 401, a client with a live session sends
    one GET per unit of fuel, never logs in again and never returns, in the
    asynchronous and in the synchronous client alike. *)
Theorem C1_call_api_spins_on_other_status :
  forall {N : Numeric} (status : Z) (today : date) (url : string)
         (params : list (string * param)) (fuel : nat) (self : client)
         (w : world) (jar : cookies),
    status <> 200 -> status <> 401 ->
    _session self = Some jar ->
    let e := mkenv (persistently status) today in
    (outcome (PyNoeSmartmeter._call_api fuel url params e self w) = OutOfFuel
     /\ gets (final_world (PyNoeSmartmeter._call_api fuel url params e self w))
        = (fuel + gets w)%nat
     /\ logins (final_world (PyNoeSmartmeter._call_api fuel url params e self w))
        = logins w)
    /\ (outcome (noe_smartmeter._call_api fuel url params e self w) = OutOfFuel
     /\ gets (final_world (noe_smartmeter._call_api fuel url params e self w))
        = (fuel + gets w)%nat
     /\ logins (final_world (noe_smartmeter._call_api fuel url params e self w))
        = logins w).
Proof.
  intros N status today url params fuel self w jar H200 H401 Hjar e.
  assert (Hlive : _session self <> None) by congruence.
  split.
  - destruct (async_loop_spins status today url params H200 H401 fuel self w Hlive)
      as (self' & w' & Hrun & Hgets & Hlogins).
    unfold PyNoeSmartmeter._call_api. unfold_monad. rewrite Hjar.
    subst e. rewrite Hrun. repeat split; assumption.
  - destruct (sync_loop_spins status today url params H200 H401 fuel self w Hlive)
      as (self' & w' & Hrun & Hgets & Hlogins).
    unfold noe_smartmeter._call_api.
    subst e. rewrite Hrun. repeat split; assumption.
Qed.

(** The provider answers 500 for ever: seven units of fuel, seven GETs, no
    result. *)
Lemma C1_call_api_spins_witness :
  500 <> 200 /\ 500 <> 401
  /\ _session (N := Z_numeric) logged_in = Some [("session", "cached")]
  /\ outcome (PyNoeSmartmeter._call_api (N := Z_numeric) 7 API_USER_DETAILS_URL []
                (mkenv (persistently 500) (mkdate 2024 3 7)) logged_in fresh_world)
     = OutOfFuel.
Proof.
  split; [lia|]. split; [lia|]. split; [reflexivity|].
  apply (C1_call_api_spins_on_other_status (N := Z_numeric) 500 (mkdate 2024 3 7)
           API_USER_DETAILS_URL [] 7%nat logged_in fresh_world
           [("session", "cached")]); [lia | lia | reflexivity].
Defined.

(** C2: the answers [401, 200] are claimed to end in the 200 response after
    one retry.  After the 401 the client logs in again once, and the loop
    ends there: one GET has been sent, the second answer is never asked for,
    and the call returns [None].  The answers [401, 401] end the same way,
    with one login and no further turn. *)
Theorem C2_call_api_does_not_retry_after_401 :
  forall {N : Numeric} (fuel : nat) (url : string)
         (params : list (string * param)) (today : date) (second : Z),
    let e := mkenv (scripted [401; second] None) today in
    (outcome (PyNoeSmartmeter._call_api (S fuel) url params e logged_in fresh_world)
     = Ok None
     /\ gets (final_world
          (PyNoeSmartmeter._call_api (S fuel) url params e logged_in fresh_world))
        = 1%nat
     /\ logins (final_world
          (PyNoeSmartmeter._call_api (S fuel) url params e logged_in fresh_world))
        = 1%nat)
    /\ (outcome (noe_smartmeter._call_api (S fuel) url params e logged_in fresh_world)
     = Ok None
     /\ gets (final_world
          (noe_smartmeter._call_api (S fuel) url params e logged_in fresh_world))
        = 1%nat
     /\ logins (final_world
          (noe_smartmeter._call_api (S fuel) url params e logged_in fresh_world))
        = 1%nat).
Proof.
  intros N fuel url params today second e.
  destruct fuel; repeat split; reflexivity.
Qed.

(** *** Authentication *)

Section Authentication.
Context {N : Numeric}.

(** A fresh login that raises leaves the client and the session file as
    they were. *)
Lemma fresh_login_raises (e : env) (self self' : client) (w w' : world)
  (x : exn) :
  fresh_login e self w = (Raise x, self', w') ->
  self' = self /\ session_file w' = session_file w.
Proof.
  unfold fresh_login, PyNoeSmartmeter._save_session. unfold_monad.
  destruct (server e (sent w) _) as [r|y]; cbn.
  - destruct (status_code r =? 200); cbn; [discriminate|].
    destruct (status_code r =? 401); cbn; intros H; inversion H; auto.
  - intros H; inversion H; auto.
Qed.

(** [authenticate()] without arguments, by what the session file holds and
    what the probe of the stored session brings. *)
Lemma authenticate_unfold (e : env) (self : client) (w : world) :
  PyNoeSmartmeter.authenticate None None e self w =
  match session_file w with
  | Some (Pickled jar) =>
      let probe := Get API_USER_DETAILS_URL [] jar in
      let w1 := mkworld (session_file w) (probe :: sent w) in
      match server e (sent w) probe with
      | Reply r =>
          if status_code r =? 200
          then (Ok true, with_session (Some (jar_after r)) self, w1)
          else fresh_login e self w1
      | Fails TypeError => fresh_login e self w1
      | Fails x => (Raise x, self, w1)
      end
  | Some Garbage => (Raise UnpicklingError, self, w)
  | None => fresh_login e self w
  end.
Proof.
  unfold PyNoeSmartmeter.authenticate, PyNoeSmartmeter._load_check_session,
    PyNoeSmartmeter._check_session, fresh_login. unfold_monad.
  destruct w as [file history]. cbn.
  destruct file as [[jar|]|]; cbn; try reflexivity.
  destruct (server e history _) as [r|y]; cbn.
  - destruct (status_code r =? 200); reflexivity.
  - destruct y; reflexivity.
Qed.

End Authentication.

(** C10: when [authenticate()], called without credentials, raises (be it
    [SmartmeterLoginError], [SmartmeterConnectionError] or anything else),
    the client object is what it was, its [_session] in particular, and the
    session file holds what it held; the same goes for [_authenticate] of
    the synchronous client. *)
Theorem C10_failed_authenticate_keeps_session :
  forall {N : Numeric} (e : env) (self self' : client) (w w' : world) (x : exn),
    PyNoeSmartmeter.authenticate None None e self w = (Raise x, self', w')
    \/ (exists username password,
          noe_smartmeter._authenticate username password e self w
          = (Raise x, self', w')) ->
    _session self' = _session self /\ self' = self
    /\ session_file w' = session_file w.
Proof.
  intros N e self self' w w' x [Hrun | (username & password & Hrun)];
    revert Hrun.
  - rewrite authenticate_unfold.
    destruct (session_file w) as [[jar|]|] eqn:Hfile; cbv zeta.
    + destruct (server e (sent w) _) as [r|y].
      * destruct (status_code r =? 200); [discriminate|].
        intros H. apply fresh_login_raises in H. cbn in H.
        destruct H as [-> ->]. auto.
      * destruct y;
          try (intros H; inversion H; subst; cbn; auto; fail).
        intros H. apply fresh_login_raises in H. cbn in H.
        destruct H as [-> ->]. auto.
    + intros H; inversion H; subst; auto.
    + intros H. apply fresh_login_raises in H. destruct H as [-> ->].
      rewrite Hfile. auto.
  - unfold noe_smartmeter._authenticate. unfold_monad.
    destruct (session_file w) as [[jar|]|] eqn:Hfile; cbn.
    + destruct (server e (sent w) _) as [r|y]; cbn.
      * destruct (status_code r =? 200); cbn; [discriminate|].
        destruct (server e _ _) as [r'|y']; cbn.
        -- destruct (status_code r' =? 200); cbn; [discriminate|].
           destruct (status_code r' =? 401); cbn;
             intros H; inversion H; subst; auto.
        -- intros H; inversion H; subst; auto.
      * intros H; inversion H; subst; auto.
    + intros H; inversion H; subst; auto.
    + destruct (server e _ _) as [r'|y']; cbn.
      * destruct (status_code r' =? 200); cbn; [discriminate|].
        destruct (status_code r' =? 401); cbn;
          intros H; inversion H; subst; auto.
      * intros H; inversion H; subst; auto.
Qed.

(** The provider refuses the credentials of a client that has a session:
    the login raises, and the session is still the one from before. *)
Lemma C10_failed_authenticate_witness :
  let e := mkenv (N := Z_numeric) (persistently 401) (mkdate 2024 3 7) in
  let w' := mkworld (N := Z_numeric) None
              [Post AUTH_URL Form [("user", "user"); ("pwd", "secret")] []] in
  PyNoeSmartmeter.authenticate None None e logged_in fresh_world
  = (Raise SmartmeterLoginError, logged_in, w')
  /\ _session (N := Z_numeric) logged_in = Some [("session", "cached")]
  /\ session_file w' = None.
Proof.
  split; [reflexivity|].
  destruct (C10_failed_authenticate_keeps_session (N := Z_numeric)
              (mkenv (persistently 401) (mkdate 2024 3 7))
              logged_in logged_in fresh_world
              (mkworld None
                 [Post AUTH_URL Form [("user", "user"); ("pwd", "secret")] []])
              SmartmeterLoginError) as (Hsession & _ & Hfile).
  - left. reflexivity.
  - split; [exact Hsession | exact Hfile].
Defined.

(** *** The aggregation of [get_consumption_since_date] *)

Lemma date_eqb_refl (d : date) : date_eqb d d = true.
Proof.
  unfold date_eqb. rewrite !Z.eqb_refl. reflexivity.
Qed.

(** C6: an input time stamp dated today comes back as it is, with the
    offset unchanged, and nothing is fetched: the client and the world,
    the requests sent among them, are what they were.  The asynchronous
    client packs the two in a dictionary, the synchronous one in a tuple. *)
Theorem C6_same_day_returns_offset :
  forall {N : Numeric} (fuel : nat) (input_date_string : string) (offset : num)
         (e : env) (self : client) (w : world) (input_date : datetime),
    strptime_dmY_HM input_date_string = Ok input_date ->
    date_of input_date = today e ->
    PyNoeSmartmeter.get_consumption_since_date fuel input_date_string offset
      e self w
    = (Ok (mkreading input_date_string offset), self, w)
    /\ noe_smartmeter.get_consumption_since_date fuel input_date_string offset
         e self w
       = (Ok (input_date_string, offset), self, w).
Proof.
  intros N fuel s offset e self w input_date Hparse Htoday.
  unfold PyNoeSmartmeter.get_consumption_since_date,
    noe_smartmeter.get_consumption_since_date.
  unfold_monad. rewrite Hparse, Htoday, date_eqb_refl. split; reflexivity.
Qed.

(** An offset of 5 and an input of the seventh of March, on that day. *)
Lemma C6_same_day_witness :
  let e := mkenv (N := Z_numeric) (persistently 500) (mkdate 2024 3 7) in
  strptime_dmY_HM "07.03.2024 05:30" = Ok (mkdatetime 2024 3 7 5 30 0)
  /\ date_of (mkdatetime 2024 3 7 5 30 0) = today e
  /\ PyNoeSmartmeter.get_consumption_since_date 0 "07.03.2024 05:30" 5
       e logged_in fresh_world
     = (Ok (mkreading "07.03.2024 05:30" 5), logged_in, fresh_world).
Proof.
  split; [reflexivity|]. split; [reflexivity|].
  apply (C6_same_day_returns_offset (N := Z_numeric) 0 "07.03.2024 05:30" 5
           (mkenv (persistently 500) (mkdate 2024 3 7)) logged_in fresh_world
           (mkdatetime 2024 3 7 5 30 0)); reflexivity.
Defined.

(** Times read by [strptime] are valid ones. *)
Lemma finish_valid dt rest d : finish dt rest = Ok d -> valid_datetime d = true.
Proof.
  unfold finish. destruct rest; [|discriminate].
  destruct (valid_datetime dt) eqn:H; [|discriminate].
  intros E; inversion E; subst; assumption.
Qed.

Lemma strptime_dmY_HM_valid s d : strptime_dmY_HM s = Ok d -> valid_datetime d = true.
Proof.
  unfold strptime_dmY_HM, or_value_error, and_then.
  destruct (read_d s) as [[d0 s1]|]; [|discriminate].
  destruct (read_char "." s1) as [s2|]; [|discriminate].
  destruct (read_m s2) as [[m0 s3]|]; [|discriminate].
  destruct (read_char "." s3) as [s4|]; [|discriminate].
  destruct (read_Y s4) as [[y0 s5]|]; [|discriminate].
  destruct (read_spaces s5) as [s6|]; [|discriminate].
  destruct (read_H s6) as [[h0 s7]|]; [|discriminate].
  destruct (read_char ":" s7) as [s8|]; [|discriminate].
  destruct (read_M s8) as [[mi0 s9]|]; [|discriminate].
  apply finish_valid.
Qed.

Lemma valid_datetime_bounds d :
  valid_datetime d = true -> 1 <= month d <= 12 /\ 1 <= day d <= 31.
Proof.
  unfold valid_datetime, days_in_month. rewrite !andb_true_iff, !Z.leb_le.
  intros H. decompose [and] H. clear H.
  destruct (month d =? 2), (is_leap (year d)),
    ((month d =? 4) || (month d =? 6) || (month d =? 9) || (month d =? 11)); lia.
Qed.

Section Sums.
Context {N : Numeric}.

Lemma sum_from_numbers (vals : list num) : forall acc,
  sum_from acc (map JNum vals) = Ok (fold_left add vals acc).
Proof.
  induction vals as [|v vals IH]; intros acc; cbn; [reflexivity|apply IH].
Qed.

Lemma non_null_values_buckets (series : list (string * option num)) :
  non_null_values (map bucket series) = map JNum (values_of series).
Proof.
  unfold non_null_values.
  induction series as [|[t [n|]] series IH]; cbn; [reflexivity| |assumption].
  f_equal. exact IH.
Qed.

Lemma add_non_null_buckets (energy_sum : num) series :
  add_non_null energy_sum (map bucket series)
  = Ok (add energy_sum (fold_left add (values_of series) zero)).
Proof.
  unfold add_non_null, py_sum.
  rewrite non_null_values_buckets, sum_from_numbers. reflexivity.
Qed.

Lemma at_indices_shift {A} (keep : Z -> bool) (k i : Z) (l : list A) :
  at_indices keep (i + k) l = at_indices (fun j => keep (j + k)) i l.
Proof.
  revert i. induction l as [|x l IH]; intros i; cbn; [reflexivity|].
  replace (i + k + 1) with (i + 1 + k) by lia. rewrite IH. reflexivity.
Qed.

Lemma at_indices_none {A} (keep : Z -> bool) (i : Z) (l : list A) :
  (forall j, i <= j -> keep j = false) -> at_indices keep i l = [].
Proof.
  revert i. induction l as [|x l IH]; intros i H; cbn; [reflexivity|].
  rewrite H by lia. apply IH. intros j Hj. apply H. lia.
Qed.

Lemma at_indices_ext {A} (f g : Z -> bool) (i : Z) (l : list A) :
  (forall j, i <= j -> f j = g j) -> at_indices f i l = at_indices g i l.
Proof.
  revert i. induction l as [|x l IH]; intros i H; cbn; [reflexivity|].
  rewrite H by lia. rewrite (IH (i + 1)); [reflexivity|].
  intros j Hj. apply H. lia.
Qed.

(** Dropping [n] elements and keeping the next [m] keeps the indices from
    [n] to below [n + m]. *)
Lemma firstn_skipn_at_indices {A} (l : list A) : forall (n m : nat) (i : Z),
  firstn m (skipn n l)
  = at_indices (fun j => (i + Z.of_nat n <=? j) && (j <? i + Z.of_nat n + Z.of_nat m)) i l.
Proof.
  induction l as [|x l IH]; intros n m i.
  - rewrite skipn_nil, firstn_nil. reflexivity.
  - destruct n as [|n].
    + cbn [skipn]. destruct m as [|m].
      * cbn [firstn]. symmetry. apply at_indices_none. intros j Hj.
        destruct (i + Z.of_nat 0 <=? j) eqn:E1; [|reflexivity]. cbn.
        apply Z.ltb_ge. lia.
      * cbn [firstn at_indices].
        replace ((i + Z.of_nat 0 <=? i) && (i <? i + Z.of_nat 0 + Z.of_nat (S m))) with true.
        2:{ symmetry. apply andb_true_iff. split; [apply Z.leb_le|apply Z.ltb_lt]; lia. }
        f_equal. rewrite <- (skipn_O l) at 1. rewrite (IH 0%nat m (i + 1)).
        apply at_indices_ext. intros j Hj.
        f_equal.
        { apply eq_true_iff_eq. rewrite !Z.leb_le. lia. }
        { apply eq_true_iff_eq. rewrite !Z.ltb_lt. lia. }
    + cbn [skipn at_indices].
      replace ((i + Z.of_nat (S n) <=? i) && (i <? i + Z.of_nat (S n) + Z.of_nat m)) with false.
      2:{ symmetry. apply andb_false_iff. left. apply Z.leb_gt. lia. }
      rewrite (IH n m (i + 1)).
      apply at_indices_ext. intros j Hj.
      f_equal.
      { apply eq_true_iff_eq. rewrite !Z.leb_le. lia. }
      { apply eq_true_iff_eq. rewrite !Z.ltb_lt. lia. }
Qed.

Lemma at_indices_beyond {A} (f g : Z -> bool) (i : Z) (l : list A) :
  (forall j, i <= j < i + Z.of_nat (List.length l) -> f j = g j) ->
  at_indices f i l = at_indices g i l.
Proof.
  revert i. induction l as [|x l IH]; intros i H; cbn; [reflexivity|].
  cbn [List.length] in H.
  rewrite H by lia. rewrite (IH (i + 1)); [reflexivity|].
  intros j Hj. apply H. lia.
Qed.

Lemma py_slice_from_index_to {A} (lo hi : Z) (l : list A) :
  0 <= lo -> 0 <= hi -> py_slice lo hi l = from_index_to lo hi l.
Proof.
  intros Hlo Hhi. unfold py_slice, from_index_to, clamp_index.
  destruct (Z.ltb_spec lo 0); [lia|]. destruct (Z.ltb_spec hi 0); [lia|].
  rewrite (firstn_skipn_at_indices l _ _ 0).
  apply at_indices_beyond. intros j Hj.
  apply eq_true_iff_eq. rewrite !andb_true_iff, !Z.leb_le, !Z.ltb_lt. lia.
Qed.

Lemma py_slice_from_index {A} (lo : Z) (l : list A) :
  0 <= lo -> py_slice_from lo l = from_index lo l.
Proof.
  intros Hlo. unfold py_slice_from, from_index, clamp_index.
  destruct (Z.ltb_spec lo 0); [lia|].
  rewrite <- (firstn_all (skipn _ l)).
  rewrite (firstn_skipn_at_indices l _ _ 0).
  apply at_indices_beyond. intros j Hj.
  rewrite length_skipn.
  destruct (Z.leb_spec lo j).
  - replace (0 + Z.of_nat (Z.to_nat (Z.min lo (Z.of_nat (List.length l)))) <=? j) with true.
    2:{ symmetry. apply Z.leb_le. lia. }
    cbn. apply Z.ltb_lt. lia.
  - replace (0 + Z.of_nat (Z.to_nat (Z.min lo (Z.of_nat (List.length l)))) <=? j) with false.
    2:{ symmetry. apply Z.leb_gt. lia. }
    reflexivity.
Qed.

Lemma at_indices_map {A B} (f : A -> B) keep i (l : list A) :
  at_indices keep i (map f l) = map f (at_indices keep i l).
Proof.
  revert i. induction l as [|x l IH]; intros i; cbn; [reflexivity|].
  destruct (keep i); cbn; rewrite IH; reflexivity.
Qed.

(** The loop over the day series adds the numbers of the buckets after the
    input date, from the left, when every time stamp can be read and every
    bucket after the input date has a number. *)
Lemma day_loop_buckets (input_date : datetime)
  (series : list (string * option num)) :
  forallb well_timed series = true ->
  forallb (fun b => implb (after input_date b) (has_value b)) series = true ->
  forall energy_sum : num,
    day_loop input_date (map bucket series) energy_sum
    = Ok (fold_left add (values_of (filter (after input_date) series)) energy_sum).
Proof.
  induction series as [|[t v] series IH]; intros Htimed Hvalued energy_sum.
  - reflexivity.
  - cbn [forallb] in Htimed, Hvalued.
    apply andb_true_iff in Htimed as [Ht Htimed].
    apply andb_true_iff in Hvalued as [Hv Hvalued].
    specialize (IH Htimed Hvalued).
    unfold well_timed, after, has_value in *.
    cbn [map bucket fst snd day_loop strptime_bucket filter] in *.
    unfold after. cbn [fst].
    destruct (strptime_iso t) as [formatted_time| |]; try discriminate.
    cbn [and_then_result].
    destruct (datetime_gtb formatted_time input_date).
    + destruct v as [n|]; [|discriminate].
      cbn [add_value and_then_result values_of fold_left]. apply IH.
    + apply IH.
Qed.

(** A bucket after the input date that has no number stops the loop with a
    [TypeError]. *)
Lemma day_loop_null (input_date : datetime)
  (series : list (string * option num)) :
  forallb well_timed series = true ->
  existsb (fun b => after input_date b && negb (has_value b)) series = true ->
  forall energy_sum : num,
    day_loop input_date (map bucket series) energy_sum = Raise TypeError.
Proof.
  induction series as [|[t v] series IH]; intros Htimed Hnull energy_sum.
  - discriminate.
  - cbn [forallb existsb] in Htimed, Hnull.
    apply andb_true_iff in Htimed as [Ht Htimed].
    unfold well_timed, after, has_value in *.
    cbn [map bucket fst snd day_loop strptime_bucket] in *.
    destruct (strptime_iso t) as [formatted_time| |]; try discriminate.
    cbn [and_then_result].
    destruct (datetime_gtb formatted_time input_date).
    + destruct v as [n|]; [|reflexivity].
      cbn [add_value and_then_result]. apply IH; assumption.
    + apply IH; assumption.
Qed.

End Sums.

(** *** The three remainders *)

(** C4: the day loop adds the buckets of the day series whose time stamp is
    strictly after the input time stamp, and only those: when the accessor
    hands over a series whose time stamps can be read and whose buckets
    after the input have a number, the energy sum grows by exactly these
    buckets, in both clients.  On the series of the worked example and the
    input "10.01.2024 05:30", the bucket of 06:00 alone counts, and the
    reading is 3. *)
Theorem C4_day_remainder_sums_buckets_after_input :
  forall {N : Numeric} (fuel : nat) (e : env) (self : client) (w : world)
         (input_date : datetime) (series : list (string * option num))
         (energy_sum : num),
    forallb well_timed series = true ->
    forallb (fun b => implb (after input_date b) (has_value b)) series = true ->
    let total :=
      fold_left add (values_of (filter (after input_date) series)) energy_sum in
    (forall self' w',
       PyNoeSmartmeter.get_consumption_per_day fuel (strftime_Ymd input_date)
         e self w = (Ok (map bucket series), self', w') ->
       PyNoeSmartmeter.add_day_remainder fuel input_date energy_sum e self w
       = (Ok total, self', w'))
    /\ (forall self' w',
       noe_smartmeter.get_consumption_per_day fuel (strftime_Ymd input_date)
         e self w = (Ok (map bucket series), self', w') ->
       noe_smartmeter.add_day_remainder fuel input_date energy_sum e self w
       = (Ok total, self', w'))
    /\ filter (after (N := Z_numeric) (mkdatetime 2024 1 10 5 30 0))
              worked_series
       = [("2024-01-10T06:00:00", Some 3)]
    /\ outcome (PyNoeSmartmeter.get_consumption_since_date (N := Z_numeric)
                  1 "10.01.2024 05:30" 0
                  worked_async logged_in fresh_world)
       = Ok (mkreading (N := Z_numeric) "07.03.2024 00:00" 3)
    /\ outcome (noe_smartmeter.get_consumption_since_date (N := Z_numeric)
                  1 "10.01.2024 05:30" 0
                  worked_sync logged_in fresh_world)
       = Ok ("07.03.2024 00:00", 3).
Proof.
  intros N fuel e self w input_date series energy_sum Htimed Hvalued total.
  pose proof (day_loop_buckets input_date series Htimed Hvalued energy_sum)
    as Hloop.
  split; [|split; [|repeat split; reflexivity]].
  - intros self' w' Hfetch.
    unfold PyNoeSmartmeter.add_day_remainder. unfold_monad.
    rewrite Hfetch, Hloop. reflexivity.
  - intros self' w' Hfetch.
    unfold noe_smartmeter.add_day_remainder. unfold_monad.
    rewrite Hfetch, Hloop. reflexivity.
Qed.

(** The worked example: the day series has the buckets of 05:00 and 06:00,
    the input is 05:30, and the remainder of the day is 3. *)
Lemma C4_day_remainder_witness :
  let input_date := mkdatetime 2024 1 10 5 30 0 in
  let w' := mkworld (N := Z_numeric) None
    [Get (API_CONSUMPTION_URL ++ "/Day")
       [("meterId", PValue (_metering_point_id logged_in));
        ("day", PText "2024-01-10")] [("session", "cached")]] in
  forallb well_timed worked_series = true
  /\ forallb (fun b => implb (after input_date b) (has_value b)) worked_series
     = true
  /\ PyNoeSmartmeter.get_consumption_per_day 1 (strftime_Ymd input_date)
       worked_async logged_in fresh_world
     = (Ok (map bucket worked_series), logged_in, w')
  /\ PyNoeSmartmeter.add_day_remainder 1 input_date 0 worked_async logged_in
       fresh_world
     = (Ok 3, logged_in, w').
Proof.
  split; [reflexivity|]. split; [reflexivity|]. split; [reflexivity|].
  exact (proj1 (C4_day_remainder_sums_buckets_after_input (N := Z_numeric) 1
                  worked_async logged_in fresh_world
                  (mkdatetime 2024 1 10 5 30 0) worked_series 0
                  eq_refl eq_refl)
               logged_in _ eq_refl).
Defined.

(** C5: the month block adds the buckets of the month series from the index
    [input_date.day] on, and the year block those of the year series from
    the index [input_date.month] up to, and without, the index 12, or the
    index of the month before the current one when the input is of the
    current year; buckets without a number are left out.  This holds for
    every series the accessor hands over, in both clients. *)
Theorem C5_month_and_year_remainders_sum_slices :
  forall {N : Numeric} (fuel : nat) (e : env) (self : client) (w : world)
         (input_date_string : string) (input_date : datetime)
         (series : list (string * option num)) (energy_sum : num),
    strptime_dmY_HM input_date_string = Ok input_date ->
    1 <= date_month (today e) ->
    let month_total :=
      add energy_sum
          (fold_left add (values_of (from_index (day input_date) series)) zero) in
    let end_index :=
      if year input_date =? date_year (today e)
      then date_month (today e) - 1 else 12 in
    let year_total :=
      add energy_sum
          (fold_left add
             (values_of (from_index_to (month input_date) end_index series))
             zero) in
    (forall self' w',
       PyNoeSmartmeter.get_consumption_for_month fuel (year input_date)
         (month input_date) e self w = (Ok (map bucket series), self', w') ->
       PyNoeSmartmeter.add_month_remainder fuel input_date energy_sum e self w
       = (Ok month_total, self', w'))
    /\ (forall self' w',
       PyNoeSmartmeter.get_consumption_for_year fuel (year input_date) e self w
       = (Ok (map bucket series), self', w') ->
       PyNoeSmartmeter.add_year_remainder fuel (today e) input_date energy_sum
         e self w
       = (Ok year_total, self', w'))
    /\ (forall self' w',
       noe_smartmeter.get_consumption_for_month fuel (year input_date)
         (month input_date) e self w = (Ok (map bucket series), self', w') ->
       noe_smartmeter.add_month_remainder fuel input_date energy_sum e self w
       = (Ok month_total, self', w'))
    /\ (forall self' w',
       noe_smartmeter.get_consumption_for_year fuel (year input_date) e self w
       = (Ok (map bucket series), self', w') ->
       noe_smartmeter.add_year_remainder fuel (today e) input_date energy_sum
         e self w
       = (Ok year_total, self', w')).
Proof.
  intros N fuel e self w s input_date series energy_sum Hparse Htoday
         month_total end_index year_total.
  apply strptime_dmY_HM_valid, valid_datetime_bounds in Hparse.
  destruct Hparse as [Hmonth Hday].
  assert (Hend : 0 <= end_index).
  { subst end_index. destruct (year input_date =? date_year (today e)); lia. }
  assert (Hm : add_non_null energy_sum
                 (py_slice_from (day input_date) (map bucket series))
               = Ok month_total).
  { rewrite py_slice_from_index by lia. unfold from_index.
    rewrite at_indices_map, add_non_null_buckets. reflexivity. }
  assert (Hy : add_non_null energy_sum
                 (py_slice (month input_date) end_index (map bucket series))
               = Ok year_total).
  { rewrite py_slice_from_index_to by lia. unfold from_index_to.
    rewrite at_indices_map, add_non_null_buckets. reflexivity. }
  repeat split; intros self' w' Hfetch.
  - unfold PyNoeSmartmeter.add_month_remainder. unfold_monad.
    rewrite Hfetch, Hm. reflexivity.
  - unfold PyNoeSmartmeter.add_year_remainder. unfold_monad.
    fold end_index. rewrite Hfetch, Hy. reflexivity.
  - unfold noe_smartmeter.add_month_remainder. unfold_monad.
    rewrite Hfetch, Hm. reflexivity.
  - unfold noe_smartmeter.add_year_remainder. unfold_monad.
    fold end_index. rewrite Hfetch, Hy. reflexivity.
Qed.

(** The input is the second of January 2024 and today is in 2025: of the
    month, the buckets at the indices 2 and 3 count (10 and 100; the bucket
    at index 1 has no number and is before the slice anyway), and of the
    year, those at the indices 1 to 3 (2000, none, 4000). *)
Lemma C5_month_and_year_remainders_witness :
  let input_date := mkdatetime 2024 1 2 5 30 0 in
  let month_request :=
    Get (N := Z_numeric) (API_CONSUMPTION_URL ++ "/Month")
      [("meterId", PValue (_metering_point_id logged_in));
       ("year", PInt 2024); ("month", PInt 1)] [("session", "cached")] in
  let year_request :=
    Get (N := Z_numeric) (API_CONSUMPTION_URL ++ "/Year")
      [("meterId", PValue (_metering_point_id logged_in));
       ("year", PInt 2024)] [("session", "cached")] in
  strptime_dmY_HM "02.01.2024 05:30" = Ok input_date
  /\ 1 <= date_month (today gapped_async)
  /\ PyNoeSmartmeter.add_month_remainder 1 input_date 5 gapped_async logged_in
       fresh_world
     = (Ok 115, logged_in, mkworld None [month_request])
  /\ PyNoeSmartmeter.add_year_remainder 1 (today gapped_async) input_date 5
       gapped_async logged_in fresh_world
     = (Ok 6005, logged_in, mkworld None [year_request]).
Proof.
  split; [reflexivity|]. split; [cbn; lia|].
  assert (Htoday : 1 <= date_month (today gapped_async)) by (cbn; lia).
  pose proof (C5_month_and_year_remainders_sum_slices (N := Z_numeric) 1
                gapped_async logged_in fresh_world "02.01.2024 05:30"
                (mkdatetime 2024 1 2 5 30 0)) as Hclaim.
  split.
  - exact (proj1 (Hclaim short_month 5 eq_refl Htoday) logged_in _ eq_refl).
  - exact (proj1 (proj2 (Hclaim short_year 5 eq_refl Htoday))
             logged_in _ eq_refl).
Defined.

(** C3: every sum of [get_consumption_since_date] is claimed to leave out
    the buckets without a number and not to raise.  The sums over the month
    and the year series do ([add_non_null] is total on a series of numbers
    and gaps), but the loop over the day series tests no bucket for [None]:
    with a gap after the input time stamp, [energy_sum += consumption]
    raises [TypeError] and so does the whole call, in both clients. *)
Theorem C3_null_bucket_in_day_series_raises :
  (forall {N : Numeric} (energy_sum : num) (series : list (string * option num)),
     add_non_null energy_sum (map bucket series)
     = Ok (add energy_sum (fold_left add (values_of series) zero)))
  /\ (forall {N : Numeric} (input_date : datetime) (energy_sum : num),
       day_loop input_date
         (map bucket [("2024-01-10T06:00:00", None)]) energy_sum
       = if datetime_gtb (mkdatetime 2024 1 10 6 0 0) input_date
         then Raise TypeError else Ok energy_sum)
  /\ outcome (PyNoeSmartmeter.get_consumption_since_date 1 "10.01.2024 05:30" 5
                null_async logged_in fresh_world)
     = Raise TypeError
  /\ outcome (noe_smartmeter.get_consumption_since_date 1 "10.01.2024 05:30" 5
                null_sync logged_in fresh_world)
     = Raise TypeError.
Proof.
  split; [intros N energy_sum series; apply add_non_null_buckets|].
  split; [|split; reflexivity].
  intros N input_date energy_sum.
  cbn -[datetime_gtb strptime_iso]. rewrite strptime_bucket_example.
  cbn -[datetime_gtb].
  destruct (datetime_gtb _ input_date); reflexivity.
Qed.
(** *** The consumption accessors *)

Section Accessors.
Context {N : Numeric}.

(** What the [except] clause of the accessors is there for: when the GET of
    the day accessor fails with an exception of the caught classes, a
    request error of the transport among them, the accessor returns the
    empty series. *)
Lemma async_per_day_swallows_caught (fuel : nat) (day : string) (e : env)
  (self : client) (w : world) (jar : cookies) (x : exn) :
  _session self = Some jar ->
  is_none (_metering_point_id self) = false ->
  server e (sent w)
    (Get (API_CONSUMPTION_URL ++ "/Day")
       [("meterId", PValue (_metering_point_id self)); ("day", PText day)] jar)
  = Fails x ->
  PyNoeSmartmeter.caught x = true ->
  PyNoeSmartmeter.get_consumption_per_day (S fuel) day e self w
  = (Ok [], self,
     mkworld (session_file w)
       (Get (API_CONSUMPTION_URL ++ "/Day")
          [("meterId", PValue (_metering_point_id self)); ("day", PText day)]
          jar :: sent w)).
Proof.
  intros Hjar Hmp Hfail Hcaught.
  unfold PyNoeSmartmeter.get_consumption_per_day,
    PyNoeSmartmeter.ensure_metering_point, PyNoeSmartmeter._call_api.
  cbn [PyNoeSmartmeter.call_api_loop Z.ltb Z.compare].
  unfold PyNoeSmartmeter.session_get. unfold_monad.
  rewrite Hmp, !Hjar, Hfail, Hcaught. reflexivity.
Qed.

(** A response whose text is no JSON document ends in the empty series as
    well. *)
Lemma async_per_day_swallows_bad_json (fuel : nat) (day : string) (e : env)
  (self : client) (w : world) (jar jar' : cookies) :
  _session self = Some jar ->
  is_none (_metering_point_id self) = false ->
  server e (sent w)
    (Get (API_CONSUMPTION_URL ++ "/Day")
       [("meterId", PValue (_metering_point_id self)); ("day", PText day)] jar)
  = Reply (mkresponse 200 None jar') ->
  outcome (PyNoeSmartmeter.get_consumption_per_day (S fuel) day e self w)
  = Ok [].
Proof.
  intros Hjar Hmp Hreply.
  unfold PyNoeSmartmeter.get_consumption_per_day,
    PyNoeSmartmeter.ensure_metering_point, PyNoeSmartmeter._call_api.
  cbn [PyNoeSmartmeter.call_api_loop Z.ltb Z.compare].
  unfold PyNoeSmartmeter.session_get, outcome. unfold_monad.
  rewrite Hmp, !Hjar, Hreply. reflexivity.
Qed.

(** Reading the series out of a document raises nothing but [KeyError] and
    [TypeError]. *)
Lemma series_of_raises (doc : json) (key : string) (x : exn) :
  series_of doc key = Raise x -> x = KeyError \/ x = TypeError.
Proof.
  unfold series_of, subscript, zip_list, iterate.
  destruct doc; cbn; try (intros H; inversion H; auto; fail).
  destruct (lookup_member "peakDemandTimes" members) as [times|]; cbn;
    [|intros H; inversion H; auto].
  destruct (lookup_member key members) as [values|]; cbn;
    [|intros H; inversion H; auto].
  destruct times, values; cbn; intros H; inversion H; auto.
Qed.

End Accessors.

(** C7: the accessors are claimed to turn every failure into the empty
    series, the case that [_call_api] yields no response included.  A
    request error of the transport does end in the empty series.  But when
    the GET is answered with 401, [_call_api] logs in again and returns
    [None], and [response.json()] on it raises [AttributeError], a class
    the [except] clause does not name: the three accessors of both clients
    raise it to their caller. *)
Theorem C7_accessors_raise_when_call_api_returns_nothing :
  forall {N : Numeric} (fuel : nat) (day : string) (year month : Z)
         (today : date),
    let e := mkenv (scripted [401] None) today in
    let down := mkenv (failing RequestError) today in
    (outcome (PyNoeSmartmeter.get_consumption_per_day (S fuel) day
                e logged_in fresh_world) = Raise AttributeError
     /\ outcome (PyNoeSmartmeter.get_consumption_for_month (S fuel) year month
                e logged_in fresh_world) = Raise AttributeError
     /\ outcome (PyNoeSmartmeter.get_consumption_for_year (S fuel) year
                e logged_in fresh_world) = Raise AttributeError)
    /\ (outcome (noe_smartmeter.get_consumption_per_day (S fuel) day
                e logged_in fresh_world) = Raise AttributeError
     /\ outcome (noe_smartmeter.get_consumption_for_month (S fuel) year month
                e logged_in fresh_world) = Raise AttributeError
     /\ outcome (noe_smartmeter.get_consumption_for_year (S fuel) year
                e logged_in fresh_world) = Raise AttributeError)
    /\ (outcome (PyNoeSmartmeter.get_consumption_per_day (S fuel) day
                down logged_in fresh_world) = Ok []
     /\ outcome (noe_smartmeter.get_consumption_per_day (S fuel) day
                down logged_in fresh_world) = Ok []).
Proof.
  intros N fuel day year month today e down.
  destruct fuel; repeat split; reflexivity.
Qed.

(** *** Validation of a stored session *)

(** C8, as it stands, fails: with a stored session and a transport that
    fails on the probe with a request error, [authenticate()] raises that
    error.  Only the probe has been sent: no login is attempted, although
    this provider would accept one. *)
Lemma C8_probe_request_error_propagates :
  PyNoeSmartmeter.authenticate (N := Z_numeric) None None
    (mkenv (failing RequestError) (mkdate 2024 3 7))
    (PyNoeSmartmeter.__init__ "user" "secret") cached_world
  = (Raise RequestError, PyNoeSmartmeter.__init__ "user" "secret",
     mkworld (Some (Pickled [("session", "cached")]))
       [Get API_USER_DETAILS_URL [] [("session", "cached")]]).
Proof. reflexivity. Qed.

(** C8, amended: while a stored session is validated, a [TypeError] of the
    probe, and no other exception, counts as "session invalid" in the
    asynchronous client, which then goes on to the fresh login; any other
    exception of the probe, a request error of the transport among them,
    leaves [authenticate()] as it is, with nothing but the probe sent.  The
    synchronous client catches nothing: there every exception of the probe
    leaves [_authenticate]. *)
Theorem C8_probe_type_error_only_counts_as_invalid :
  forall {N : Numeric} (e : env) (self : client) (w : world) (jar : cookies)
         (x : exn),
    session_file w = Some (Pickled jar) ->
    server e (sent w) (Get API_USER_DETAILS_URL [] jar) = Fails x ->
    let probed :=
      mkworld (session_file w) (Get API_USER_DETAILS_URL [] jar :: sent w) in
    PyNoeSmartmeter.authenticate None None e self w
    = match x with
      | TypeError => fresh_login e self probed
      | _ => (Raise x, self, probed)
      end
    /\ forall username password,
         noe_smartmeter._authenticate username password e self w
         = (Raise x, self, probed).
Proof.
  intros N e self w jar x Hfile Hprobe probed. split.
  - rewrite authenticate_unfold, Hfile. cbv zeta. rewrite Hprobe.
    subst probed. rewrite Hfile. destruct x; reflexivity.
  - intros username password.
    unfold noe_smartmeter._authenticate. unfold_monad.
    rewrite Hfile, Hprobe. subst probed. rewrite Hfile. reflexivity.
Qed.

(** The transport fails on the probe with a [TypeError]: the client logs in
    afresh and adopts the new session. *)
Lemma C8_probe_type_error_witness :
  let e := mkenv (N := Z_numeric) (failing TypeError) (mkdate 2024 3 7) in
  let self := PyNoeSmartmeter.__init__ (N := Z_numeric) "user" "secret" in
  let probe := Get (N := Z_numeric) API_USER_DETAILS_URL []
                 [("session", "cached")] in
  session_file cached_world = Some (Pickled [("session", "cached")])
  /\ server e (sent cached_world) probe = Fails TypeError
  /\ PyNoeSmartmeter.authenticate None None e self cached_world
     = (Ok true, with_session (Some [("session", "fresh")]) self,
        mkworld (Some (Pickled [("session", "fresh")]))
          [Post AUTH_URL Form [("user", "user"); ("pwd", "secret")] []; probe]).
Proof.
  split; [reflexivity|]. split; [reflexivity|].
  exact (eq_trans
           (proj1 (C8_probe_type_error_only_counts_as_invalid (N := Z_numeric)
                     (mkenv (failing TypeError) (mkdate 2024 3 7))
                     (PyNoeSmartmeter.__init__ "user" "secret") cached_world
                     [("session", "cached")] TypeError eq_refl eq_refl))
           eq_refl).
Defined.

(** *** The two clients side by side *)

Section Agreement.
Context {N : Numeric}.

Variable srv : list request -> request -> reply.
Variable current : date.
Hypothesis served : always_served srv.

Local Abbreviation e_sync := (mkenv srv current).
Local Abbreviation e_async := (mkenv (wrapped srv) current).

Lemma sync_call_api_served (fuel : nat) (url : string) params self w jar :
  _session self = Some jar ->
  noe_smartmeter._call_api (S fuel) url params e_sync self w
  = match srv (sent w) (Get url params jar) with
    | Reply r =>
        (Ok (Some r), with_session (Some (jar_after r)) self,
         mkworld (session_file w) (Get url params jar :: sent w))
    | Fails x =>
        (Raise x, self, mkworld (session_file w) (Get url params jar :: sent w))
    end.
Proof.
  intros Hjar. unfold noe_smartmeter._call_api.
  cbn [noe_smartmeter.call_api_loop Z.ltb Z.compare].
  unfold noe_smartmeter.session_get. unfold_monad.
  rewrite Hjar. cbn [server].
  pose proof (served (sent w) (Get url params jar)) as Hs.
  destruct (srv (sent w) (Get url params jar)) as [r|x]; [|reflexivity].
  rewrite Hs. reflexivity.
Qed.

Lemma async_call_api_served (fuel : nat) (url : string) params self w jar :
  _session self = Some jar ->
  PyNoeSmartmeter._call_api (S fuel) url params e_async self w
  = match srv (sent w) (Get url params jar) with
    | Reply r =>
        (Ok (Some (mkresponse (status_code r)
                     (option_map (fun doc => JArr [doc]) (body r))
                     (jar_after r))),
         with_session (Some (jar_after r)) self,
         mkworld (session_file w) (Get url params jar :: sent w))
    | Fails x =>
        (Raise x, self, mkworld (session_file w) (Get url params jar :: sent w))
    end.
Proof.
  intros Hjar. unfold PyNoeSmartmeter._call_api.
  cbn [PyNoeSmartmeter.call_api_loop Z.ltb Z.compare].
  unfold PyNoeSmartmeter.session_get. unfold_monad.
  rewrite !Hjar. cbn [server]. unfold wrapped.
  pose proof (served (sent w) (Get url params jar)) as Hs.
  destruct (srv (sent w) (Get url params jar)) as [r|x]; [|reflexivity].
  cbn [in_array status_code jar_after]. rewrite Hs. reflexivity.
Qed.

Lemma call_api_no_fuel url params self w jar :
  _session self = Some jar ->
  PyNoeSmartmeter._call_api 0 url params e_async self w = (OutOfFuel, self, w)
  /\ noe_smartmeter._call_api 0 url params e_sync self w = (OutOfFuel, self, w).
Proof.
  intros Hjar. unfold PyNoeSmartmeter._call_api, noe_smartmeter._call_api.
  unfold_monad. rewrite Hjar. split; reflexivity.
Qed.

Lemma per_day_agree fuel day self w :
  ready self ->
  PyNoeSmartmeter.get_consumption_per_day fuel day e_async self w
  = noe_smartmeter.get_consumption_per_day fuel day e_sync self w
  /\ ready (final_client (noe_smartmeter.get_consumption_per_day fuel day e_sync self w)).
Proof.
  intros Hready.
  unfold PyNoeSmartmeter.get_consumption_per_day,
    noe_smartmeter.get_consumption_per_day.
  accessor_agree fuel self w Hready srv served call_api_no_fuel
    async_call_api_served sync_call_api_served;
    accessor_done series_of_raises.
Qed.

Lemma for_month_agree fuel year month self w :
  ready self ->
  PyNoeSmartmeter.get_consumption_for_month fuel year month e_async self w
  = noe_smartmeter.get_consumption_for_month fuel year month e_sync self w
  /\ ready (final_client
              (noe_smartmeter.get_consumption_for_month fuel year month
                 e_sync self w)).
Proof.
  intros Hready.
  unfold PyNoeSmartmeter.get_consumption_for_month,
    noe_smartmeter.get_consumption_for_month.
  accessor_agree fuel self w Hready srv served call_api_no_fuel
    async_call_api_served sync_call_api_served;
    accessor_done series_of_raises.
Qed.

Lemma for_year_agree fuel year self w :
  ready self ->
  PyNoeSmartmeter.get_consumption_for_year fuel year e_async self w
  = noe_smartmeter.get_consumption_for_year fuel year e_sync self w
  /\ ready (final_client
              (noe_smartmeter.get_consumption_for_year fuel year e_sync self w)).
Proof.
  intros Hready.
  unfold PyNoeSmartmeter.get_consumption_for_year,
    noe_smartmeter.get_consumption_for_year.
  accessor_agree fuel self w Hready srv served call_api_no_fuel
    async_call_api_served sync_call_api_served;
    accessor_done series_of_raises.
Qed.

Lemma day_remainder_agree fuel input_date energy_sum self w :
  ready self ->
  PyNoeSmartmeter.add_day_remainder fuel input_date energy_sum e_async self w
  = noe_smartmeter.add_day_remainder fuel input_date energy_sum e_sync self w
  /\ ready (final_client
              (noe_smartmeter.add_day_remainder fuel input_date energy_sum
                 e_sync self w)).
Proof.
  intros Hready.
  unfold PyNoeSmartmeter.add_day_remainder, noe_smartmeter.add_day_remainder.
  block_agree (per_day_agree fuel (strftime_Ymd input_date) self w Hready).
Qed.

Lemma month_remainder_agree fuel input_date energy_sum self w :
  ready self ->
  PyNoeSmartmeter.add_month_remainder fuel input_date energy_sum e_async self w
  = noe_smartmeter.add_month_remainder fuel input_date energy_sum e_sync self w
  /\ ready (final_client
              (noe_smartmeter.add_month_remainder fuel input_date energy_sum
                 e_sync self w)).
Proof.
  intros Hready.
  unfold PyNoeSmartmeter.add_month_remainder,
    noe_smartmeter.add_month_remainder.
  block_agree (for_month_agree fuel (year input_date) (month input_date)
                 self w Hready).
Qed.

Lemma year_remainder_agree fuel current_date input_date energy_sum self w :
  ready self ->
  PyNoeSmartmeter.add_year_remainder fuel current_date input_date energy_sum
    e_async self w
  = noe_smartmeter.add_year_remainder fuel current_date input_date energy_sum
      e_sync self w
  /\ ready (final_client
              (noe_smartmeter.add_year_remainder fuel current_date input_date
                 energy_sum e_sync self w)).
Proof.
  intros Hready.
  unfold PyNoeSmartmeter.add_year_remainder, noe_smartmeter.add_year_remainder.
  block_agree (for_year_agree fuel (year input_date) self w Hready).
Qed.

Lemma later_years_loop_agree fuel years : forall energy_sum self w,
  ready self ->
  PyNoeSmartmeter.later_years_loop fuel years energy_sum e_async self w
  = noe_smartmeter.later_years_loop fuel years energy_sum e_sync self w
  /\ ready (final_client
              (noe_smartmeter.later_years_loop fuel years energy_sum
                 e_sync self w)).
Proof.
  induction years as [|y years IH]; intros energy_sum self w Hready.
  - split; [reflexivity | exact Hready].
  - cbn [PyNoeSmartmeter.later_years_loop noe_smartmeter.later_years_loop].
    unfold_monad.
    destruct (for_year_agree fuel y self w Hready) as [Heq Hr]. rewrite Heq.
    destruct (noe_smartmeter.get_consumption_for_year fuel y e_sync self w)
      as [[[series|x|] self'] w']; cbn in Hr |- *; auto.
    destruct (add_non_null energy_sum series) as [energy_sum'|x|]; cbn; auto.
Qed.

Lemma later_years_agree fuel current_date input_date energy_sum self w :
  ready self ->
  PyNoeSmartmeter.add_later_years fuel current_date input_date energy_sum
    e_async self w
  = noe_smartmeter.add_later_years fuel current_date input_date energy_sum
      e_sync self w
  /\ ready (final_client
              (noe_smartmeter.add_later_years fuel current_date input_date
                 energy_sum e_sync self w)).
Proof.
  intros Hready.
  unfold PyNoeSmartmeter.add_later_years, noe_smartmeter.add_later_years.
  destruct (negb (year input_date =? date_year current_date)).
  - apply later_years_loop_agree, Hready.
  - split; [reflexivity | exact Hready].
Qed.

Lemma since_date_agree fuel input_date_string offset self w :
  ready self ->
  PyNoeSmartmeter.get_consumption_since_date fuel input_date_string offset
    e_async self w
  = repack (noe_smartmeter.get_consumption_since_date fuel input_date_string
              offset e_sync self w).
Proof.
  intros Hready.
  unfold PyNoeSmartmeter.get_consumption_since_date,
    noe_smartmeter.get_consumption_since_date.
  unfold_monad.
  change (today e_async) with current. change (today e_sync) with current.
  destruct (strptime_dmY_HM input_date_string) as [input_date|x|];
    try reflexivity.
  destruct (date_eqb current (date_of input_date)); [reflexivity|].
  destruct (day_remainder_agree fuel input_date zero self w Hready)
    as [Heq1 Hr1].
  rewrite Heq1.
  destruct (noe_smartmeter.add_day_remainder fuel input_date zero _ self w)
    as [[[e1|x|] self1] w1]; cbn in Hr1 |- *; try reflexivity.
  destruct (month_remainder_agree fuel input_date e1 self1 w1 Hr1)
    as [Heq2 Hr2].
  rewrite Heq2.
  destruct (noe_smartmeter.add_month_remainder fuel input_date e1 _ self1 w1)
    as [[[e2|x|] self2] w2]; cbn in Hr2 |- *; try reflexivity.
  destruct (year_remainder_agree fuel current input_date e2 self2 w2 Hr2)
    as [Heq3 Hr3].
  rewrite Heq3.
  destruct (noe_smartmeter.add_year_remainder fuel current input_date e2 _ self2 w2)
    as [[[e3|x|] self3] w3]; cbn in Hr3 |- *; try reflexivity.
  destruct (later_years_agree fuel current input_date e3 self3 w3 Hr3)
    as [Heq4 Hr4].
  rewrite Heq4.
  destruct (noe_smartmeter.add_later_years fuel current input_date e3 _ self3 w3)
    as [[[e4|x|] self4] w4]; cbn in Hr4 |- *; reflexivity.
Qed.
End Agreement.

(** Every provider built by [serving_sync] answers every request with
    status 200. *)
Lemma serving_sync_always_served {N : Numeric}
  (day_series month_series year_series : list (string * option num)) :
  always_served (serving_sync day_series month_series year_series).
Proof.
  intros history [url params jar | url enc payload jar]; reflexivity.
Qed.

(** C9, as it stands, fails: it is the seventh of March 2024, both clients
    are logged in and ask the same provider, which sends the documents the
    asynchronous client reads.  The asynchronous client gets the day series
    and a reading; the synchronous client, which does not take the first
    element of the document, raises [TypeError] in both calls. *)
Lemma C9_clients_differ_on_the_same_provider :
  outcome (PyNoeSmartmeter.get_consumption_per_day 1 "2024-01-10"
             worked_async logged_in fresh_world)
  = Ok (map (bucket (N := Z_numeric)) worked_series)
  /\ outcome (noe_smartmeter.get_consumption_per_day 1 "2024-01-10"
             worked_async logged_in fresh_world)
     = Raise TypeError
  /\ outcome (PyNoeSmartmeter.get_consumption_since_date 1 "10.01.2024 05:30" 0
             worked_async logged_in fresh_world)
     = Ok (mkreading "07.03.2024 00:00" 3)
  /\ outcome (noe_smartmeter.get_consumption_since_date 1 "10.01.2024 05:30" 0
             worked_async logged_in fresh_world)
     = Raise TypeError.
Proof. repeat split; reflexivity. Qed.

(** C9, amended: the two clients agree on [get_consumption_since_date]
    once they are logged in and know the metering point, as long as every
    request is answered with status 200 or fails in the transport with a
    request error, and the provider of the asynchronous client sends each
    document of the provider of the synchronous client inside a one-element
    array.  Then both send the same requests, end with the same client and
    the same world, and raise the same exception or return the same time
    stamp and number, as a dictionary in one and as a tuple in the other. *)
Theorem C9_clients_agree_on_aggregation_when_served :
  forall {N : Numeric} (srv : list request -> request -> reply)
         (current : date) (fuel : nat) (input_date_string : string)
         (offset : num) (self : client) (w : world),
    always_served srv ->
    ready self ->
    PyNoeSmartmeter.get_consumption_since_date fuel input_date_string offset
      (mkenv (wrapped srv) current) self w
    = repack (noe_smartmeter.get_consumption_since_date fuel input_date_string
                offset (mkenv srv current) self w).
Proof.
  intros N srv current fuel input_date_string offset self w Hserved Hready.
  apply since_date_agree; assumption.
Qed.

(** The worked example, asked of both clients. *)
Lemma C9_clients_agree_witness :
  always_served (serving_sync (N := Z_numeric) worked_series [] [])
  /\ ready (N := Z_numeric) logged_in
  /\ PyNoeSmartmeter.get_consumption_since_date 1 "10.01.2024 05:30" 0
       (mkenv (wrapped (serving_sync worked_series [] [])) (mkdate 2024 3 7))
       logged_in fresh_world
     = repack (noe_smartmeter.get_consumption_since_date 1 "10.01.2024 05:30" 0
                 worked_sync logged_in fresh_world)
  /\ outcome (noe_smartmeter.get_consumption_since_date 1 "10.01.2024 05:30" 0
                worked_sync logged_in fresh_world)
     = Ok ("07.03.2024 00:00", 3).
Proof.
  split; [apply serving_sync_always_served|].
  split; [split; reflexivity|].
  split; [|reflexivity].
  apply (C9_clients_agree_on_aggregation_when_served (N := Z_numeric)
           (serving_sync (N := Z_numeric) worked_series [] [])
           (mkdate 2024 3 7) 1 "10.01.2024 05:30" 0 logged_in fresh_world).
  - apply serving_sync_always_served.
  - split; reflexivity.
Defined.

Section MoreAuthentication.
Context {N : Numeric}.

Lemma fresh_login_unfold (e : env) (self : client) (w : world) :
  fresh_login e self w =
  let w1 := mkworld (session_file w) (login_request self :: sent w) in
  match server e (sent w) (login_request self) with
  | Reply r =>
      if status_code r =? 200
      then (Ok true, with_session (Some (jar_after r)) self,
            mkworld (Some (Pickled (jar_after r)))
              (login_request self :: sent w))
      else if status_code r =? 401 then (Raise SmartmeterLoginError, self, w1)
      else (Raise (SmartmeterConnectionError (status_code r)), self, w1)
  | Fails x => (Raise x, self, w1)
  end.
Proof.
  unfold fresh_login, PyNoeSmartmeter._save_session, login_request.
  unfold_monad.
  destruct (server e (sent w) _) as [r|x]; cbn; [|reflexivity].
  destruct (status_code r =? 200); cbn; [reflexivity|].
  destruct (status_code r =? 401); reflexivity.
Qed.

Lemma authenticate_supplied (username password : option string) (e : env)
  (self : client) (w : world) :
  supplied username password = true ->
  PyNoeSmartmeter.authenticate username password e self w
  = fresh_login e (with_credentials username password self)
      (mkworld None (sent w)).
Proof.
  intros Hsupplied.
  unfold PyNoeSmartmeter.authenticate, PyNoeSmartmeter._clear_stored_session,
    PyNoeSmartmeter._load_check_session, fresh_login, with_credentials,
    PyNoeSmartmeter._save_session.
  unfold_monad.
  destruct w as [file history].
  destruct username as [u|], password as [p|]; try discriminate;
    destruct file as [b|]; reflexivity.
Qed.

Lemma fresh_login_ok (e : env) (self self' : client) (w w' : world) (b : bool) :
  fresh_login e self w = (Ok b, self', w') ->
  b = true
  /\ exists jar, self' = with_session (Some jar) self
                 /\ session_file w' = Some (Pickled jar)
                 /\ sent w' = login_request self :: sent w.
Proof.
  rewrite fresh_login_unfold. cbv zeta.
  destruct (server e (sent w) _) as [r|x]; [|discriminate].
  destruct (status_code r =? 200).
  - intros H; inversion H; subst. split; [reflexivity|].
    exists (jar_after r). auto.
  - destruct (status_code r =? 401); discriminate.
Qed.

Lemma authenticate_ok (username password : option string) (e : env)
  (self self' : client) (w w' : world) (b : bool) :
  PyNoeSmartmeter.authenticate username password e self w = (Ok b, self', w') ->
  b = true
  /\ (exists jar, self' = with_session (Some jar)
                          (with_credentials username password self))
  /\ (exists stored, session_file w' = Some (Pickled stored)).
Proof.
  destruct (supplied username password) eqn:Hs.
  - rewrite authenticate_supplied by exact Hs. intros H.
    apply fresh_login_ok in H. destruct H as (-> & jar & -> & Hfile & _).
    split; [reflexivity|]. split; eauto.
  - destruct username, password; try discriminate. cbn [with_credentials].
    rewrite authenticate_unfold.
    destruct (session_file w) as [[jar|]|] eqn:Hfile; cbv zeta.
    + destruct (server e (sent w) _) as [r|x].
      * destruct (status_code r =? 200).
        -- intros H; inversion H; subst. cbn. eauto.
        -- intros H. apply fresh_login_ok in H.
           destruct H as (-> & jar' & -> & Hf & _). eauto.
      * destruct x; try discriminate.
        intros H. apply fresh_login_ok in H.
        destruct H as (-> & jar' & -> & Hf & _). eauto.
    + discriminate.
    + intros H. apply fresh_login_ok in H.
      destruct H as (-> & jar' & -> & Hf & _). eauto.
Qed.

End MoreAuthentication.

(** X1: a stored session that the probe finds valid is adopted, and nothing
    but the probe is sent: no login takes place and the session file stays
    as it is, in both clients. *)
Theorem X1_valid_stored_session_is_reused :
  forall {N : Numeric} (e : env) (self : client) (w : world) (jar : cookies)
         (r : response),
    session_file w = Some (Pickled jar) ->
    server e (sent w) (Get API_USER_DETAILS_URL [] jar) = Reply r ->
    status_code r = 200 ->
    let probed :=
      mkworld (session_file w) (Get API_USER_DETAILS_URL [] jar :: sent w) in
    PyNoeSmartmeter.authenticate None None e self w
    = (Ok true, with_session (Some (jar_after r)) self, probed)
    /\ (forall username password,
          noe_smartmeter._authenticate username password e self w
          = (Ok tt, with_session (Some (jar_after r)) self, probed))
    /\ logins probed = logins w.
Proof.
  intros N e self w jar r Hfile Hprobe Hstatus probed.
  split; [|split].
  - rewrite authenticate_unfold, Hfile. cbv zeta.
    rewrite Hprobe, Hstatus. subst probed. rewrite Hfile. reflexivity.
  - intros username password.
    unfold noe_smartmeter._authenticate. unfold_monad.
    rewrite Hfile, Hprobe, Hstatus. subst probed. rewrite Hfile. reflexivity.
  - reflexivity.
Qed.

(** A session from an earlier run and a provider that answers the probe
    with 200. *)
Lemma X1_valid_stored_session_witness :
  let e := mkenv (N := Z_numeric) (scripted [] None) (mkdate 2024 3 7) in
  let self := PyNoeSmartmeter.__init__ (N := Z_numeric) "user" "secret" in
  let probe := Get (N := Z_numeric) API_USER_DETAILS_URL []
                 [("session", "cached")] in
  session_file cached_world = Some (Pickled [("session", "cached")])
  /\ status_code (mkresponse (N := Z_numeric) 200 None [("session", "cached")])
     = 200
  /\ PyNoeSmartmeter.authenticate None None e self cached_world
     = (Ok true, with_session (Some [("session", "cached")]) self,
        mkworld (session_file cached_world) [probe]).
Proof.
  split; [reflexivity|]. split; [reflexivity|].
  exact (proj1 (X1_valid_stored_session_is_reused (N := Z_numeric)
                  (mkenv (scripted [] None) (mkdate 2024 3 7))
                  (PyNoeSmartmeter.__init__ "user" "secret") cached_world
                  [("session", "cached")]
                  (mkresponse 200 None [("session", "cached")])
                  eq_refl eq_refl eq_refl)).
Defined.

(** X2: as soon as [authenticate] is given a user name or a password, the
    stored session is deleted before anything else, so the call is a fresh
    login with the new credentials: the one request it sends is the login,
    whatever the session file held, and when the login fails no session
    file is left. *)
Theorem X2_new_credentials_force_fresh_login :
  forall {N : Numeric} (username password : option string) (e : env)
         (self : client) (w : world),
    supplied username password = true ->
    let self1 := with_credentials username password self in
    let run := PyNoeSmartmeter.authenticate username password e self w in
    run = fresh_login e self1 (mkworld None (sent w))
    /\ sent (final_world run) = login_request self1 :: sent w
    /\ (forall x, outcome run = Raise x -> session_file (final_world run) = None).
Proof.
  intros N username password e self w Hsupplied self1 run.
  subst run. rewrite (authenticate_supplied username password e self w Hsupplied).
  fold self1. split; [reflexivity|].
  rewrite fresh_login_unfold. cbv zeta. cbn [sent session_file].
  destruct (server e (sent w) (login_request self1)) as [r|x].
  - destruct (status_code r =? 200); [split; [reflexivity|discriminate]|].
    destruct (status_code r =? 401); split; reflexivity.
  - split; reflexivity.
Qed.

(** A valid stored session does not survive a new user name: the provider
    would accept the probe, but the login is what is sent. *)
Lemma X2_new_credentials_witness :
  let e := mkenv (N := Z_numeric) (scripted [] None) (mkdate 2024 3 7) in
  supplied (Some "other") None = true
  /\ PyNoeSmartmeter.authenticate (Some "other") None e logged_in cached_world
     = (Ok true,
        with_session (Some [("session", "fresh")])
          (with_username "other" logged_in),
        mkworld (Some (Pickled [("session", "fresh")]))
          [Post AUTH_URL Form [("user", "other"); ("pwd", "secret")] []]).
Proof.
  split; [reflexivity|].
  exact (eq_trans
           (proj1 (X2_new_credentials_force_fresh_login (N := Z_numeric)
                     (Some "other") None
                     (mkenv (scripted [] None) (mkdate 2024 3 7))
                     logged_in cached_world eq_refl))
           eq_refl).
Defined.

(** X3: when [authenticate] returns, the client holds a live session and
    a readable session file exists, while the account number, the metering
    point and the capability flag are untouched; so it is for
    [_authenticate] of the synchronous client. *)
Theorem X3_authenticate_success_leaves_live_session :
  forall {N : Numeric} (e : env) (self self' : client) (w w' : world),
    (exists username password b,
       PyNoeSmartmeter.authenticate username password e self w
       = (Ok b, self', w'))
    \/ (exists username password,
         noe_smartmeter._authenticate username password e self w
         = (Ok tt, self', w')) ->
    has_session self' = true
    /\ (exists stored, session_file w' = Some (Pickled stored))
    /\ _account_id self' = _account_id self
    /\ _metering_point_id self' = _metering_point_id self
    /\ supports_api self' = supports_api self.
Proof.
  intros N e self self' w w'
         [(username & password & b & Hrun) | (username & password & Hrun)].
  - apply authenticate_ok in Hrun.
    destruct Hrun as (_ & (jar & ->) & Hfile).
    split; [reflexivity|]. split; [exact Hfile|].
    destruct username, password; repeat split; reflexivity.
  - revert Hrun. unfold noe_smartmeter._authenticate. unfold_monad.
    destruct (session_file w) as [[jar|]|] eqn:Hfile; cbn.
    + destruct (server e (sent w) _) as [r|y]; cbn; [|discriminate].
      destruct (status_code r =? 200); cbn.
      * intros H; inversion H; subst. cbn. rewrite Hfile.
        repeat split; eauto.
      * destruct (server e _ _) as [r'|y']; cbn; [|discriminate].
        destruct (status_code r' =? 200); cbn.
        -- intros H; inversion H; subst. cbn. repeat split; eauto.
        -- destruct (status_code r' =? 401); discriminate.
    + discriminate.
    + destruct (server e _ _) as [r'|y']; cbn; [|discriminate].
      destruct (status_code r' =? 200); cbn.
      * intros H; inversion H; subst. cbn. repeat split; eauto.
      * destruct (status_code r' =? 401); discriminate.
Qed.

(** A first login of the asynchronous client. *)
Lemma X3_authenticate_success_witness :
  let e := mkenv (N := Z_numeric) (scripted [] None) (mkdate 2024 3 7) in
  let self := PyNoeSmartmeter.__init__ (N := Z_numeric) "user" "secret" in
  let self' := with_session (Some [("session", "fresh")]) self in
  let w' := mkworld (N := Z_numeric) (Some (Pickled [("session", "fresh")]))
              [Post AUTH_URL Form [("user", "user"); ("pwd", "secret")] []] in
  PyNoeSmartmeter.authenticate None None e self fresh_world = (Ok true, self', w')
  /\ has_session self' = true
  /\ exists stored, session_file w' = Some (Pickled stored).
Proof.
  split; [reflexivity|].
  destruct (X3_authenticate_success_leaves_live_session (N := Z_numeric)
              (mkenv (scripted [] None) (mkdate 2024 3 7))
              (PyNoeSmartmeter.__init__ "user" "secret")
              (with_session (Some [("session", "fresh")])
                 (PyNoeSmartmeter.__init__ "user" "secret"))
              fresh_world
              (mkworld (Some (Pickled [("session", "fresh")]))
                 [Post AUTH_URL Form [("user", "user"); ("pwd", "secret")] []]))
    as (Hlive & Hfile & _).
  - left. exists None, None, true. reflexivity.
  - split; [exact Hlive | exact Hfile].
Defined.

(** X4: the session a login saves is the session the next [authenticate()]
    loads: after a fresh login, a second call probes the provider with the
    very cookies the login brought, logs in no more, and adopts them when
    the probe is answered with 200. *)
Theorem X4_saved_session_is_loaded_again :
  forall {N : Numeric} (e : env) (self : client) (w : world)
         (r r2 : response),
    session_file w = None ->
    server e (sent w) (login_request self) = Reply r ->
    status_code r = 200 ->
    let self1 := with_session (Some (jar_after r)) self in
    let w1 := mkworld (Some (Pickled (jar_after r)))
                (login_request self :: sent w) in
    let probe := Get API_USER_DETAILS_URL [] (jar_after r) in
    server e (sent w1) probe = Reply r2 ->
    status_code r2 = 200 ->
    PyNoeSmartmeter.authenticate None None e self w = (Ok true, self1, w1)
    /\ PyNoeSmartmeter.authenticate None None e self1 w1
       = (Ok true, with_session (Some (jar_after r2)) self1,
          mkworld (Some (Pickled (jar_after r))) (probe :: sent w1)).
Proof.
  intros N e self w r r2 Hfile Hlogin Hstatus self1 w1 probe Hprobe Hstatus2.
  split.
  - rewrite authenticate_unfold, Hfile, fresh_login_unfold. cbv zeta.
    rewrite Hlogin, Hstatus. reflexivity.
  - rewrite authenticate_unfold. subst w1. cbn [session_file sent] in *.
    cbv zeta. fold probe. rewrite Hprobe, Hstatus2. reflexivity.
Qed.

(** A login followed by a second [authenticate()]. *)
Lemma X4_saved_session_witness :
  let e := mkenv (N := Z_numeric) (scripted [] None) (mkdate 2024 3 7) in
  let self := PyNoeSmartmeter.__init__ (N := Z_numeric) "user" "secret" in
  let self1 := with_session (Some [("session", "fresh")]) self in
  let w1 := mkworld (N := Z_numeric) (Some (Pickled [("session", "fresh")]))
              [login_request self] in
  session_file (N := Z_numeric) fresh_world = None
  /\ PyNoeSmartmeter.authenticate None None e self1 w1
     = (Ok true, self1,
        mkworld (Some (Pickled [("session", "fresh")]))
          [Get API_USER_DETAILS_URL [] [("session", "fresh")];
           login_request self]).
Proof.
  split; [reflexivity|].
  exact (proj2 (X4_saved_session_is_loaded_again (N := Z_numeric)
                  (mkenv (scripted [] None) (mkdate 2024 3 7))
                  (PyNoeSmartmeter.__init__ "user" "secret") fresh_world
                  (mkresponse 200 None [("session", "fresh")])
                  (mkresponse 200 None [("session", "fresh")])
                  eq_refl eq_refl eq_refl eq_refl eq_refl)).
Defined.

Section CallApiInvariant.
Context {N : Numeric}.

Lemma same_account_refl (a : client) : same_account a a.
Proof. repeat split. Qed.

Lemma same_account_trans (a b c : client) :
  same_account a b -> same_account b c -> same_account a c.
Proof.
  unfold same_account. intros (H1 & H2 & H3 & H4 & H5) (K1 & K2 & K3 & K4 & K5).
  repeat split; congruence.
Qed.

Lemma same_account_with_session (s : option cookies) (a : client) :
  same_account a (with_session s a).
Proof. repeat split. Qed.

Lemma fresh_login_same_account (e : env) (self : client) (w : world) :
  same_account self (final_client (fresh_login e self w))
  /\ (forall b, outcome (fresh_login e self w) = Ok b ->
      has_session (final_client (fresh_login e self w)) = true).
Proof.
  rewrite fresh_login_unfold. cbv zeta.
  destruct (server e (sent w) _) as [r|x].
  - destruct (status_code r =? 200).
    + split; [apply same_account_with_session | reflexivity].
    + destruct (status_code r =? 401);
        (split; [apply same_account_refl | discriminate]).
  - split; [apply same_account_refl | discriminate].
Qed.

Lemma authenticate_same_account (e : env) (self : client) (w : world) :
  same_account self
    (final_client (PyNoeSmartmeter.authenticate None None e self w))
  /\ (forall b, outcome (PyNoeSmartmeter.authenticate None None e self w) = Ok b ->
      has_session (final_client
                     (PyNoeSmartmeter.authenticate None None e self w)) = true).
Proof.
  rewrite authenticate_unfold.
  destruct (session_file w) as [[jar|]|]; cbv zeta.
  - destruct (server e (sent w) _) as [r|x].
    + destruct (status_code r =? 200).
      * split; [apply same_account_with_session | reflexivity].
      * apply fresh_login_same_account.
    + destruct x; try (split; [apply same_account_refl | discriminate]).
      apply fresh_login_same_account.
  - split; [apply same_account_refl | discriminate].
  - apply fresh_login_same_account.
Qed.

Lemma sync_authenticate_same_account (u p : string) (e : env) (self : client)
  (w : world) :
  same_account self (final_client (noe_smartmeter._authenticate u p e self w))
  /\ (forall b, outcome (noe_smartmeter._authenticate u p e self w) = Ok b ->
      has_session (final_client (noe_smartmeter._authenticate u p e self w))
      = true).
Proof.
  unfold noe_smartmeter._authenticate. unfold_monad.
  destruct (session_file w) as [[jar|]|]; cbn.
  - destruct (server e (sent w) _) as [r|y]; cbn;
      [|split; [apply same_account_refl | discriminate]].
    destruct (status_code r =? 200); cbn.
    + split; [apply same_account_with_session | reflexivity].
    + destruct (server e _ _) as [r'|y']; cbn;
        [|split; [apply same_account_refl | discriminate]].
      destruct (status_code r' =? 200); cbn.
      * split; [apply same_account_with_session | reflexivity].
      * destruct (status_code r' =? 401); cbn;
          (split; [apply same_account_refl | discriminate]).
  - split; [apply same_account_refl | discriminate].
  - destruct (server e _ _) as [r'|y']; cbn;
      [|split; [apply same_account_refl | discriminate]].
    destruct (status_code r' =? 200); cbn.
    + split; [apply same_account_with_session | reflexivity].
    + destruct (status_code r' =? 401); cbn;
        (split; [apply same_account_refl | discriminate]).
Qed.

Lemma async_loop_same_account (url : string) (params : list (string * param))
  (e : env) :
  forall (fuel : nat) (self : client) (w : world),
    same_account self
      (final_client (PyNoeSmartmeter.call_api_loop fuel url params 0 e self w))
    /\ (forall r,
         outcome (PyNoeSmartmeter.call_api_loop fuel url params 0 e self w)
         = Ok r ->
         has_session
           (final_client
              (PyNoeSmartmeter.call_api_loop fuel url params 0 e self w))
         = true).
Proof.
  induction fuel as [|fuel IH]; intros self w.
  - split; [apply same_account_refl | discriminate].
  - cbn [PyNoeSmartmeter.call_api_loop Z.ltb Z.compare].
    unfold PyNoeSmartmeter.session_get. unfold_monad.
    destruct (_session self) as [jar|];
      [|split; [apply same_account_refl | discriminate]].
    destruct (server e (sent w) _) as [r|x];
      [|split; [apply same_account_refl | discriminate]].
    cbn -[PyNoeSmartmeter.authenticate PyNoeSmartmeter.call_api_loop].
    set (self1 := with_session (Some (jar_after r)) self).
    set (w1 := mkworld (session_file w) (Get url params jar :: sent w)).
    destruct (status_code r =? 401).
    + pose proof (authenticate_same_account e self1 w1) as [Hsame Hlive].
      destruct (PyNoeSmartmeter.authenticate None None e self1 w1)
        as [[[b|x|] self2] w2];
        cbn -[PyNoeSmartmeter.call_api_loop] in Hsame, Hlive |- *.
      * change (0 + 1) with 1.
        rewrite (proj1 (loop_ends_after_reauthentication fuel url params e
                          self2 w2)).
        split; [|intros _ _; exact (Hlive b eq_refl)].
        eapply same_account_trans; [|exact Hsame].
        apply same_account_with_session.
      * split; [|discriminate].
        eapply same_account_trans; [|exact Hsame].
        apply same_account_with_session.
      * split; [|discriminate].
        eapply same_account_trans; [|exact Hsame].
        apply same_account_with_session.
    + destruct (status_code r =? 200).
      * split; [apply same_account_with_session | reflexivity].
      * destruct (IH self1 w1) as [Hsame Hlive].
        split; [|exact Hlive].
        eapply same_account_trans; [apply (same_account_with_session (Some (jar_after r)) self)|exact Hsame].
Qed.

Lemma sync_loop_same_account (url : string) (params : list (string * param))
  (e : env) :
  forall (fuel : nat) (self : client) (w : world),
    same_account self
      (final_client (noe_smartmeter.call_api_loop fuel url params 0 e self w))
    /\ (forall r,
         outcome (noe_smartmeter.call_api_loop fuel url params 0 e self w)
         = Ok r ->
         has_session
           (final_client
              (noe_smartmeter.call_api_loop fuel url params 0 e self w))
         = true).
Proof.
  induction fuel as [|fuel IH]; intros self w.
  - split; [apply same_account_refl | discriminate].
  - cbn [noe_smartmeter.call_api_loop Z.ltb Z.compare].
    unfold noe_smartmeter.session_get. unfold_monad.
    destruct (_session self) as [jar|];
      [|split; [apply same_account_refl | discriminate]].
    destruct (server e (sent w) _) as [r|x];
      [|split; [apply same_account_refl | discriminate]].
    cbn -[noe_smartmeter._authenticate noe_smartmeter.call_api_loop].
    set (self1 := with_session (Some (jar_after r)) self).
    set (w1 := mkworld (session_file w) (Get url params jar :: sent w)).
    destruct (status_code r =? 401).
    + match goal with
      | |- context [noe_smartmeter._authenticate ?u ?p e self1 w1] =>
          pose proof (sync_authenticate_same_account u p e self1 w1)
            as [Hsame Hlive];
          destruct (noe_smartmeter._authenticate u p e self1 w1)
            as [[[b|x|] self2] w2]
      end;
        cbn -[noe_smartmeter.call_api_loop] in Hsame, Hlive |- *.
      * change (0 + 1) with 1.
        rewrite (proj2 (loop_ends_after_reauthentication fuel url params e
                          self2 w2)).
        split; [|intros _ _; exact (Hlive b eq_refl)].
        eapply same_account_trans; [|exact Hsame].
        apply same_account_with_session.
      * split; [|discriminate].
        eapply same_account_trans; [|exact Hsame].
        apply same_account_with_session.
      * split; [|discriminate].
        eapply same_account_trans; [|exact Hsame].
        apply same_account_with_session.
    + destruct (status_code r =? 200).
      * split; [apply same_account_with_session | reflexivity].
      * destruct (IH self1 w1) as [Hsame Hlive].
        split; [|exact Hlive].
        eapply same_account_trans; [|exact Hsame].
        apply same_account_with_session.
Qed.

Lemma async_call_api_same_account (fuel : nat) (url : string)
  (params : list (string * param)) (e : env) (self : client) (w : world) :
  same_account self
    (final_client (PyNoeSmartmeter._call_api fuel url params e self w))
  /\ (forall r,
       outcome (PyNoeSmartmeter._call_api fuel url params e self w) = Ok r ->
       has_session
         (final_client (PyNoeSmartmeter._call_api fuel url params e self w))
       = true).
Proof.
  unfold PyNoeSmartmeter._call_api. unfold_monad.
  destruct (_session self) as [jar|].
  - apply async_loop_same_account.
  - pose proof (authenticate_same_account e self w) as [Hsame _].
    destruct (PyNoeSmartmeter.authenticate None None e self w)
      as [[[b|x|] self1] w1]; cbn in Hsame |- *;
      try (split; [exact Hsame | discriminate]).
    destruct (async_loop_same_account url params e fuel self1 w1)
      as [Hsame1 Hlive1].
    split; [|exact Hlive1].
    eapply same_account_trans; eassumption.
Qed.

End CallApiInvariant.

(** X5: whatever the provider answers and however long the loop runs,
    [_call_api] changes nothing of the client but its session: the
    credentials, the account number, the metering point and the capability
    flag are as before; and when it returns, the client has a live
    session.  This holds in both clients. *)
Theorem X5_call_api_changes_only_the_session :
  forall {N : Numeric} (fuel : nat) (url : string)
         (params : list (string * param)) (e : env) (self : client)
         (w : world),
    let async := PyNoeSmartmeter._call_api fuel url params e self w in
    let sync := noe_smartmeter._call_api fuel url params e self w in
    same_account self (final_client async)
    /\ (forall r, outcome async = Ok r -> has_session (final_client async) = true)
    /\ same_account self (final_client sync)
    /\ (forall r, outcome sync = Ok r -> has_session (final_client sync) = true).
Proof.
  intros N fuel url params e self w async sync. subst async sync.
  destruct (async_call_api_same_account fuel url params e self w) as [H1 H2].
  destruct (sync_loop_same_account url params e fuel self w) as [H3 H4].
  split; [exact H1 | split; [exact H2 | split; [exact H3 | exact H4]]].
Qed.

Section Replies.
Context {N : Numeric}.

Lemma async_call_api_replied (fuel : nat) (url : string)
  (params : list (string * param)) (e : env) (self : client) (w : world)
  (jar : cookies) (r : response) :
  _session self = Some jar ->
  server e (sent w) (Get url params jar) = Reply r ->
  status_code r = 200 ->
  PyNoeSmartmeter._call_api (S fuel) url params e self w
  = (Ok (Some r), with_session (Some (jar_after r)) self,
     after_request (Get url params jar) w).
Proof.
  intros Hjar Hreply Hstatus. unfold PyNoeSmartmeter._call_api.
  call_api_once Hjar Hreply Hstatus. reflexivity.
Qed.

Lemma sync_call_api_replied (fuel : nat) (url : string)
  (params : list (string * param)) (e : env) (self : client) (w : world)
  (jar : cookies) (r : response) :
  _session self = Some jar ->
  server e (sent w) (Get url params jar) = Reply r ->
  status_code r = 200 ->
  noe_smartmeter._call_api (S fuel) url params e self w
  = (Ok (Some r), with_session (Some (jar_after r)) self,
     after_request (Get url params jar) w).
Proof.
  intros Hjar Hreply Hstatus. unfold noe_smartmeter._call_api.
  call_api_once Hjar Hreply Hstatus. reflexivity.
Qed.

Lemma async_call_api_failed (fuel : nat) (url : string)
  (params : list (string * param)) (e : env) (self : client) (w : world)
  (jar : cookies) (x : exn) :
  _session self = Some jar ->
  server e (sent w) (Get url params jar) = Fails x ->
  PyNoeSmartmeter._call_api (S fuel) url params e self w
  = (Raise x, self, after_request (Get url params jar) w).
Proof.
  intros Hjar Hreply. unfold PyNoeSmartmeter._call_api.
  call_api_once Hjar Hreply Hjar. reflexivity.
Qed.

Lemma sync_call_api_failed (fuel : nat) (url : string)
  (params : list (string * param)) (e : env) (self : client) (w : world)
  (jar : cookies) (x : exn) :
  _session self = Some jar ->
  server e (sent w) (Get url params jar) = Fails x ->
  noe_smartmeter._call_api (S fuel) url params e self w
  = (Raise x, self, after_request (Get url params jar) w).
Proof.
  intros Hjar Hreply. unfold noe_smartmeter._call_api.
  call_api_once Hjar Hreply Hjar. reflexivity.
Qed.

Lemma async_per_day_replied (fuel : nat) (day : string) (e : env)
  (self : client) (w : world) (jar : cookies) (r : response) :
  _session self = Some jar ->
  is_none (_metering_point_id self) = false ->
  server e (sent w) (day_request self day jar) = Reply r ->
  status_code r = 200 ->
  PyNoeSmartmeter.get_consumption_per_day (S fuel) day e self w
  = (swallow PyNoeSmartmeter.caught
       (and_then_result (and_then_result (json_of r) subscript0)
          (fun data => series_of data "meteredValues")),
     with_session (Some (jar_after r)) self,
     after_request (day_request self day jar) w).
Proof.
  intros Hjar Hmp Hreply Hstatus.
  unfold PyNoeSmartmeter.get_consumption_per_day.
  accessor_replied Hmp
    (async_call_api_replied fuel _ _ e self w jar r Hjar Hreply Hstatus)
    Hstatus (@PyNoeSmartmeter.caught).
Qed.

Lemma async_for_month_replied (fuel : nat) (year month : Z) (e : env)
  (self : client) (w : world) (jar : cookies) (r : response) :
  _session self = Some jar ->
  is_none (_metering_point_id self) = false ->
  server e (sent w) (month_request self year month jar) = Reply r ->
  status_code r = 200 ->
  PyNoeSmartmeter.get_consumption_for_month (S fuel) year month e self w
  = (swallow PyNoeSmartmeter.caught
       (and_then_result (and_then_result (json_of r) subscript0)
          (fun data => series_of data "meteredValues")),
     with_session (Some (jar_after r)) self,
     after_request (month_request self year month jar) w).
Proof.
  intros Hjar Hmp Hreply Hstatus.
  unfold PyNoeSmartmeter.get_consumption_for_month.
  accessor_replied Hmp
    (async_call_api_replied fuel _ _ e self w jar r Hjar Hreply Hstatus)
    Hstatus (@PyNoeSmartmeter.caught).
Qed.

Lemma async_for_year_replied (fuel : nat) (year : Z) (e : env)
  (self : client) (w : world) (jar : cookies) (r : response) :
  _session self = Some jar ->
  is_none (_metering_point_id self) = false ->
  server e (sent w) (year_request self year jar) = Reply r ->
  status_code r = 200 ->
  PyNoeSmartmeter.get_consumption_for_year (S fuel) year e self w
  = (swallow PyNoeSmartmeter.caught
       (and_then_result (and_then_result (json_of r) subscript0)
          (fun data => series_of data "values")),
     with_session (Some (jar_after r)) self,
     after_request (year_request self year jar) w).
Proof.
  intros Hjar Hmp Hreply Hstatus.
  unfold PyNoeSmartmeter.get_consumption_for_year.
  accessor_replied Hmp
    (async_call_api_replied fuel _ _ e self w jar r Hjar Hreply Hstatus)
    Hstatus (@PyNoeSmartmeter.caught).
Qed.

Lemma sync_per_day_replied (fuel : nat) (day : string) (e : env)
  (self : client) (w : world) (jar : cookies) (r : response) :
  _session self = Some jar ->
  server e (sent w) (day_request self day jar) = Reply r ->
  status_code r = 200 ->
  noe_smartmeter.get_consumption_per_day (S fuel) day e self w
  = (swallow noe_smartmeter.caught
       (and_then_result (json_of r)
          (fun data => series_of data "meteredValues")),
     with_session (Some (jar_after r)) self,
     after_request (day_request self day jar) w).
Proof.
  intros Hjar Hreply Hstatus.
  unfold noe_smartmeter.get_consumption_per_day.
  accessor_replied Hjar
    (sync_call_api_replied fuel _ _ e self w jar r Hjar Hreply Hstatus)
    Hstatus (@noe_smartmeter.caught).
Qed.

Lemma sync_for_month_replied (fuel : nat) (year month : Z) (e : env)
  (self : client) (w : world) (jar : cookies) (r : response) :
  _session self = Some jar ->
  server e (sent w) (month_request self year month jar) = Reply r ->
  status_code r = 200 ->
  noe_smartmeter.get_consumption_for_month (S fuel) year month e self w
  = (swallow noe_smartmeter.caught
       (and_then_result (json_of r)
          (fun data => series_of data "meteredValues")),
     with_session (Some (jar_after r)) self,
     after_request (month_request self year month jar) w).
Proof.
  intros Hjar Hreply Hstatus.
  unfold noe_smartmeter.get_consumption_for_month.
  accessor_replied Hjar
    (sync_call_api_replied fuel _ _ e self w jar r Hjar Hreply Hstatus)
    Hstatus (@noe_smartmeter.caught).
Qed.

Lemma sync_for_year_replied (fuel : nat) (year : Z) (e : env)
  (self : client) (w : world) (jar : cookies) (r : response) :
  _session self = Some jar ->
  server e (sent w) (year_request self year jar) = Reply r ->
  status_code r = 200 ->
  noe_smartmeter.get_consumption_for_year (S fuel) year e self w
  = (swallow noe_smartmeter.caught
       (and_then_result (json_of r)
          (fun data => series_of data "values")),
     with_session (Some (jar_after r)) self,
     after_request (year_request self year jar) w).
Proof.
  intros Hjar Hreply Hstatus.
  unfold noe_smartmeter.get_consumption_for_year.
  accessor_replied Hjar
    (sync_call_api_replied fuel _ _ e self w jar r Hjar Hreply Hstatus)
    Hstatus (@noe_smartmeter.caught).
Qed.

End Replies.

(** X6: a consumption accessor pairs the time stamps with the values in
    their order and stops at the end of the shorter array: whatever the
    longer one holds beyond is dropped without notice.  The asynchronous
    client reads the arrays from the first element of the body, the
    synchronous client from the body itself. *)
Theorem X6_consumption_series_zips_and_truncates :
  forall {N : Numeric} (fuel : nat) (day : string) (year month : Z) (e : env)
         (self : client) (w : world) (jar : cookies) (r : response)
         (doc : json) (times values : list json),
    _session self = Some jar ->
    is_none (_metering_point_id self) = false ->
    (forall url params, server e (sent w) (Get url params jar) = Reply r) ->
    status_code r = 200 ->
    subscript doc "peakDemandTimes" = Ok (JArr times) ->
    subscript doc "meteredValues" = Ok (JArr values) ->
    subscript doc "values" = Ok (JArr values) ->
    let series := combine times values in
    List.length series = Nat.min (List.length times) (List.length values)
    /\ (forall rest, body r = Some (JArr (doc :: rest)) ->
        outcome (PyNoeSmartmeter.get_consumption_per_day (S fuel) day e self w)
        = Ok series
        /\ outcome (PyNoeSmartmeter.get_consumption_for_month (S fuel) year
                      month e self w) = Ok series
        /\ outcome (PyNoeSmartmeter.get_consumption_for_year (S fuel) year
                      e self w) = Ok series)
    /\ (body r = Some doc ->
        outcome (noe_smartmeter.get_consumption_per_day (S fuel) day e self w)
        = Ok series
        /\ outcome (noe_smartmeter.get_consumption_for_month (S fuel) year
                      month e self w) = Ok series
        /\ outcome (noe_smartmeter.get_consumption_for_year (S fuel) year
                      e self w) = Ok series).
Proof.
  intros N fuel day year month e self w jar r doc times values
         Hjar Hmp Hserver Hstatus Htimes Hmetered Hvalues series.
  split; [apply length_combine|]. split.
  - intros rest Hbody.
    rewrite (async_per_day_replied fuel day e self w jar r Hjar Hmp
               (Hserver _ _) Hstatus),
            (async_for_month_replied fuel year month e self w jar r Hjar Hmp
               (Hserver _ _) Hstatus),
            (async_for_year_replied fuel year e self w jar r Hjar Hmp
               (Hserver _ _) Hstatus).
    unfold outcome, json_of, series_of. cbn [fst]. rewrite Hbody.
    cbn [subscript0 and_then_result].
    rewrite Htimes, Hmetered, Hvalues. repeat split; reflexivity.
  - intros Hbody.
    rewrite (sync_per_day_replied fuel day e self w jar r Hjar
               (Hserver _ _) Hstatus),
            (sync_for_month_replied fuel year month e self w jar r Hjar
               (Hserver _ _) Hstatus),
            (sync_for_year_replied fuel year e self w jar r Hjar
               (Hserver _ _) Hstatus).
    unfold outcome, json_of, series_of. cbn [fst]. rewrite Hbody.
    cbn [and_then_result].
    rewrite Htimes, Hmetered, Hvalues. repeat split; reflexivity.
Qed.

(** Three time stamps and two values: the third time stamp is dropped. *)
Lemma X6_consumption_series_witness :
  let r := carrying (JArr [ragged_document]) in
  let e := mkenv (answering r) (mkdate 2024 3 7) in
  _session (N := Z_numeric) logged_in = Some [("session", "cached")]
  /\ is_none (_metering_point_id (N := Z_numeric) logged_in) = false
  /\ status_code r = 200
  /\ outcome (PyNoeSmartmeter.get_consumption_per_day 1 "2024-01-10" e
                logged_in fresh_world)
     = Ok [(JStr "a", JNum 1); (JStr "b", JNum 2)].
Proof.
  split; [reflexivity|]. split; [reflexivity|]. split; [reflexivity|].
  exact (proj1
           (proj1 (proj2
              (X6_consumption_series_zips_and_truncates (N := Z_numeric)
                 0 "2024-01-10" 2024 1
                 (mkenv (answering (carrying (JArr [ragged_document])))
                    (mkdate 2024 3 7))
                 logged_in fresh_world [("session", "cached")]
                 (carrying (JArr [ragged_document])) ragged_document
                 [JStr "a"; JStr "b"; JStr "c"] [JNum 1; JNum 2]
                 eq_refl eq_refl (fun _ _ => eq_refl) eq_refl
                 eq_refl eq_refl eq_refl))
              [] eq_refl)).
Defined.

(** X7: a response with status 200 whose document lacks the array of time
    stamps or of values, or is no object at all, is not turned into the
    empty series: the [KeyError] or [TypeError] of the decoding leaves the
    accessor, in both clients; and so does the [IndexError] of an empty
    array in the asynchronous client.  Only a body that is no JSON at all
    ends in the empty series. *)
Theorem X7_malformed_document_is_raised :
  forall {N : Numeric} (fuel : nat) (day : string) (year month : Z) (e : env)
         (self : client) (w : world) (jar : cookies) (r : response)
         (doc : json) (x : exn),
    _session self = Some jar ->
    is_none (_metering_point_id self) = false ->
    (forall url params, server e (sent w) (Get url params jar) = Reply r) ->
    status_code r = 200 ->
    series_of doc "meteredValues" = Raise x ->
    (x = KeyError \/ x = TypeError)
    /\ (forall rest, body r = Some (JArr (doc :: rest)) ->
        outcome (PyNoeSmartmeter.get_consumption_per_day (S fuel) day e self w)
        = Raise x
        /\ outcome (PyNoeSmartmeter.get_consumption_for_month (S fuel) year
                      month e self w) = Raise x)
    /\ (body r = Some doc ->
        outcome (noe_smartmeter.get_consumption_per_day (S fuel) day e self w)
        = Raise x
        /\ outcome (noe_smartmeter.get_consumption_for_month (S fuel) year
                      month e self w) = Raise x)
    /\ (body r = Some (JArr []) ->
        outcome (PyNoeSmartmeter.get_consumption_per_day (S fuel) day e self w)
        = Raise IndexError)
    /\ (body r = None ->
        outcome (PyNoeSmartmeter.get_consumption_per_day (S fuel) day e self w)
        = Ok []
        /\ outcome (noe_smartmeter.get_consumption_per_day (S fuel) day
                      e self w) = Ok []).
Proof.
  intros N fuel day year month e self w jar r doc x
         Hjar Hmp Hserver Hstatus Hdecode.
  pose proof (series_of_raises doc "meteredValues" x Hdecode) as Hx.
  assert (Hasync : PyNoeSmartmeter.caught x = false)
    by (destruct Hx; subst; reflexivity).
  assert (Hsync : noe_smartmeter.caught x = false)
    by (destruct Hx; subst; reflexivity).
  split; [exact Hx|].
  rewrite (async_per_day_replied fuel day e self w jar r Hjar Hmp
             (Hserver _ _) Hstatus),
          (async_for_month_replied fuel year month e self w jar r Hjar Hmp
             (Hserver _ _) Hstatus),
          (sync_per_day_replied fuel day e self w jar r Hjar
             (Hserver _ _) Hstatus),
          (sync_for_month_replied fuel year month e self w jar r Hjar
             (Hserver _ _) Hstatus).
  unfold outcome, json_of. cbn [fst].
  repeat split; intros; rewrite H;
    cbn [subscript0 and_then_result swallow];
    rewrite ?Hdecode; cbn [swallow]; rewrite ?Hasync, ?Hsync; reflexivity.
Qed.

(** A document without the array of values. *)
Lemma X7_malformed_document_witness :
  let r := carrying (JArr [keyless_document]) in
  let e := mkenv (answering r) (mkdate 2024 3 7) in
  series_of keyless_document "meteredValues" = Raise KeyError
  /\ outcome (PyNoeSmartmeter.get_consumption_per_day 1 "2024-01-10" e
                logged_in fresh_world)
     = Raise KeyError.
Proof.
  split; [reflexivity|].
  exact (proj1
           (proj1 (proj2
              (X7_malformed_document_is_raised (N := Z_numeric)
                 0 "2024-01-10" 2024 1
                 (mkenv (answering (carrying (JArr [keyless_document])))
                    (mkdate 2024 3 7))
                 logged_in fresh_world [("session", "cached")]
                 (carrying (JArr [keyless_document])) keyless_document KeyError
                 eq_refl eq_refl (fun _ _ => eq_refl) eq_refl eq_refl))
              [] eq_refl)).
Defined.

Section Surfacing.
Context {N : Numeric}.

(** The turn of the loop that sees 401, in the synchronous client. *)
Lemma sync_loop_on_401 (fuel : nat) (url : string)
  (params : list (string * param)) (e : env) (self : client) (w : world)
  (jar : cookies) (r : response) :
  _session self = Some jar ->
  server e (sent w) (Get url params jar) = Reply r ->
  status_code r = 401 ->
  noe_smartmeter.call_api_loop (S fuel) url params 0 e self w
  = bind (noe_smartmeter._authenticate (_username self) (_password self))
      (fun _ => ret None) e
      (with_session (Some (jar_after r)) self)
      (after_request (Get url params jar) w).
Proof.
  intros Hjar Hreply Hstatus.
  cbn [noe_smartmeter.call_api_loop Z.ltb Z.compare].
  unfold noe_smartmeter.session_get. unfold_monad.
  rewrite Hjar, Hreply, Hstatus.
  change (401 =? 401) with true. cbv iota beta.
  cbn [_username _password with_session].
  unfold after_request.
  destruct (noe_smartmeter._authenticate _ _ e _ _) as [[[ok|x|] self'] w'];
    try reflexivity.
  apply (loop_ends_after_reauthentication fuel url params e self' w').
Qed.

(** [url + (account_id or "")] for an account number that is a string. *)
Lemma concat_account (base account_id : string) :
  concat base (py_or (JStr account_id) (JStr "")) = Ok (base ++ account_id).
Proof.
  unfold py_or, truthy.
  destruct (String.eqb_spec account_id ""); [subst account_id|]; reflexivity.
Qed.

End Surfacing.





Section Discovery.
Context {N : Numeric}.

Lemma truthy_py_and (a b : json) :
  truthy (py_and a b) = truthy a && truthy b.
Proof.
  unfold py_and. destruct (truthy a) eqn:Ha; cbn; [reflexivity | exact Ha].
Qed.

Lemma py_and_bools (a b : bool) : py_and (JBool a) (JBool b) = JBool (a && b).
Proof. destruct a; reflexivity. Qed.

Lemma combine_fst_snd {A B : Type} (l : list (A * B)) :
  combine (map fst l) (map snd l) = l.
Proof.
  induction l as [|[a b] l IH]; cbn; [reflexivity | now rewrite IH].
Qed.

Lemma series_of_document (series : list (string * option num)) :
  series_of (document_of series) "meteredValues" = Ok (map bucket series)
  /\ series_of (document_of series) "values" = Ok (map bucket series).
Proof.
  unfold series_of, document_of. cbn.
  rewrite combine_fst_snd. split; reflexivity.
Qed.

Lemma prefix_accounting_meter (account_id : string) :
  prefix API_ACCOUNTING_DETAILS_URL
    ((API_METER_DETAILS_URL ++ "?context=2&accountId=") ++ account_id) = false
  /\ prefix API_METER_DETAILS_URL
       ((API_METER_DETAILS_URL ++ "?context=2&accountId=") ++ account_id)
     = true.
Proof. split; reflexivity. Qed.


Lemma async_accounting_replied (fuel : nat) (e : env) (self : client)
  (w : world) (jar : cookies) (r : response) (entry : json)
  (rest : list json) (a b c d : json) :
  _session self = Some jar ->
  server e (sent w) (accounting_request jar) = Reply r ->
  status_code r = 200 ->
  body r = Some (JArr (entry :: rest)) ->
  subscript entry "hasSmartMeter" = Ok a ->
  subscript entry "hasElectricity" = Ok b ->
  subscript entry "hasCommunicative" = Ok c ->
  subscript entry "hasActive" = Ok d ->
  PyNoeSmartmeter.get_accounting_details (S fuel) e self w
  = (match subscript entry "accountId" with
     | Ok v => Ok entry
     | Raise x => Raise x
     | OutOfFuel => OutOfFuel
     end,
     match subscript entry "accountId" with
     | Ok v =>
         with_account_id v
           (with_supports_api (py_and (py_and (py_and a b) c) d)
              (with_session (Some (jar_after r)) self))
     | _ =>
         with_supports_api (py_and (py_and (py_and a b) c) d)
           (with_session (Some (jar_after r)) self)
     end,
     after_request (accounting_request jar) w).
Proof.
  intros Hjar Hreply Hstatus Hbody Ha Hb Hc Hd.
  unfold PyNoeSmartmeter.get_accounting_details. unfold_monad.
  unfold accounting_request in Hreply.
  rewrite (async_call_api_replied fuel _ _ e self w jar r Hjar Hreply Hstatus).
  unfold json_of_returned, json_of. rewrite Hbody.
  cbn [and_then_result subscript0]. rewrite Ha, Hb, Hc, Hd.
  destruct (subscript entry "accountId"); reflexivity.
Qed.

Lemma async_meter_replied (fuel : nat) (e : env) (self : client)
  (w : world) (jar : cookies) (r : response) (entry : json)
  (rest : list json) (account_id : string) (metering_point_id : json) :
  _session self = Some jar ->
  _account_id self = JStr account_id ->
  server e (sent w) (meter_request account_id jar) = Reply r ->
  status_code r = 200 ->
  body r = Some (JArr (entry :: rest)) ->
  subscript entry "meteringPointId" = Ok metering_point_id ->
  PyNoeSmartmeter.get_meter_details (S fuel) e self w
  = (Ok entry,
     with_metering_point_id metering_point_id
       (with_session (Some (jar_after r)) self),
     after_request (meter_request account_id jar) w).
Proof.
  intros Hjar Hacc Hreply Hstatus Hbody Hmp.
  unfold PyNoeSmartmeter.get_meter_details. unfold_monad.
  rewrite Hacc. cbn [is_none]. rewrite ?Hacc.
  rewrite concat_account. unfold meter_request in Hreply.
  rewrite (async_call_api_replied fuel _ _ e self w jar r Hjar Hreply Hstatus).
  unfold json_of_returned, json_of. rewrite Hbody.
  cbn [and_then_result subscript0]. rewrite Hmp. reflexivity.
Qed.

End Discovery.

(** X10: a client that has a session but knows neither its account nor its
    metering point finds them out on the first consumption call: it asks
    for the accounting record, then for the meter of the account number it
    got, then for the consumption of the metering point it got, and keeps
    both numbers and the capability flag.  The next call sends the
    consumption request alone. *)
Theorem X10_first_consumption_call_discovers_the_meter :
  forall {N : Numeric} (fuel : nat) (day : string) (today : date)
         (jar : cookies) (username password account_id : string)
         (a b c d : bool) (metering_point_id : json)
         (series : list (string * option num)) (w : world),
    is_none metering_point_id = false ->
    let e := mkenv
               (portal (accounting_entry (JStr account_id) (JBool a) (JBool b)
                          (JBool c) (JBool d))
                       (meter_entry metering_point_id)
                       (JArr [document_of series]))
               today in
    let self := mkclient (JBool false) JNull JNull (Some jar) username
                  password in
    let self' := mkclient (JBool (a && b && c && d)) metering_point_id
                   (JStr account_id) (Some jar) username password in
    let w' := after_request (day_request self' day jar)
                (after_request (meter_request account_id jar)
                   (after_request (accounting_request jar) w)) in
    PyNoeSmartmeter.get_consumption_per_day (S fuel) day e self w
    = (Ok (map bucket series), self', w')
    /\ PyNoeSmartmeter.get_consumption_per_day (S fuel) day e self' w'
       = (Ok (map bucket series), self',
          after_request (day_request self' day jar) w').
Proof.
  intros N fuel day today jar username password account_id a b c d
         metering_point_id series w Hmp e self self' w'.
  assert (Hday : forall w0,
            PyNoeSmartmeter.get_consumption_per_day (S fuel) day e self' w0
            = (Ok (map bucket series), self',
               after_request (day_request self' day jar) w0)).
  { intros w0.
    rewrite (async_per_day_replied fuel day e self' w0 jar
               (mkresponse 200 (Some (JArr [document_of series])) jar)
               eq_refl Hmp eq_refl eq_refl).
    unfold json_of. cbn [body and_then_result subscript0].
    rewrite (proj1 (series_of_document series)). reflexivity. }
  split; [|apply Hday].
  assert (Hmeter :
            PyNoeSmartmeter.get_meter_details (S fuel) e self w
            = (Ok (meter_entry metering_point_id), self',
               after_request (meter_request account_id jar)
                 (after_request (accounting_request jar) w))).
  { unfold PyNoeSmartmeter.get_meter_details. unfold_monad.
    cbn [_account_id self is_none].
    rewrite (async_accounting_replied fuel e self w jar
               (mkresponse 200
                  (Some (JArr [accounting_entry (JStr account_id) (JBool a)
                                 (JBool b) (JBool c) (JBool d)])) jar)
               (accounting_entry (JStr account_id) (JBool a) (JBool b)
                  (JBool c) (JBool d))
               [] (JBool a) (JBool b) (JBool c) (JBool d)
               eq_refl eq_refl eq_refl eq_refl eq_refl eq_refl eq_refl eq_refl).
    change (subscript
              (accounting_entry (JStr account_id) (JBool a) (JBool b)
                 (JBool c) (JBool d)) "accountId")
      with (Ok (JStr account_id)).
    cbv iota. cbn [_account_id with_account_id].
    rewrite concat_account.
    rewrite !py_and_bools. cbn [jar_after].
    change (with_account_id (JStr account_id)
              (with_supports_api (JBool (a && b && c && d))
                 (with_session (Some jar) self)))
      with (mkclient (JBool (a && b && c && d)) JNull (JStr account_id)
              (Some jar) username password).
    set (self1 := mkclient (JBool (a && b && c && d)) JNull (JStr account_id)
                    (Some jar) username password).
    set (w1 := after_request (accounting_request jar) w).
    rewrite (async_call_api_replied fuel
               ((API_METER_DETAILS_URL ++ "?context=2&accountId=")
                ++ account_id) [] e self1 w1 jar
               (mkresponse 200 (Some (JArr [meter_entry metering_point_id]))
                  jar) eq_refl eq_refl eq_refl).
    reflexivity. }
  unfold PyNoeSmartmeter.get_consumption_per_day at 1.
  unfold PyNoeSmartmeter.ensure_metering_point. unfold_monad.
  cbn [_metering_point_id self is_none].
  rewrite Hmeter.
  pose proof (Hday (after_request (meter_request account_id jar)
                      (after_request (accounting_request jar) w))) as Hrun.
  unfold PyNoeSmartmeter.get_consumption_per_day,
    PyNoeSmartmeter.ensure_metering_point in Hrun.
  unfold_monad. cbn [_metering_point_id self'] in Hrun. rewrite Hmp in Hrun.
  exact Hrun.
Qed.


(** A client fresh from a login and the worked series. *)
Lemma X10_first_consumption_call_witness :
  let e := mkenv (N := Z_numeric)
             (portal (accounting_entry (JStr "4711") (JBool true) (JBool true)
                        (JBool true) (JBool false))
                     (meter_entry (JStr "AT0020000000000000000000020000001"))
                     (JArr [document_of worked_series]))
             (mkdate 2024 3 7) in
  let self := mkclient (N := Z_numeric) (JBool false) JNull JNull
                (Some [("session", "fresh")]) "user" "secret" in
  is_none (N := Z_numeric) (JStr "AT0020000000000000000000020000001") = false
  /\ outcome (PyNoeSmartmeter.get_consumption_per_day 1 "2024-01-10" e self
                fresh_world)
     = Ok (map bucket worked_series)
  /\ final_client (PyNoeSmartmeter.get_consumption_per_day 1 "2024-01-10" e
                     self fresh_world)
     = mkclient (JBool false) (JStr "AT0020000000000000000000020000001")
         (JStr "4711") (Some [("session", "fresh")]) "user" "secret".
Proof.
  split; [reflexivity|].
  pose proof (proj1 (X10_first_consumption_call_discovers_the_meter
                       (N := Z_numeric) 0 "2024-01-10" (mkdate 2024 3 7)
                       [("session", "fresh")] "user" "secret" "4711"
                       true true true false
                       (JStr "AT0020000000000000000000020000001")
                       worked_series fresh_world eq_refl)) as Hrun.
  cbv zeta in Hrun.
  split; [exact (f_equal outcome Hrun) | exact (f_equal final_client Hrun)].
Defined.

(** X11: [get_accounting_details] returns the first record of the payload,
    keeps its account number, and sets [supports_api] to the conjunction of
    the four flags as Python's [and] computes it: the result is true
    exactly when all four flags are, and for flags that are booleans it is
    their boolean conjunction. *)
Theorem X11_supports_api_is_the_conjunction_of_the_flags :
  forall {N : Numeric} (fuel : nat) (e : env) (self : client) (w : world)
         (jar : cookies) (r : response) (entry : json) (rest : list json)
         (a b c d account_id : json),
    _session self = Some jar ->
    server e (sent w) (accounting_request jar) = Reply r ->
    status_code r = 200 ->
    body r = Some (JArr (entry :: rest)) ->
    subscript entry "hasSmartMeter" = Ok a ->
    subscript entry "hasElectricity" = Ok b ->
    subscript entry "hasCommunicative" = Ok c ->
    subscript entry "hasActive" = Ok d ->
    subscript entry "accountId" = Ok account_id ->
    let run := PyNoeSmartmeter.get_accounting_details (S fuel) e self w in
    outcome run = Ok entry
    /\ _account_id (final_client run) = account_id
    /\ truthy (supports_api (final_client run))
       = truthy a && truthy b && truthy c && truthy d
    /\ (forall x y z t : bool,
         a = JBool x -> b = JBool y -> c = JBool z -> d = JBool t ->
         supports_api (final_client run) = JBool (x && y && z && t))
    /\ final_world run = after_request (accounting_request jar) w.
Proof.
  intros N fuel e self w jar r entry rest a b c d account_id
         Hjar Hreply Hstatus Hbody Ha Hb Hc Hd Hacc run.
  subst run.
  rewrite (async_accounting_replied fuel e self w jar r entry rest a b c d
             Hjar Hreply Hstatus Hbody Ha Hb Hc Hd).
  rewrite Hacc. unfold outcome, final_client, final_world.
  cbn [fst snd _account_id supports_api with_account_id with_supports_api].
  split; [reflexivity|]. split; [reflexivity|]. split.
  - rewrite !truthy_py_and. reflexivity.
  - split; [|reflexivity].
    intros x y z t -> -> -> ->. rewrite !py_and_bools. reflexivity.
Qed.

(** An account with a smart meter that is not active. *)
Lemma X11_supports_api_witness :
  let entry := accounting_entry (N := Z_numeric) (JStr "4711") (JBool true)
                 (JBool true) (JBool true) (JBool false) in
  let e := mkenv (N := Z_numeric)
             (portal entry (meter_entry JNull) JNull) (mkdate 2024 3 7) in
  _session (N := Z_numeric) logged_in = Some [("session", "cached")]
  /\ subscript entry "hasActive" = Ok (JBool false)
  /\ subscript entry "accountId" = Ok (JStr "4711")
  /\ supports_api
       (final_client
          (PyNoeSmartmeter.get_accounting_details 1 e logged_in fresh_world))
     = JBool false.
Proof.
  split; [reflexivity|]. split; [reflexivity|]. split; [reflexivity|].
  exact (proj1 (proj2 (proj2 (proj2
           (X11_supports_api_is_the_conjunction_of_the_flags (N := Z_numeric)
              0
              (mkenv
                 (portal
                    (accounting_entry (JStr "4711") (JBool true) (JBool true)
                       (JBool true) (JBool false))
                    (meter_entry JNull) JNull)
                 (mkdate 2024 3 7))
              logged_in fresh_world [("session", "cached")]
              (mkresponse 200
                 (Some (JArr [accounting_entry (JStr "4711") (JBool true)
                                (JBool true) (JBool true) (JBool false)]))
                 [("session", "cached")])
              (accounting_entry (JStr "4711") (JBool true) (JBool true)
                 (JBool true) (JBool false))
              [] (JBool true) (JBool true) (JBool true) (JBool false)
              (JStr "4711")
              eq_refl eq_refl eq_refl eq_refl eq_refl eq_refl eq_refl eq_refl
              eq_refl))))
           true true true false eq_refl eq_refl eq_refl eq_refl).
Defined.

(** X12: the constructor of the synchronous client, on a machine without a
    session file and against a provider that accepts the login, logs in,
    saves the session, asks for the accounting record and for the meter of
    its account number, and ends with the credentials, the session, both
    numbers and the capability flag in place, whatever the client held
    before: three requests in this order. *)
Theorem X12_sync_constructor_logs_in_and_discovers :
  forall {N : Numeric} (fuel : nat) (today : date)
         (username password account_id : string) (a b c d : bool)
         (metering_point_id consumption : json) (prior : client)
         (history : list request),
    let e := mkenv
               (portal (accounting_entry (JStr account_id) (JBool a) (JBool b)
                          (JBool c) (JBool d))
                       (meter_entry metering_point_id) consumption)
               today in
    let jar := [("session", "fresh")] in
    noe_smartmeter.__init__ (S fuel) username password e prior
      (mkworld None history)
    = (Ok tt,
       mkclient (JBool (a && b && c && d)) metering_point_id (JStr account_id)
         (Some jar) username password,
       mkworld (Some (Pickled jar))
         (meter_request account_id jar
          :: accounting_request jar
          :: Post AUTH_URL AsJson [("user", username); ("pwd", password)] []
          :: history)).
Proof.
  intros N fuel today username password account_id a b c d
         metering_point_id consumption prior history e jar.
  unfold noe_smartmeter.__init__, noe_smartmeter._authenticate,
    noe_smartmeter._retrieve_user_data,
    noe_smartmeter.get_accounting_details, noe_smartmeter.get_meter_details.
  unfold_monad.
  cbn -[noe_smartmeter._call_api append API_ACCOUNTING_DETAILS_URL
        API_METER_DETAILS_URL AUTH_URL].
  match goal with
  | |- context [noe_smartmeter._call_api (S fuel) ?u [] e ?s ?ww] =>
      rewrite (sync_call_api_replied fuel u [] e s ww jar
                 (mkresponse 200
                    (Some (JArr [accounting_entry (JStr account_id) (JBool a)
                                   (JBool b) (JBool c) (JBool d)])) jar)
                 eq_refl eq_refl eq_refl)
  end.
  cbn [json_of_returned json_of body and_then_result subscript0].
  change (subscript
            (accounting_entry (JStr account_id) (JBool a) (JBool b)
               (JBool c) (JBool d)) "accountId")
    with (Ok (JStr account_id)).
  cbv iota. cbn [concat jar_after].
  match goal with
  | |- context [noe_smartmeter._call_api (S fuel) ?u [] e ?s ?ww] =>
      rewrite (sync_call_api_replied fuel u [] e s ww jar
                 (mkresponse 200 (Some (JArr [meter_entry metering_point_id]))
                    jar)
                 eq_refl eq_refl eq_refl)
  end.
  cbn. rewrite !py_and_bools. reflexivity.
Qed.

Section Archive.
Context {N : Numeric}.

Lemma with_session_same (self : client) (jar : cookies) :
  _session self = Some jar -> with_session (Some jar) self = self.
Proof.
  destruct self; cbn. intros ->. reflexivity.
Qed.

(** The later-years block fetches the years after the year of the input up
    to the current one, and none for an input of the current year or of a
    later one. *)
Lemma async_later_years_range (fuel : nat) (current_date : date)
  (input_date : datetime) (energy_sum : num) :
  PyNoeSmartmeter.add_later_years fuel current_date input_date energy_sum
  = PyNoeSmartmeter.later_years_loop fuel
      (later_years current_date input_date) energy_sum.
Proof.
  unfold PyNoeSmartmeter.add_later_years, later_years, range.
  destruct (Z.eqb_spec (year input_date) (date_year current_date)) as [->|Hne];
    cbn [negb].
  - replace (date_year current_date + 1 - (date_year current_date + 1)) with 0
      by lia. reflexivity.
  - destruct (Z.leb_spec (year input_date + 1) (date_year current_date)).
    + reflexivity.
    + replace (Z.to_nat (date_year current_date + 1 - year input_date))
        with 0%nat by lia.
      replace (Z.to_nat (date_year current_date + 1 - (year input_date + 1)))
        with 0%nat by lia.
      reflexivity.
Qed.

Lemma sync_later_years_range (fuel : nat) (current_date : date)
  (input_date : datetime) (energy_sum : num) :
  noe_smartmeter.add_later_years fuel current_date input_date energy_sum
  = noe_smartmeter.later_years_loop fuel
      (later_years current_date input_date) energy_sum.
Proof.
  unfold noe_smartmeter.add_later_years, later_years, range.
  destruct (Z.eqb_spec (year input_date) (date_year current_date)) as [->|Hne];
    cbn [negb].
  - replace (date_year current_date + 1 - (date_year current_date + 1)) with 0
      by lia. reflexivity.
  - destruct (Z.leb_spec (year input_date + 1) (date_year current_date)).
    + reflexivity.
    + replace (Z.to_nat (date_year current_date + 1 - year input_date))
        with 0%nat by lia.
      replace (Z.to_nat (date_year current_date + 1 - (year input_date + 1)))
        with 0%nat by lia.
      reflexivity.
Qed.


Variable day_series month_series : list (string * option num).
Variable year_series : Z -> list (string * option num).
Variable current : date.

Local Abbreviation e_archive :=
  (mkenv (archive day_series month_series year_series) current).

Lemma archive_per_day (fuel : nat) (day : string) (self : client) (w : world)
  (jar : cookies) :
  _session self = Some jar ->
  noe_smartmeter.get_consumption_per_day (S fuel) day e_archive self w
  = (Ok (map bucket day_series), self,
     after_request (day_request self day jar) w).
Proof.
  intros Hjar.
  rewrite (sync_per_day_replied fuel day e_archive self w jar
             (mkresponse 200 (Some (document_of day_series)) jar)
             Hjar eq_refl eq_refl).
  unfold json_of. cbn [body and_then_result jar_after].
  rewrite (proj1 (series_of_document day_series)).
  rewrite (with_session_same self jar Hjar). reflexivity.
Qed.

Lemma archive_for_month (fuel : nat) (year month : Z) (self : client)
  (w : world) (jar : cookies) :
  _session self = Some jar ->
  noe_smartmeter.get_consumption_for_month (S fuel) year month e_archive self w
  = (Ok (map bucket month_series), self,
     after_request (month_request self year month jar) w).
Proof.
  intros Hjar.
  rewrite (sync_for_month_replied fuel year month e_archive self w jar
             (mkresponse 200 (Some (document_of month_series)) jar)
             Hjar eq_refl eq_refl).
  unfold json_of. cbn [body and_then_result jar_after].
  rewrite (proj1 (series_of_document month_series)).
  rewrite (with_session_same self jar Hjar). reflexivity.
Qed.

Lemma archive_for_year (fuel : nat) (year : Z) (self : client)
  (w : world) (jar : cookies) :
  _session self = Some jar ->
  noe_smartmeter.get_consumption_for_year (S fuel) year e_archive self w
  = (Ok (map bucket (year_series year)), self,
     after_request (year_request self year jar) w).
Proof.
  intros Hjar.
  assert (Hreply : server e_archive (sent w) (year_request self year jar)
                   = Reply (mkresponse 200
                              (Some (document_of (year_series year))) jar)).
  { reflexivity. }
  rewrite (sync_for_year_replied fuel year e_archive self w jar
             (mkresponse 200 (Some (document_of (year_series year))) jar)
             Hjar Hreply eq_refl).
  unfold json_of. cbn [body and_then_result jar_after].
  rewrite (proj2 (series_of_document (year_series year))).
  rewrite (with_session_same self jar Hjar). reflexivity.
Qed.

Lemma archive_later_years_loop (fuel : nat) (self : client) (jar : cookies) :
  _session self = Some jar ->
  forall (years : list Z) (energy_sum : num) (w : world),
    noe_smartmeter.later_years_loop (S fuel) years energy_sum e_archive self w
    = (Ok (fold_left (fun energy y => add energy (total_of (year_series y)))
             years energy_sum),
       self,
       mkworld (session_file w)
         (rev (map (fun y => year_request self y jar) years) ++ sent w)).
Proof.
  intros Hjar. induction years as [|y years IH]; intros energy_sum w.
  - destruct w; reflexivity.
  - cbn [noe_smartmeter.later_years_loop]. unfold_monad.
    rewrite (archive_for_year fuel y self w jar Hjar).
    rewrite add_non_null_buckets. rewrite IH.
    cbn [fold_left map rev after_request session_file sent].
    unfold total_of. rewrite <- app_assoc. reflexivity.
Qed.

Lemma archive_always_served :
  always_served (archive day_series month_series year_series).
Proof.
  intros history [url params jar | url enc payload jar]; reflexivity.
Qed.

Lemma archive_since_date (fuel : nat) (input_date_string : string)
  (offset : num) (self : client) (w : world) (jar : cookies)
  (input_date : datetime) :
  _session self = Some jar ->
  strptime_dmY_HM input_date_string = Ok input_date ->
  date_eqb current (date_of input_date) = false ->
  forallb well_timed day_series = true ->
  forallb (fun b => implb (after input_date b) (has_value b)) day_series
  = true ->
  1 <= date_month current ->
  noe_smartmeter.get_consumption_since_date (S fuel) input_date_string offset
    e_archive self w
  = (Ok (strftime_dmY_HM current,
         since_total day_series month_series year_series current input_date
           offset),
     self,
     mkworld (session_file w)
       (since_requests self current input_date jar ++ sent w)).
Proof.
  intros Hjar Hparse Hdate Htimed Hvalued Hmonth.
  pose proof (valid_datetime_bounds input_date
                (strptime_dmY_HM_valid _ _ Hparse)) as [Hm Hd].
  unfold noe_smartmeter.get_consumption_since_date. unfold_monad.
  rewrite Hparse. cbn [today]. rewrite Hdate.
  unfold noe_smartmeter.add_day_remainder, noe_smartmeter.add_month_remainder,
    noe_smartmeter.add_year_remainder.
  unfold_monad.
  rewrite (archive_per_day fuel _ self w jar Hjar).
  rewrite (day_loop_buckets input_date day_series Htimed Hvalued zero).
  rewrite (archive_for_month fuel _ _ self _ jar Hjar).
  rewrite py_slice_from_index by lia. unfold from_index.
  rewrite at_indices_map, add_non_null_buckets.
  rewrite (archive_for_year fuel _ self _ jar Hjar).
  rewrite py_slice_from_index_to;
    [|lia|destruct (year input_date =? date_year current); lia].
  unfold from_index_to. rewrite at_indices_map, add_non_null_buckets.
  rewrite sync_later_years_range.
  rewrite (archive_later_years_loop fuel self jar Hjar).
  unfold since_total, since_requests, total_of, from_index, from_index_to,
    after_request.
  cbn [session_file sent]. rewrite <- app_assoc. reflexivity.
Qed.

End Archive.



(** X14: the last block of the aggregation fetches exactly the years after
    the year of the input up to the current year: the choice of the first
    year in the code changes nothing.  For an input of the current year or
    of a later one it fetches nothing and leaves the sum as it is. *)
Theorem X14_later_years_are_the_years_after_the_input :
  forall {N : Numeric} (fuel : nat) (current_date : date)
         (input_date : datetime) (energy_sum : num),
    PyNoeSmartmeter.add_later_years fuel current_date input_date energy_sum
    = PyNoeSmartmeter.later_years_loop fuel
        (range (year input_date + 1) (date_year current_date + 1)) energy_sum
    /\ noe_smartmeter.add_later_years fuel current_date input_date energy_sum
       = noe_smartmeter.later_years_loop fuel
           (range (year input_date + 1) (date_year current_date + 1))
           energy_sum
    /\ (date_year current_date <= year input_date ->
        forall e self w,
          PyNoeSmartmeter.add_later_years fuel current_date input_date
            energy_sum e self w = (Ok energy_sum, self, w)
          /\ noe_smartmeter.add_later_years fuel current_date input_date
               energy_sum e self w = (Ok energy_sum, self, w)).
Proof.
  intros N fuel current_date input_date energy_sum.
  split; [apply async_later_years_range|].
  split; [apply sync_later_years_range|].
  intros Hle e self w.
  rewrite async_later_years_range, sync_later_years_range.
  unfold later_years, range.
  replace (Z.to_nat (date_year current_date + 1 - (year input_date + 1)))
    with 0%nat by lia.
  split; reflexivity.
Qed.

(** An input of the current year: nothing is fetched. *)
Lemma X14_later_years_witness :
  date_year (mkdate 2024 3 7) <= year (mkdatetime 2024 1 2 5 30 0)
  /\ PyNoeSmartmeter.add_later_years (N := Z_numeric) 1 (mkdate 2024 3 7)
       (mkdatetime 2024 1 2 5 30 0) 5
       (mkenv (persistently 500) (mkdate 2024 3 7)) logged_in fresh_world
     = (Ok 5, logged_in, fresh_world).
Proof.
  assert (Hle : date_year (mkdate 2024 3 7)
                <= year (mkdatetime 2024 1 2 5 30 0)) by (cbn; lia).
  split; [exact Hle|].
  exact (proj1 (proj2 (proj2
           (X14_later_years_are_the_years_after_the_input (N := Z_numeric) 1
              (mkdate 2024 3 7) (mkdatetime 2024 1 2 5 30 0) 5))
           Hle (mkenv (persistently 500) (mkdate 2024 3 7)) logged_in
           fresh_world)).
Defined.

Section Down.
Context {N : Numeric}.
Variable e : env.
Hypothesis down : transport_down (server e).

Lemma async_accessors_down (fuel : nat) (day : string) (year month : Z)
  (self : client) (w : world) (jar : cookies) :
  _session self = Some jar ->
  is_none (_metering_point_id self) = false ->
  PyNoeSmartmeter.get_consumption_per_day (S fuel) day e self w
  = (Ok [], self, after_request (day_request self day jar) w)
  /\ PyNoeSmartmeter.get_consumption_for_month (S fuel) year month e self w
     = (Ok [], self, after_request (month_request self year month jar) w)
  /\ PyNoeSmartmeter.get_consumption_for_year (S fuel) year e self w
     = (Ok [], self, after_request (year_request self year jar) w).
Proof.
  intros Hjar Hmp.
  unfold PyNoeSmartmeter.get_consumption_per_day,
    PyNoeSmartmeter.get_consumption_for_month,
    PyNoeSmartmeter.get_consumption_for_year.
  repeat split;
    accessor_down Hmp async_call_api_failed fuel e self w jar Hjar down.
Qed.

Lemma sync_accessors_down (fuel : nat) (day : string) (year month : Z)
  (self : client) (w : world) (jar : cookies) :
  _session self = Some jar ->
  noe_smartmeter.get_consumption_per_day (S fuel) day e self w
  = (Ok [], self, after_request (day_request self day jar) w)
  /\ noe_smartmeter.get_consumption_for_month (S fuel) year month e self w
     = (Ok [], self, after_request (month_request self year month jar) w)
  /\ noe_smartmeter.get_consumption_for_year (S fuel) year e self w
     = (Ok [], self, after_request (year_request self year jar) w).
Proof.
  intros Hjar.
  unfold noe_smartmeter.get_consumption_per_day,
    noe_smartmeter.get_consumption_for_month,
    noe_smartmeter.get_consumption_for_year.
  repeat split;
    accessor_down Hjar sync_call_api_failed fuel e self w jar Hjar down.
Qed.

Lemma async_later_years_down (fuel : nat) (self : client) (jar : cookies) :
  _session self = Some jar ->
  is_none (_metering_point_id self) = false ->
  forall (years : list Z) (energy_sum : num) (w : world),
    PyNoeSmartmeter.later_years_loop (S fuel) years energy_sum e self w
    = (Ok (fold_left (fun energy _ => add energy zero) years energy_sum),
       self,
       mkworld (session_file w)
         (rev (map (fun y => year_request self y jar) years) ++ sent w)).
Proof.
  intros Hjar Hmp. induction years as [|y years IH]; intros energy_sum w.
  - destruct w; reflexivity.
  - cbn [PyNoeSmartmeter.later_years_loop]. unfold_monad.
    rewrite (proj2 (proj2 (async_accessors_down fuel "" y 0 self w jar
                             Hjar Hmp))).
    cbn [add_non_null non_null_values filter map py_sum sum_from
         and_then_result].
    rewrite IH.
    cbn [fold_left map rev after_request session_file sent].
    rewrite <- app_assoc. reflexivity.
Qed.

Lemma sync_later_years_down (fuel : nat) (self : client) (jar : cookies) :
  _session self = Some jar ->
  forall (years : list Z) (energy_sum : num) (w : world),
    noe_smartmeter.later_years_loop (S fuel) years energy_sum e self w
    = (Ok (fold_left (fun energy _ => add energy zero) years energy_sum),
       self,
       mkworld (session_file w)
         (rev (map (fun y => year_request self y jar) years) ++ sent w)).
Proof.
  intros Hjar. induction years as [|y years IH]; intros energy_sum w.
  - destruct w; reflexivity.
  - cbn [noe_smartmeter.later_years_loop]. unfold_monad.
    rewrite (proj2 (proj2 (sync_accessors_down fuel "" y 0 self w jar Hjar))).
    cbn [add_non_null non_null_values filter map py_sum sum_from
         and_then_result].
    rewrite IH.
    cbn [fold_left map rev after_request session_file sent].
    rewrite <- app_assoc. reflexivity.
Qed.

Lemma py_slices_nil {A : Type} (lo hi : Z) :
  py_slice_from lo (@nil A) = [] /\ py_slice lo hi (@nil A) = [].
Proof.
  unfold py_slice_from, py_slice. rewrite skipn_nil, firstn_nil.
  split; reflexivity.
Qed.

Lemma since_date_down (fuel : nat) (input_date_string : string)
  (offset : num) (self : client) (w : world) (jar : cookies)
  (input_date : datetime) :
  _session self = Some jar ->
  is_none (_metering_point_id self) = false ->
  strptime_dmY_HM input_date_string = Ok input_date ->
  date_eqb (today e) (date_of input_date) = false ->
  let total := nothing_but_offset (today e) input_date offset in
  let w' := mkworld (session_file w)
              (since_requests self (today e) input_date jar ++ sent w) in
  PyNoeSmartmeter.get_consumption_since_date (S fuel) input_date_string offset
    e self w
  = (Ok (mkreading (strftime_dmY_HM (today e)) total), self, w')
  /\ noe_smartmeter.get_consumption_since_date (S fuel) input_date_string
       offset e self w
     = (Ok (strftime_dmY_HM (today e), total), self, w').
Proof.
  intros Hjar Hmp Hparse Hdate total w'.
  unfold PyNoeSmartmeter.get_consumption_since_date,
    noe_smartmeter.get_consumption_since_date.
  unfold_monad. rewrite Hparse, Hdate.
  unfold PyNoeSmartmeter.add_day_remainder,
    PyNoeSmartmeter.add_month_remainder, PyNoeSmartmeter.add_year_remainder,
    noe_smartmeter.add_day_remainder, noe_smartmeter.add_month_remainder,
    noe_smartmeter.add_year_remainder.
  unfold_monad.
  split.
  - destruct (async_accessors_down fuel (strftime_Ymd input_date)
                (year input_date) (month input_date) self w jar Hjar Hmp)
      as (-> & _ & _).
    cbn [day_loop].
    destruct (async_accessors_down fuel "" (year input_date)
                (month input_date) self
                (after_request
                   (day_request self (strftime_Ymd input_date) jar) w)
                jar Hjar Hmp) as (_ & -> & _).
    rewrite (proj1 (py_slices_nil (day input_date) 0)).
    cbn [add_non_null non_null_values filter map py_sum sum_from
         and_then_result].
    match goal with
    | |- context [PyNoeSmartmeter.get_consumption_for_year _ _ _ _ ?w0] =>
        destruct (async_accessors_down fuel "" (year input_date) 0 self w0
                    jar Hjar Hmp) as (_ & _ & ->)
    end.
    rewrite (proj2 (py_slices_nil (month input_date) _)).
    cbn [add_non_null non_null_values filter map py_sum sum_from
         and_then_result].
    rewrite async_later_years_range.
    rewrite (async_later_years_down fuel self jar Hjar Hmp).
    subst total w'. unfold nothing_but_offset, since_requests, after_request.
    cbn [session_file sent]. rewrite <- app_assoc. reflexivity.
  - destruct (sync_accessors_down fuel (strftime_Ymd input_date)
                (year input_date) (month input_date) self w jar Hjar)
      as (-> & _ & _).
    cbn [day_loop].
    destruct (sync_accessors_down fuel "" (year input_date)
                (month input_date) self
                (after_request
                   (day_request self (strftime_Ymd input_date) jar) w)
                jar Hjar) as (_ & -> & _).
    rewrite (proj1 (py_slices_nil (day input_date) 0)).
    cbn [add_non_null non_null_values filter map py_sum sum_from
         and_then_result].
    match goal with
    | |- context [noe_smartmeter.get_consumption_for_year _ _ _ _ ?w0] =>
        destruct (sync_accessors_down fuel "" (year input_date) 0 self w0
                    jar Hjar) as (_ & _ & ->)
    end.
    rewrite (proj2 (py_slices_nil (month input_date) _)).
    cbn [add_non_null non_null_values filter map py_sum sum_from
         and_then_result].
    rewrite sync_later_years_range.
    rewrite (sync_later_years_down fuel self jar Hjar).
    subst total w'. unfold nothing_but_offset, since_requests, after_request.
    cbn [session_file sent]. rewrite <- app_assoc. reflexivity.
Qed.

End Down.



Section Lazy.
Context {N : Numeric}.

(** Without a session and without a session file, [_call_api] of the
    asynchronous client logs in and goes on as a client that holds the
    session of the login. *)
Lemma async_call_api_logs_in_first (fuel : nat) (url : string)
  (params : list (string * param)) (e : env) (self : client) (w : world)
  (r : response) :
  _session self = None ->
  session_file w = None ->
  server e (sent w) (login_request self) = Reply r ->
  status_code r = 200 ->
  PyNoeSmartmeter._call_api fuel url params e self w
  = PyNoeSmartmeter._call_api fuel url params e
      (with_session (Some (jar_after r)) self)
      (mkworld (Some (Pickled (jar_after r))) (login_request self :: sent w)).
Proof.
  intros Hnone Hfile Hreply Hstatus.
  unfold PyNoeSmartmeter._call_api. unfold_monad.
  rewrite Hnone. cbn [_session with_session].
  rewrite authenticate_unfold, Hfile, fresh_login_unfold. cbv zeta.
  rewrite Hreply, Hstatus. reflexivity.
Qed.

End Lazy.

(** X16: the constructor of the asynchronous client sends nothing; the
    first consumption call of a new client, on a machine without a session
    file and against a provider that accepts the login, logs in with the
    credentials of the constructor, saves the session, asks for the
    accounting record and for the meter, and only then for the series: four
    requests in this order. *)
Theorem X16_new_async_client_logs_in_on_first_use :
  forall {N : Numeric} (fuel : nat) (day : string) (today : date)
         (username password account_id : string) (a b c d : bool)
         (metering_point_id : json) (series : list (string * option num))
         (history : list request),
    let e := mkenv
               (portal (accounting_entry (JStr account_id) (JBool a) (JBool b)
                          (JBool c) (JBool d))
                       (meter_entry metering_point_id)
                       (JArr [document_of series]))
               today in
    let jar := [("session", "fresh")] in
    let self' := mkclient (JBool (a && b && c && d)) metering_point_id
                   (JStr account_id) (Some jar) username password in
    PyNoeSmartmeter.get_consumption_per_day (S fuel) day e
      (PyNoeSmartmeter.__init__ username password) (mkworld None history)
    = (Ok (map bucket series), self',
       mkworld (Some (Pickled jar))
         (day_request self' day jar
          :: meter_request account_id jar
          :: accounting_request jar
          :: Post AUTH_URL Form [("user", username); ("pwd", password)] []
          :: history)).
Proof.
  intros N fuel day today username password account_id a b c d
         metering_point_id series history e jar self'.
  unfold PyNoeSmartmeter.get_consumption_per_day,
    PyNoeSmartmeter.ensure_metering_point, PyNoeSmartmeter.get_meter_details,
    PyNoeSmartmeter.get_accounting_details, PyNoeSmartmeter.__init__.
  unfold_monad.
  cbn [_metering_point_id _account_id is_none].
  match goal with
  | |- context [PyNoeSmartmeter._call_api (S fuel) ?u [] e ?s ?ww] =>
      rewrite (async_call_api_logs_in_first (S fuel) u [] e s ww
                 (mkresponse 200 None jar) eq_refl eq_refl eq_refl eq_refl)
  end.
  cbn [jar_after with_session sent login_request _username _password].
  match goal with
  | |- context [PyNoeSmartmeter._call_api (S fuel) ?u [] e ?s ?ww] =>
      rewrite (async_call_api_replied fuel u [] e s ww jar
                 (mkresponse 200
                    (Some (JArr [accounting_entry (JStr account_id) (JBool a)
                                   (JBool b) (JBool c) (JBool d)])) jar)
                 eq_refl eq_refl eq_refl)
  end.
  cbn [json_of_returned json_of body and_then_result subscript0].
  change (subscript
            (accounting_entry (JStr account_id) (JBool a) (JBool b)
               (JBool c) (JBool d)) "accountId")
    with (Ok (JStr account_id)).
  cbv iota. cbn [concat jar_after].
  cbn -[PyNoeSmartmeter._call_api append API_ACCOUNTING_DETAILS_URL
        API_METER_DETAILS_URL API_CONSUMPTION_URL AUTH_URL py_and].
  rewrite !py_and_bools, concat_account.
  match goal with
  | |- context [PyNoeSmartmeter._call_api (S fuel) ?u [] e ?s ?ww] =>
      rewrite (async_call_api_replied fuel u [] e s ww jar
                 (mkresponse 200 (Some (JArr [meter_entry metering_point_id]))
                    jar)
                 eq_refl eq_refl eq_refl)
  end.
  cbn -[PyNoeSmartmeter._call_api append API_ACCOUNTING_DETAILS_URL
        API_METER_DETAILS_URL API_CONSUMPTION_URL AUTH_URL].
  match goal with
  | |- context [PyNoeSmartmeter._call_api (S fuel) ?u ?p e ?s ?ww] =>
      rewrite (async_call_api_replied fuel u p e s ww jar
                 (mkresponse 200 (Some (JArr [document_of series])) jar)
                 eq_refl eq_refl eq_refl)
  end.
  cbn [json_of_returned json_of body and_then_result subscript0].
  rewrite (proj1 (series_of_document series)).
  reflexivity.
Qed.

Lemma digit_char_digit (z : Z) :
  is_digit (digit_char z) = true /\ digit_value (digit_char z) = z mod 10.
Proof.
  unfold is_digit, digit_value, digit_char.
  pose proof (Z.mod_pos_bound z 10 ltac:(lia)) as Hz.
  rewrite nat_ascii_embedding by lia.
  rewrite Z2Nat.id by lia.
  split; [|lia].
  apply andb_true_iff. split; apply Z.leb_le; lia.
Qed.

Lemma read_digits_pad (width : nat) :
  forall (z : Z) (tail : string) (acc : Z) (len : nat),
    read_digits (pad width z tail) acc len
    = read_digits tail (acc * 10 ^ Z.of_nat width + z mod 10 ^ Z.of_nat width)
        (len + width).
Proof.
  induction width as [|width IH]; intros z tail acc len.
  - cbn [pad]. change (10 ^ Z.of_nat 0) with 1. rewrite Z.mod_1_r.
    f_equal; [lia | apply plus_n_O].
  - cbn [pad]. rewrite IH. cbn [read_digits].
    destruct (digit_char_digit z) as [-> ->].
    rewrite Nat2Z.inj_succ, Z.pow_succ_r by lia.
    rewrite (Z.rem_mul_r z 10 (10 ^ Z.of_nat width))
      by (try apply Z.pow_pos_nonneg; lia).
    f_equal; [lia | apply plus_n_Sm].
Qed.

Lemma read_d_digit (c : ascii) (rest : string) :
  is_digit c = true ->
  read_d (String c rest) = read_field false 2 1 31 (String c rest).
Proof.
  destruct c as [[] [] [] [] [] [] [] []]; intros H;
    try discriminate H; reflexivity.
Qed.

Lemma read_field_pad (exact : bool) (width : nat) (lo hi z : Z) (c : ascii)
  (tail : string) :
  is_digit c = false ->
  (1 <= width)%nat ->
  0 <= z < 10 ^ Z.of_nat width ->
  lo <= z <= hi ->
  read_field exact width lo hi (pad width z (String c tail))
  = Some (z, String c tail).
Proof.
  intros Hc Hw Hz Hrange. unfold read_field.
  rewrite read_digits_pad. cbn [read_digits]. rewrite Hc.
  rewrite Z.mod_small by lia. rewrite Z.mul_0_l, Z.add_0_l. cbn [Nat.add].
  rewrite Nat.eqb_refl, Nat.leb_refl.
  replace (Nat.leb 1 width) with true by (symmetry; apply Nat.leb_le; lia).
  replace (lo <=? z) with true by (symmetry; apply Z.leb_le; lia).
  replace (z <=? hi) with true by (symmetry; apply Z.leb_le; lia).
  destruct exact; reflexivity.
Qed.

Lemma strptime_strftime (d : date) :
  valid_date d = true ->
  1000 <= date_year d ->
  strptime_dmY_HM (strftime_dmY_HM d) = Ok (midnight d).
Proof.
  intros Hvalid Hyear.
  pose proof Hvalid as Hbounds. unfold valid_date in Hbounds.
  apply valid_datetime_bounds in Hbounds. cbn [midnight month day] in Hbounds.
  assert (Hy : date_year d <= 9999).
  { unfold valid_date, valid_datetime in Hvalid.
    rewrite !andb_true_iff, !Z.leb_le in Hvalid. cbn [midnight year] in Hvalid.
    lia. }
  unfold strptime_dmY_HM, strftime_dmY_HM.
  assert (Hd : read_d (pad 2 (date_day d)
                 (String "." (pad 2 (date_month d)
                    (String "." (pad 4 (date_year d) " 00:00")))))
               = Some (date_day d,
                       String "." (pad 2 (date_month d)
                         (String "." (pad 4 (date_year d) " 00:00"))))).
  { cbn [pad]. rewrite read_d_digit by apply digit_char_digit.
    apply (read_field_pad false 2 1 31 (date_day d) "."); [reflexivity|lia| |];
      change (10 ^ Z.of_nat 2) with 100; lia. }
  rewrite Hd. cbn [and_then read_char Ascii.eqb Bool.eqb].
  unfold read_m.
  rewrite (read_field_pad false 2 1 12 (date_month d) ".");
    [|reflexivity|lia|change (10 ^ Z.of_nat 2) with 100; lia|lia].
  cbn [and_then read_char Ascii.eqb Bool.eqb].
  unfold read_Y.
  rewrite (read_field_pad true 4 0 9999 (date_year d) " " "00:00");
    [|reflexivity|lia|change (10 ^ Z.of_nat 4) with 10000; lia|lia].
  cbn [and_then].
  change (read_spaces " 00:00") with (Some "00:00"). cbn [and_then].
  change (read_H "00:00") with (Some (0, ":00")). cbn [and_then].
  change (read_char ":" ":00") with (Some "00"). cbn [and_then].
  change (read_M "00") with (Some (0, "")). cbn [and_then].
  cbn [or_value_error finish]. fold (midnight d). fold (valid_date d).
  rewrite Hvalid. reflexivity.
Qed.

(** X17: the time stamp of a reading is accepted as an input time stamp:
    for a date with a year of four digits, what [strftime] writes,
    [strptime] reads back as that date at midnight.  So a reading handed
    back to [get_consumption_since_date] on the day it was made comes back
    as it is, and nothing is fetched, in both clients. *)
Theorem X17_reading_can_be_handed_back :
  forall {N : Numeric} (d : date),
    valid_date d = true ->
    1000 <= date_year d ->
    strptime_dmY_HM (strftime_dmY_HM d) = Ok (midnight d)
    /\ forall (fuel : nat) (offset : num) (e : env) (self : client)
              (w : world),
         today e = d ->
         PyNoeSmartmeter.get_consumption_since_date fuel (strftime_dmY_HM d)
           offset e self w
         = (Ok (mkreading (strftime_dmY_HM d) offset), self, w)
         /\ noe_smartmeter.get_consumption_since_date fuel
              (strftime_dmY_HM d) offset e self w
            = (Ok (strftime_dmY_HM d, offset), self, w).
Proof.
  intros N d Hvalid Hyear.
  pose proof (strptime_strftime d Hvalid Hyear) as Hparse.
  split; [exact Hparse|].
  intros fuel offset e self w Htoday.
  unfold PyNoeSmartmeter.get_consumption_since_date,
    noe_smartmeter.get_consumption_since_date.
  unfold_monad. rewrite Hparse, Htoday.
  change (date_of (midnight d)) with (mkdate (date_year d) (date_month d) (date_day d)).
  destruct d as [y m dd]. cbn [date_year date_month date_day].
  rewrite date_eqb_refl. split; reflexivity.
Qed.

(** The seventh of March 2025. *)
Lemma X17_reading_can_be_handed_back_witness :
  valid_date (mkdate 2025 3 7) = true
  /\ 1000 <= date_year (mkdate 2025 3 7)
  /\ strptime_dmY_HM (strftime_dmY_HM (mkdate 2025 3 7))
     = Ok (mkdatetime 2025 3 7 0 0 0).
Proof.
  split; [reflexivity|]. split; [cbn; lia|].
  exact (proj1 (X17_reading_can_be_handed_back (N := Z_numeric)
                  (mkdate 2025 3 7) eq_refl
                  ltac:(cbn; lia))).
Defined.
